(** * Student information management system: record store, validation and
      persistence.

    A shallow embedding of [src/utils/validator.py], [src/models/student.py],
    [src/managers/data_manager.py] and [src/managers/student_manager.py],
    and of the id list of the batch deletion menu of
    [src/ui/user_interface.py], followed by the properties of the record
    store stated in the specification and by further properties of the
    same code.

    Conventions of the embedding.
    - A Python [str] is the list of its code points ([pystr]); [len] is
      [length].
    - A dynamically typed Python value (a keyword argument, a value read
      from a JSON file) is a [value]; floating-point numbers are outside
      the embedding.
    - A [dict] is an association list in insertion order with one entry per
      key, as CPython keeps it.
    - A method that can raise returns an [outcome]; a method that mutates
      the manager or the file system is a function from [world] to an
      outcome and a new [world].  Log calls have no effect on the modelled
      state and are left out. *)

From Stdlib Require Import String Ascii.
From Stdlib Require Import List ZArith NArith Bool Lia.
From Stdlib Require DecimalFacts DecimalPos DecimalN.
Import ListNotations.

Set Implicit Arguments.

(* ================================================================== *)
(** * Python strings *)
(* ================================================================== *)

Definition char := N.
Bind Scope N_scope with char.
Definition pystr := list char.

(** An ASCII literal of the source, as a [pystr]. *)
Definition lit (s : string) : pystr :=
  map N_of_ascii (list_ascii_of_string s).

Fixpoint str_eqb (a b : pystr) : bool :=
  match a, b with
  | [], [] => true
  | x :: a', y :: b' => N.eqb x y && str_eqb a' b'
  | _, _ => false
  end.

(** ** Character classes *)

Definition in_range (lo hi c : N) : bool := (N.leb lo c) && (N.leb c hi).

(** [0-9] *)
Definition is_ascii_digit (c : char) : bool := in_range 48 57 c.
(** [a-zA-Z] *)
Definition is_ascii_letter (c : char) : bool :=
  in_range 97 122 c || in_range 65 90 c.
(** [一-龥] *)
Definition is_han (c : char) : bool := in_range 0x4e00 0x9fa5 c.

(** [str.isspace] on one code point; the same table drives [str.strip] and
    the regular-expression class [\s] on [str] patterns. *)
Definition py_isspace (c : char) : bool :=
  in_range 0x09 0x0d c || in_range 0x1c 0x20 c ||
  N.eqb c 0x85 || N.eqb c 0xa0 || N.eqb c 0x1680 ||
  in_range 0x2000 0x200a c || N.eqb c 0x2028 || N.eqb c 0x2029 ||
  N.eqb c 0x202f || N.eqb c 0x205f || N.eqb c 0x3000.

(** The code points of digit zero of every decimal-digit block (Unicode
    general category Nd, Unicode 15); the nine following code points are
    the digits one to nine. *)
Definition decimal_zeros : list N :=
  [ 0x30; 0x660; 0x6f0; 0x7c0; 0x966; 0x9e6; 0xa66; 0xae6; 0xb66; 0xbe6;
    0xc66; 0xce6; 0xd66; 0xde6; 0xe50; 0xed0; 0xf20; 0x1040; 0x1090;
    0x17e0; 0x1810; 0x1946; 0x19d0; 0x1a80; 0x1a90; 0x1b50; 0x1bb0;
    0x1c40; 0x1c50; 0xa620; 0xa8d0; 0xa900; 0xa9d0; 0xa9f0; 0xaa50;
    0xabf0; 0xff10; 0x104a0; 0x10d30; 0x11066; 0x110f0; 0x11136;
    0x111d0; 0x112f0; 0x11450; 0x114d0; 0x11650; 0x116c0; 0x11730;
    0x118e0; 0x11950; 0x11c50; 0x11d50; 0x11da0; 0x11f50; 0x16a60;
    0x16ac0; 0x16b50; 0x1d7ce; 0x1d7d8; 0x1d7e2; 0x1d7ec; 0x1d7f6;
    0x1e140; 0x1e2f0; 0x1e4f0; 0x1e950; 0x1fbf0 ]%N.

(** The value of a decimal digit, [None] for any other code point. *)
Definition py_decimal_value (c : char) : option N :=
  match find (fun z => in_range z (z + 9) c) decimal_zeros with
  | Some z => Some (c - z)%N
  | None => None
  end.

(** The class [\d] on [str] patterns. *)
Definition py_isdecimal (c : char) : bool :=
  match py_decimal_value c with Some _ => true | None => false end.

(** A lone surrogate cannot be encoded as UTF-8. *)
Definition is_surrogate (c : char) : bool := in_range 0xd800 0xdfff c.

(** ** [str.strip] *)

Fixpoint lstrip (s : pystr) : pystr :=
  match s with
  | c :: s' => if py_isspace c then lstrip s' else s
  | [] => []
  end.

Definition rstrip (s : pystr) : pystr := rev (lstrip (rev s)).
Definition strip (s : pystr) : pystr := rstrip (lstrip s).

(** ** Order, search and split *)

(** [a < b] on [str]: the order of the code points, the first difference
    decides, a proper prefix comes first. *)
Fixpoint str_ltb (a b : pystr) : bool :=
  match a, b with
  | _, [] => false
  | [], _ :: _ => true
  | x :: a', y :: b' =>
      if (x <? y)%N then true
      else if (y <? x)%N then false
      else str_ltb a' b'
  end.

(** [x] put at its place in an increasing list, unless it is there. *)
Fixpoint insert_sorted (x : pystr) (l : list pystr) : list pystr :=
  match l with
  | [] => [x]
  | y :: l' =>
      if str_ltb x y then x :: l
      else if str_eqb x y then l
      else y :: insert_sorted x l'
  end.

(** [sorted(set(xs))]: the distinct members of [xs] in increasing
    order. *)
Definition sorted_set (xs : list pystr) : list pystr :=
  fold_right insert_sorted [] xs.



(** [s.split(',')]: the pieces between the commas, at least one. *)
Fixpoint split_comma (s : pystr) : list pystr :=
  match s with
  | [] => [[]]
  | c :: r =>
      if N.eqb c 44 then [] :: split_comma r
      else
        match split_comma r with
        | p :: ps => (c :: p) :: ps
        | [] => [[c]]
        end
  end.

(* ================================================================== *)
(** * Regular expressions *)
(* ================================================================== *)

(** The patterns of the source use character classes, concatenation,
    alternation and bounded or unbounded repetition only; matching is by
    Brzozowski derivatives. *)
Module Re.

Inductive regex : Type :=
| Void : regex
| Eps : regex
| Cls : (char -> bool) -> regex
| Seq : regex -> regex -> regex
| Alt : regex -> regex -> regex
| Star : regex -> regex.

Fixpoint nullable (r : regex) : bool :=
  match r with
  | Void => false
  | Eps => true
  | Cls _ => false
  | Seq a b => nullable a && nullable b
  | Alt a b => nullable a || nullable b
  | Star _ => true
  end.

Fixpoint deriv (c : char) (r : regex) : regex :=
  match r with
  | Void => Void
  | Eps => Void
  | Cls p => if p c then Eps else Void
  | Seq a b =>
      if nullable a then Alt (Seq (deriv c a) b) (deriv c b)
      else Seq (deriv c a) b
  | Alt a b => Alt (deriv c a) (deriv c b)
  | Star a => Seq (deriv c a) (Star a)
  end.

(** The whole string belongs to the language of [r]. *)
Fixpoint fullmatch (r : regex) (s : pystr) : bool :=
  match s with
  | [] => nullable r
  | c :: s' => fullmatch (deriv c r) s'
  end.

(** [re.match('^' r '$', s)]: without [re.MULTILINE], [$] matches at the
    end of the string and also just before a newline that ends it. *)
Definition match_anchored (r : regex) (s : pystr) : bool :=
  fullmatch r s ||
  match rev s with
  | 10%N :: t => fullmatch r (rev t)
  | _ => false
  end.

Definition Chr (c : char) : regex := Cls (N.eqb c).
Definition Plus (r : regex) : regex := Seq r (Star r).
Definition Opt (r : regex) : regex := Alt Eps r.

(** [r{n}] *)
Fixpoint rep (n : nat) (r : regex) : regex :=
  match n with
  | O => Eps
  | S k => Seq r (rep k r)
  end.

(** [r{0,n}] *)
Fixpoint upto (n : nat) (r : regex) : regex :=
  match n with
  | O => Eps
  | S k => Opt (Seq r (upto k r))
  end.

(** [r{lo,hi}] *)
Definition rep_range (lo hi : nat) (r : regex) : regex :=
  Seq (rep lo r) (upto (hi - lo) r).

(** [r{n,}] *)
Definition at_least (n : nat) (r : regex) : regex := Seq (rep n r) (Star r).

End Re.

(* ================================================================== *)
(** * Values, dictionaries, exceptions *)
(* ================================================================== *)

(** A Python value as the program meets it: what [json.load] returns and
    what callers pass as arguments. *)
Unset Elimination Schemes.
Inductive value : Type :=
| VNone : value
| VBool : bool -> value
| VInt : Z -> value
| VStr : pystr -> value
| VList : list value -> value
| VDict : list (pystr * value) -> value.
Set Elimination Schemes.

(** ** [dict] *)

Definition dict (V : Type) : Type := list (pystr * V).

Section Dict.
Variable V : Type.

(** [d.get(k)] *)
Fixpoint dict_get (k : pystr) (d : dict V) : option V :=
  match d with
  | [] => None
  | (k', v) :: d' => if str_eqb k k' then Some v else dict_get k d'
  end.

(** [k in d] *)
Definition dict_mem (k : pystr) (d : dict V) : bool :=
  match dict_get k d with Some _ => true | None => false end.

(** [d[k] = v]: an existing key keeps its position, a new key goes
    last. *)
Fixpoint dict_set (k : pystr) (v : V) (d : dict V) : dict V :=
  match d with
  | [] => [(k, v)]
  | (k', v') :: d' =>
      if str_eqb k k' then (k', v) :: d' else (k', v') :: dict_set k v d'
  end.

(** [del d[k]] for a key that is present. *)
Fixpoint dict_del (k : pystr) (d : dict V) : dict V :=
  match d with
  | [] => []
  | (k', v') :: d' =>
      if str_eqb k k' then d' else (k', v') :: dict_del k d'
  end.

(** [d.update(other)] *)
Fixpoint dict_update (d other : dict V) : dict V :=
  match other with
  | [] => d
  | (k, v) :: other' => dict_update (dict_set k v d) other'
  end.

Definition dict_keys (d : dict V) : list pystr := map fst d.

(** [dict(pairs)]: what the JSON decoder builds from the members of an
    object; a repeated key keeps its first position and its last
    value. *)
Definition dict_of_pairs (pairs : list (pystr * V)) : dict V :=
  dict_update [] pairs.
End Dict.

(** ** Exceptions *)

(** The exception classes of [src/utils/exceptions.py] and the built-in
    ones the source catches or lets through.  [DataValidationError]
    keeps its [field_name], the two existence errors keep the id they
    were raised with; message texts are left out. *)
Inductive exn : Type :=
| DataValidationError (field_name : option pystr)
| StudentNotFoundError (student_id : value)
| StudentExistsError (student_id : value)
| DataIOError
| BackupRestoreError
| InvalidOperationError
| EmptyDataError
| OperationFailedError
| TypeError
| ValueError
| KeyError
| AttributeError
| OSError
| JSONDecodeError
| UnicodeEncodeError.

(** [isinstance(e, ValueError)]: the decoder's and the codec's errors
    derive from [ValueError]. *)
Definition is_ValueError (e : exn) : bool :=
  match e with
  | ValueError | JSONDecodeError | UnicodeEncodeError => true
  | _ => false
  end.

Definition is_DataValidationError (e : exn) : bool :=
  match e with DataValidationError _ => true | _ => false end.

Inductive outcome (A : Type) : Type :=
| Ret : A -> outcome A
| Raise : exn -> outcome A.
Arguments Ret {A} _.
Arguments Raise {A} _.

(** The exceptions that only [DataManager.__init__] and [export_data]
    raise, next to those above. *)
Inductive exn' : Type :=
| Known (e : exn)
| SystemConfigError
| UnboundLocalError.

Inductive outcome' (A : Type) : Type :=
| Ret' : A -> outcome' A
| Raise' : exn' -> outcome' A.
Arguments Ret' {A} _.
Arguments Raise' {A} _.

Definition bind_outcome {A B} (m : outcome A) (k : A -> outcome B)
  : outcome B :=
  match m with
  | Ret a => k a
  | Raise e => Raise e
  end.

(** ** [int(x)] *)

(** The digits of a decimal literal after the sign: decimal digits of any
    script, single underscores between digits. *)
Fixpoint digits_value (acc : Z) (after_digit : bool) (s : pystr)
  : option Z :=
  match s with
  | [] => if after_digit then Some acc else None
  | c :: s' =>
      if N.eqb c 95 then
        if after_digit then digits_value acc false s' else None
      else
        match py_decimal_value c with
        | Some d => digits_value (10 * acc + Z.of_N d) true s'
        | None => None
        end
  end.

Definition int_of_str (s : pystr) : option Z :=
  match strip s with
  | 43%N :: r => digits_value 0 false r
  | 45%N :: r => option_map Z.opp (digits_value 0 false r)
  | r => digits_value 0 false r
  end.

Definition py_int (v : value) : outcome Z :=
  match v with
  | VInt z => Ret z
  | VBool b => Ret (if b then 1 else 0)%Z
  | VStr s =>
      match int_of_str s with
      | Some z => Ret z
      | None => Raise ValueError
      end
  | VNone | VList _ | VDict _ => Raise TypeError
  end.

(** ** Truth value, equality with a string, [in], subscript *)

(** [bool(v)], what [if not v] tests *)
Definition truthy (v : value) : bool :=
  match v with
  | VNone => false
  | VBool b => b
  | VInt z => negb (Z.eqb z 0)
  | VStr s => match s with [] => false | _ => true end
  | VList l => match l with [] => false | _ => true end
  | VDict d => match d with [] => false | _ => true end
  end.

(** [s == v] for a [str] [s]: only an equal [str] is equal to it. *)
Definition eq_str (s : pystr) (v : value) : bool :=
  match v with
  | VStr s' => str_eqb s s'
  | _ => false
  end.



(* ================================================================== *)
(** * [src/utils/validator.py] *)
(* ================================================================== *)

Module Validator.
Import Re.

Definition is_empty (s : pystr) : bool :=
  match s with [] => true | _ => false end.

(** [r'^[0-9]+$'] *)
Definition student_id_pattern : regex := Plus (Cls is_ascii_digit).

(** Each rule returns the first component of the source's
    [(is_valid, error_msg)]. *)
Definition validate_student_id (student_id : value) : bool :=
  match student_id with
  | VStr s =>
      if is_empty (strip s) then false
      else if (length s <? 6) || (20 <? length s) then false
      else if negb (match_anchored student_id_pattern s) then false
      else true
  | _ => false
  end.

(** [r'^[一-龥]{2,10}$'] *)
Definition chinese_pattern : regex := rep_range 2 10 (Cls is_han).
(** [r'^[a-zA-Z]+(\s[a-zA-Z]+)*$'] *)
Definition english_pattern : regex :=
  Seq (Plus (Cls is_ascii_letter))
      (Star (Seq (Cls py_isspace) (Plus (Cls is_ascii_letter)))).

Definition validate_name (name : value) : bool :=
  match name with
  | VStr s =>
      let name := strip s in
      if is_empty name then false
      else if (length name <? 2) || (10 <? length name) then false
      else match_anchored chinese_pattern name
           || match_anchored english_pattern name
  | _ => false
  end.

Definition male : pystr := [0x7537%N].
Definition female : pystr := [0x5973%N].

(** [gender not in ['男', '女']] *)
Definition validate_gender (gender : value) : bool :=
  match gender with
  | VStr s => str_eqb s male || str_eqb s female
  | _ => false
  end.

Definition validate_age (age : value) : bool :=
  match py_int age with
  | Raise _ => false
  | Ret age => if (age <? 15)%Z || (50 <=? age)%Z then false else true
  end.

(** [r'^[一-龥a-zA-Z0-9\s\-_]+$'] *)
Definition class_name_pattern : regex :=
  Plus (Cls (fun c => is_han c || is_ascii_letter c || is_ascii_digit c
                      || py_isspace c || N.eqb c 45 || N.eqb c 95)).

Definition validate_class_name (class_name : value) : bool :=
  match class_name with
  | VStr s =>
      let class_name := strip s in
      if is_empty class_name then false
      else if 20 <? length class_name then false
      else if negb (match_anchored class_name_pattern class_name) then false
      else true
  | _ => false
  end.

(** [r'^1[3-9]\d{9}$'] *)
Definition phone_pattern : regex :=
  Seq (Chr 49) (Seq (Cls (in_range 51 57)) (rep 9 (Cls py_isdecimal))).

(** [r'^[a-zA-Z0-9._%+-]+@[a-zA-Z0-9.-]+\.[a-zA-Z]{2,}$'] *)
Definition email_pattern : regex :=
  Seq (Plus (Cls (fun c => is_ascii_letter c || is_ascii_digit c
                           || N.eqb c 46 || N.eqb c 95 || N.eqb c 37
                           || N.eqb c 43 || N.eqb c 45)))
  (Seq (Chr 64)
  (Seq (Plus (Cls (fun c => is_ascii_letter c || is_ascii_digit c
                            || N.eqb c 46 || N.eqb c 45)))
  (Seq (Chr 46) (at_least 2 (Cls is_ascii_letter))))).

Definition validate_contact (contact : value) : bool :=
  match contact with
  | VStr s =>
      let contact := strip s in
      if is_empty contact then false
      else if 50 <? length contact then false
      else match_anchored phone_pattern contact
           || match_anchored email_pattern contact
  | _ => false
  end.






End Validator.

Notation "x <- m ;; k" := (bind_outcome m (fun x => k))
  (at level 61, m at next level, right associativity).

(* ================================================================== *)
(** * [src/models/student.py] *)
(* ================================================================== *)

Module Student.

Record t : Type := mk {
  _student_id : pystr;
  _name : pystr;
  _gender : pystr;
  _age : Z;
  _class_name : pystr;
  _contact : pystr
}.

Definition field_error (field : string) : exn :=
  DataValidationError (Some (lit field)).

(** Each [_validate_*] raises [DataValidationError] with the field's name
    when the rule rejects, and wraps any other exception of its body the
    same way. *)
Definition _validate_student_id (student_id : value) : outcome pystr :=
  if Validator.validate_student_id student_id then
    match student_id with
    | VStr s => Ret s
    | _ => Raise (field_error "student_id")
    end
  else Raise (field_error "student_id").

Definition _validate_name (name : value) : outcome pystr :=
  if Validator.validate_name name then
    match name with
    | VStr s => Ret (strip s)
    | _ => Raise (field_error "name")
    end
  else Raise (field_error "name").

Definition _validate_gender (gender : value) : outcome pystr :=
  if Validator.validate_gender gender then
    match gender with
    | VStr s => Ret s
    | _ => Raise (field_error "gender")
    end
  else Raise (field_error "gender").

Definition _validate_age (age : value) : outcome Z :=
  if Validator.validate_age age then
    match py_int age with
    | Ret z => Ret z
    | Raise _ => Raise (field_error "age")
    end
  else Raise (field_error "age").

Definition _validate_class_name (class_name : value) : outcome pystr :=
  if Validator.validate_class_name class_name then
    match class_name with
    | VStr s => Ret (strip s)
    | _ => Raise (field_error "class_name")
    end
  else Raise (field_error "class_name").

Definition _validate_contact (contact : value) : outcome pystr :=
  if Validator.validate_contact contact then
    match contact with
    | VStr s => Ret (strip s)
    | _ => Raise (field_error "contact")
    end
  else Raise (field_error "contact").

(** [Student(student_id, name, gender, age, class_name, contact)] *)
Definition __init__ (student_id name gender age class_name contact : value)
  : outcome t :=
  i <- _validate_student_id student_id ;;
  n <- _validate_name name ;;
  g <- _validate_gender gender ;;
  a <- _validate_age age ;;
  c <- _validate_class_name class_name ;;
  k <- _validate_contact contact ;;
  Ret (mk i n g a c k).

(** The property setters: validate, then assign. *)
Definition set_name (self : t) (v : value) : outcome t :=
  n <- _validate_name v ;;
  Ret (mk (_student_id self) n (_gender self) (_age self)
          (_class_name self) (_contact self)).

Definition set_gender (self : t) (v : value) : outcome t :=
  g <- _validate_gender v ;;
  Ret (mk (_student_id self) (_name self) g (_age self)
          (_class_name self) (_contact self)).

Definition set_age (self : t) (v : value) : outcome t :=
  a <- _validate_age v ;;
  Ret (mk (_student_id self) (_name self) (_gender self) a
          (_class_name self) (_contact self)).

Definition set_class_name (self : t) (v : value) : outcome t :=
  c <- _validate_class_name v ;;
  Ret (mk (_student_id self) (_name self) (_gender self) (_age self)
          c (_contact self)).

Definition set_contact (self : t) (v : value) : outcome t :=
  k <- _validate_contact v ;;
  Ret (mk (_student_id self) (_name self) (_gender self) (_age self)
          (_class_name self) k).

Definition to_dict (self : t) : value :=
  VDict [ (lit "student_id", VStr (_student_id self));
          (lit "name", VStr (_name self));
          (lit "gender", VStr (_gender self));
          (lit "age", VInt (_age self));
          (lit "class_name", VStr (_class_name self));
          (lit "contact", VStr (_contact self)) ].

(** [data.get(key)] *)
Definition get (data : dict value) (key : string) : value :=
  match dict_get (lit key) data with
  | Some v => v
  | None => VNone
  end.

(** [Student.from_dict(data)]; a [data] that is not a dict has no [get]. *)
Definition from_dict (data : value) : outcome t :=
  match data with
  | VDict d =>
      __init__ (get d "student_id") (get d "name") (get d "gender")
               (get d "age") (get d "class_name") (get d "contact")
  | _ => Raise AttributeError
  end.

Definition allowed_fields : list pystr :=
  [lit "name"; lit "gender"; lit "age"; lit "class_name"; lit "contact"].

Definition str_in (k : pystr) (l : list pystr) : bool :=
  existsb (str_eqb k) l.

(** [setattr(self, key, value)] for an allowed field. *)
Definition setattr (self : t) (key : pystr) (v : value) : outcome t :=
  if str_eqb key (lit "name") then set_name self v
  else if str_eqb key (lit "gender") then set_gender self v
  else if str_eqb key (lit "age") then set_age self v
  else if str_eqb key (lit "class_name") then set_class_name self v
  else set_contact self v.

Definition is_None (v : value) : bool :=
  match v with VNone => true | _ => false end.

(** [update_info] with keyword arguments [kwargs]: the loop over
    [kwargs.items()].  The object
    is mutated in place, so the result carries the object as the loop left
    it, also when the loop raises. *)
Fixpoint update_info_from (has_changes : bool) (kwargs : dict value)
  (self : t) : outcome bool * t :=
  match kwargs with
  | [] => (Ret has_changes, self)
  | (key, v) :: rest =>
      if str_eqb key (lit "student_id") then (Raise InvalidOperationError, self)
      else if negb (str_in key allowed_fields) then
        (Raise (DataValidationError (Some key)), self)
      else if is_None v then update_info_from has_changes rest self
      else
        match setattr self key v with
        | Ret self' => update_info_from true rest self'
        | Raise e => (Raise e, self)
        end
  end.

(** A keyword argument named like a positional parameter of the method
    is refused when the call is bound, before the body runs. *)
Definition binds (params : list pystr) (kwargs : dict value) : bool :=
  forallb (fun kv => negb (str_in (fst kv) params)) kwargs.

Definition update_info (kwargs : dict value) (self : t) : outcome bool * t :=
  if binds [lit "self"] kwargs then update_info_from false kwargs self
  else (Raise TypeError, self).

End Student.

(* ================================================================== *)
(** * The JSON codec the store calls *)
(* ================================================================== *)

(** [json.dump(obj, f, ensure_ascii=False, indent=4)] and [json.load(f)],
    as far as the store uses them: the encoder yields the text in chunks
    (one [f.write] each), the decoder reads the whole text. *)
Module Json.

(** ** Encoder *)

Definition digit_char (d : N) : char := (48 + d)%N.

Fixpoint uint_chars (u : Decimal.uint) : pystr :=
  match u with
  | Decimal.Nil => []
  | Decimal.D0 u' => 48%N :: uint_chars u'
  | Decimal.D1 u' => 49%N :: uint_chars u'
  | Decimal.D2 u' => 50%N :: uint_chars u'
  | Decimal.D3 u' => 51%N :: uint_chars u'
  | Decimal.D4 u' => 52%N :: uint_chars u'
  | Decimal.D5 u' => 53%N :: uint_chars u'
  | Decimal.D6 u' => 54%N :: uint_chars u'
  | Decimal.D7 u' => 55%N :: uint_chars u'
  | Decimal.D8 u' => 56%N :: uint_chars u'
  | Decimal.D9 u' => 57%N :: uint_chars u'
  end.

(** [int.__repr__] *)
Definition int_repr (z : Z) : pystr :=
  if (z <? 0)%Z then 45%N :: uint_chars (N.to_uint (Z.abs_N z))
  else uint_chars (N.to_uint (Z.to_N z)).

Definition hex_char (d : N) : char :=
  if (d <? 10)%N then (48 + d)%N else (87 + d)%N.

(** [ESCAPE_DCT]: the replacement of a character that [ESCAPE] matches. *)
Definition escape_char (c : char) : pystr :=
  if N.eqb c 92 then [92; 92]%N
  else if N.eqb c 34 then [92; 34]%N
  else if N.eqb c 8 then [92; 98]%N
  else if N.eqb c 12 then [92; 102]%N
  else if N.eqb c 10 then [92; 110]%N
  else if N.eqb c 13 then [92; 114]%N
  else if N.eqb c 9 then [92; 116]%N
  else if (c <? 32)%N then
    [92; 117; 48; 48; hex_char (c / 16); hex_char (c mod 16)]%N
  else [c].

Fixpoint escape (s : pystr) : pystr :=
  match s with
  | [] => []
  | c :: s' => escape_char c ++ escape s'
  end.

(** [encode_basestring]: the encoder of strings when [ensure_ascii] is
    false. *)
Definition encode_basestring (s : pystr) : pystr :=
  34%N :: escape s ++ [34%N].

(** ['\n' + ' ' * (4 * level)] *)
Definition newline_indent (level : nat) : pystr :=
  10%N :: repeat 32%N (4 * level).

(** The text of a value that is not a container. *)
Definition scalar_text (o : value) : option pystr :=
  match o with
  | VStr s => Some (encode_basestring s)
  | VNone => Some (lit "null")
  | VBool true => Some (lit "true")
  | VBool false => Some (lit "false")
  | VInt z => Some (int_repr z)
  | VList _ | VDict _ => None
  end.

(** [_iterencode(o, level)] of [json.encoder._make_iterencode]: the
    chunks in the order they are yielded. *)
Fixpoint iterencode (level : nat) (o : value) : list pystr :=
  match o with
  | VList [] => [lit "[]"]
  | VList l =>
      (fix elems (buf : pystr) (l : list value) : list pystr :=
         match l with
         | [] => []
         | x :: l' =>
             match scalar_text x with
             | Some t => [buf ++ t]
             | None => buf :: iterencode (S level) x
             end ++ elems (44%N :: newline_indent (S level)) l'
         end) (91%N :: newline_indent (S level)) l
      ++ [newline_indent level; lit "]"]
  | VDict [] => [lit "{}"]
  | VDict d =>
      [lit "{"; newline_indent (S level)] ++
      (fix items (first : bool) (d : list (pystr * value)) : list pystr :=
         match d with
         | [] => []
         | (key, x) :: d' =>
             (if first then [] else [44%N :: newline_indent (S level)])
             ++ [encode_basestring key; lit ": "]
             ++ match scalar_text x with
                | Some t => [t]
                | None => iterencode (S level) x
                end
             ++ items false d'
         end) true d
      ++ [newline_indent level; lit "}"]
  | _ =>
      match scalar_text o with
      | Some t => [t]
      | None => []
      end
  end.

(** [json.dumps(obj, ensure_ascii=False, indent=4)] *)
Definition dumps (o : value) : pystr := concat (iterencode 0 o).

(** ** Decoder *)

(** [WHITESPACE]: space, tab, line feed, carriage return. *)
Definition is_ws (c : char) : bool :=
  N.eqb c 32 || N.eqb c 9 || N.eqb c 10 || N.eqb c 13.

Fixpoint skip_ws (s : pystr) : pystr :=
  match s with
  | c :: s' => if is_ws c then skip_ws s' else s
  | [] => []
  end.

Definition hex_value (c : char) : option N :=
  if in_range 48 57 c then Some (c - 48)%N
  else if in_range 97 102 c then Some (c - 87)%N
  else if in_range 65 70 c then Some (c - 55)%N
  else None.

Definition hex4 (a b c d : char) : option N :=
  match hex_value a, hex_value b, hex_value c, hex_value d with
  | Some x, Some y, Some z, Some w =>
      Some (((x * 16 + y) * 16 + z) * 16 + w)%N
  | _, _, _, _ => None
  end.

(** [BACKSLASH]: the character a one-letter escape stands for. *)
Definition unescape (e : char) : option char :=
  if N.eqb e 34 then Some 34%N
  else if N.eqb e 92 then Some 92%N
  else if N.eqb e 47 then Some 47%N
  else if N.eqb e 98 then Some 8%N
  else if N.eqb e 102 then Some 12%N
  else if N.eqb e 110 then Some 10%N
  else if N.eqb e 114 then Some 13%N
  else if N.eqb e 116 then Some 9%N
  else None.

Definition cons_str (c : char) (r : option (pystr * pystr))
  : option (pystr * pystr) :=
  match r with
  | Some (s, rest) => Some (c :: s, rest)
  | None => None
  end.

(** [scanstring] in strict mode, entered after the opening quote: the
    decoded string and the text after the closing quote. *)
Fixpoint scanstring (s : pystr) : option (pystr * pystr) :=
  match s with
  | [] => None
  | c :: r =>
      if N.eqb c 34 then Some ([], r)
      else if N.eqb c 92 then
        match r with
        | [] => None
        | e :: r1 =>
            if N.eqb e 117 then
              match r1 with
              | h1 :: h2 :: h3 :: h4 :: r2 =>
                  match hex4 h1 h2 h3 h4 with
                  | None => None
                  | Some uni =>
                      if in_range 0xd800 0xdbff uni then
                        match r2 with
                        | b :: u :: g1 :: g2 :: g3 :: g4 :: r3 =>
                            if N.eqb b 92 && N.eqb u 117 then
                              match hex4 g1 g2 g3 g4 with
                              | None => None
                              | Some uni2 =>
                                  if in_range 0xdc00 0xdfff uni2 then
                                    cons_str
                                      (0x10000 + (uni - 0xd800) * 0x400
                                       + (uni2 - 0xdc00))%N
                                      (scanstring r3)
                                  else cons_str uni (scanstring r2)
                              end
                            else cons_str uni (scanstring r2)
                        | _ => cons_str uni (scanstring r2)
                        end
                      else cons_str uni (scanstring r2)
                  end
              | _ => None
              end
            else
              match unescape e with
              | Some ch => cons_str ch (scanstring r1)
              | None => None
              end
        end
      else if (c <? 32)%N then None
      else cons_str c (scanstring r)
  end.

Definition digit_of_char (c : char)
  : option (Decimal.uint -> Decimal.uint) :=
  if N.eqb c 48 then Some Decimal.D0
  else if N.eqb c 49 then Some Decimal.D1
  else if N.eqb c 50 then Some Decimal.D2
  else if N.eqb c 51 then Some Decimal.D3
  else if N.eqb c 52 then Some Decimal.D4
  else if N.eqb c 53 then Some Decimal.D5
  else if N.eqb c 54 then Some Decimal.D6
  else if N.eqb c 55 then Some Decimal.D7
  else if N.eqb c 56 then Some Decimal.D8
  else if N.eqb c 57 then Some Decimal.D9
  else None.

Fixpoint read_digits (s : pystr) : Decimal.uint * pystr :=
  match s with
  | [] => (Decimal.Nil, [])
  | c :: r =>
      match digit_of_char c with
      | Some d => let (u, r') := read_digits r in (d u, r')
      | None => (Decimal.Nil, s)
      end
  end.

(** The text goes on with a fraction or an exponent: the number is a
    float. *)
Definition float_tail (s : pystr) : bool :=
  match s with
  | c :: r =>
      if N.eqb c 46 then
        match r with d :: _ => is_ascii_digit d | [] => false end
      else if N.eqb c 101 || N.eqb c 69 then
        match r with
        | d :: r' =>
            if N.eqb d 43 || N.eqb d 45 then
              match r' with d' :: _ => is_ascii_digit d' | [] => false end
            else is_ascii_digit d
        | [] => false
        end
      else false
  | [] => false
  end.

(** [NUMBER_RE], integers only: an optional minus sign, then either 0 or
    a digit 1-9 and any digits, not followed by a fraction or an
    exponent. *)
Definition match_number (s : pystr) : option (Z * pystr) :=
  let '(neg, s1) :=
    match s with
    | c :: r => if N.eqb c 45 then (true, r) else (false, s)
    | [] => (false, s)
    end in
  let finish (u : Decimal.uint) (r : pystr) :=
    if float_tail r then None
    else Some (if neg then (- Z.of_N (N.of_uint u))%Z
               else Z.of_N (N.of_uint u), r) in
  match s1 with
  | [] => None
  | c :: r =>
      if N.eqb c 48 then finish (Decimal.D0 Decimal.Nil) r
      else if in_range 49 57 c then
        let (u, r') := read_digits s1 in finish u r'
      else None
  end.

Fixpoint starts_with (p s : pystr) : option pystr :=
  match p, s with
  | [], _ => Some s
  | a :: p', b :: s' => if N.eqb a b then starts_with p' s' else None
  | _ :: _, [] => None
  end.

(** [scan_once], [JSONObject] and [JSONArray].  Each call consumes one
    unit of [fuel]; [loads] gives one unit more than the text has
    characters, which is enough for any text ([loads_any_fuel]). *)
Fixpoint scan_once (fuel : nat) (s : pystr) : option (value * pystr) :=
  match fuel with
  | O => None
  | S fuel' =>
      match s with
      | [] => None
      | c :: r =>
          if N.eqb c 34 then
            match scanstring r with
            | Some (str, r') => Some (VStr str, r')
            | None => None
            end
          else if N.eqb c 123 then
            match skip_ws r with
            | [] => None
            | c1 :: r1 =>
                if N.eqb c1 125 then Some (VDict [], r1)
                else
                  match members fuel' (c1 :: r1) with
                  | Some (pairs, r') =>
                      Some (VDict (dict_of_pairs pairs), r')
                  | None => None
                  end
            end
          else if N.eqb c 91 then
            match skip_ws r with
            | [] => None
            | c1 :: r1 =>
                if N.eqb c1 93 then Some (VList [], r1)
                else
                  match elements fuel' (c1 :: r1) with
                  | Some (l, r') => Some (VList l, r')
                  | None => None
                  end
            end
          else
            match starts_with (lit "null") s,
                  starts_with (lit "true") s,
                  starts_with (lit "false") s with
            | Some r', _, _ => Some (VNone, r')
            | _, Some r', _ => Some (VBool true, r')
            | _, _, Some r' => Some (VBool false, r')
            | None, None, None =>
                match match_number s with
                | Some (z, r') => Some (VInt z, r')
                | None => None
                end
            end
      end
  end

with members (fuel : nat) (s : pystr)
  : option (list (pystr * value) * pystr) :=
  match fuel with
  | O => None
  | S fuel' =>
      match s with
      | [] => None
      | q :: r =>
          if negb (N.eqb q 34) then None
          else
            match scanstring r with
            | None => None
            | Some (key, r1) =>
                match skip_ws r1 with
                | [] => None
                | colon :: r2 =>
                    if negb (N.eqb colon 58) then None
                    else
                      match scan_once fuel' (skip_ws r2) with
                      | None => None
                      | Some (v, r3) =>
                          match skip_ws r3 with
                          | [] => None
                          | c :: r4 =>
                              if N.eqb c 125 then Some ([(key, v)], r4)
                              else if N.eqb c 44 then
                                match members fuel' (skip_ws r4) with
                                | Some (ps, r5) => Some ((key, v) :: ps, r5)
                                | None => None
                                end
                              else None
                          end
                      end
                end
            end
      end
  end

with elements (fuel : nat) (s : pystr) : option (list value * pystr) :=
  match fuel with
  | O => None
  | S fuel' =>
      match scan_once fuel' s with
      | None => None
      | Some (v, r1) =>
          match skip_ws r1 with
          | [] => None
          | c :: r2 =>
              if N.eqb c 93 then Some ([v], r2)
              else if N.eqb c 44 then
                match elements fuel' (skip_ws r2) with
                | Some (l, r3) => Some (v :: l, r3)
                | None => None
                end
              else None
          end
      end
  end.

(** [json.loads(s)]: one value between optional white space, and
    nothing after it. *)
Definition loads (s : pystr) : outcome value :=
  match scan_once (S (length s)) (skip_ws s) with
  | Some (v, r) =>
      match skip_ws r with
      | [] => Ret v
      | _ :: _ => Raise JSONDecodeError
      end
  | None => Raise JSONDecodeError
  end.

End Json.

(* ================================================================== *)
(** * State and exceptions *)
(* ================================================================== *)

(** A computation over a state [S] that returns or raises; the state it
    leaves is kept in both cases, as a Python method leaves its objects
    and the files it touched when it raises. *)
Section StateError.
Variable S : Type.

Definition M (A : Type) : Type := S -> outcome A * S.

Definition ret {A} (a : A) : M A := fun s => (Ret a, s).
Definition raise {A} (e : exn) : M A := fun s => (Raise e, s).

Definition bind {A B} (m : M A) (k : A -> M B) : M B :=
  fun s =>
    match m s with
    | (Ret a, s') => k a s'
    | (Raise e, s') => (Raise e, s')
    end.

(** [try: m except Exception as e: h e] *)
Definition try_except {A} (m : M A) (h : exn -> M A) : M A :=
  fun s =>
    match m s with
    | (Ret a, s') => (Ret a, s')
    | (Raise e, s') => h e s'
    end.

Definition get_state : M S := fun s => (Ret s, s).
Definition put_state (s : S) : M unit := fun _ => (Ret tt, s).
Definition lift_outcome {A} (o : outcome A) : M A := fun s => (o, s).
End StateError.

Arguments ret {S A} _.
Arguments raise {S A} _.
Arguments bind {S A B} _ _.
Arguments try_except {S A} _ _.
Arguments get_state {S}.
Arguments put_state {S} _.
Arguments lift_outcome {S A} _.

Notation "'let!' x ':=' m 'in' k" := (bind m (fun x => k))
  (at level 10, x pattern, m at level 200, k at level 200).
Notation "m '>>' k" := (bind m (fun _ => k))
  (at level 62, right associativity).

(* ================================================================== *)
(** * The operating system: files, directories, clock *)
(* ================================================================== *)

Definition path := string.
Bind Scope string_scope with path.

(** What [os], [shutil], [open] and [datetime] see.  A regular file holds
    the text a text-mode read in UTF-8 returns.  [denied p] stands for any
    reason the system refuses to create or write [p] (permissions, a
    missing parent directory, a full disk).  [clock] is the current time
    already formatted with ["%Y%m%d_%H%M%S"]. *)
Record os_state : Type := mk_os {
  files : path -> option pystr;
  dirs : path -> bool;
  denied : path -> bool;
  clock : string
}.

Definition set_file (p : path) (t : option pystr) (s : os_state) : os_state :=
  mk_os (fun q => if String.eqb q p then t else files s q)
        (dirs s) (denied s) (clock s).

Definition add_dir (p : path) (s : os_state) : os_state :=
  mk_os (files s) (fun q => if String.eqb q p then true else dirs s q)
        (denied s) (clock s).

Module Os.

(** [os.path.exists] *)
Definition exists_ (p : path) : M os_state bool :=
  fun s => (Ret (match files s p with Some _ => true | None => dirs s p end), s).

Definition utf8_size (c : char) : N :=
  if (c <? 0x80)%N then 1 else if (c <? 0x800)%N then 2
  else if (c <? 0x10000)%N then 3 else 4.

(** [os.path.getsize] *)
Definition getsize (p : path) : M os_state N :=
  fun s =>
    match files s p with
    | Some t => (Ret (fold_right (fun c n => (utf8_size c + n)%N) 0%N t), s)
    | None => if dirs s p then (Ret 4096%N, s) else (Raise OSError, s)
    end.

(** [os.makedirs] of a path that does not exist *)
Definition makedirs (p : path) : M os_state unit :=
  fun s => if denied s p then (Raise OSError, s) else (Ret tt, add_dir p s).

(** [os.remove] *)
Definition remove (p : path) : M os_state unit :=
  fun s =>
    match files s p with
    | Some _ =>
        if denied s p then (Raise OSError, s) else (Ret tt, set_file p None s)
    | None => (Raise OSError, s)
    end.

(** [shutil.copy2]; copying a file onto itself raises [SameFileError],
    which derives from [OSError]. *)
Definition copy2 (src dst : path) : M os_state unit :=
  fun s =>
    match files s src with
    | None => (Raise OSError, s)
    | Some t =>
        if String.eqb src dst then (Raise OSError, s)
        else if denied s dst || dirs s dst then (Raise OSError, s)
        else (Ret tt, set_file dst (Some t) s)
    end.

(** [with open(p, 'r', encoding='utf-8') as f: f.read()] *)
Definition read_text (p : path) : M os_state pystr :=
  fun s =>
    match files s p with
    | Some t => (Ret t, s)
    | None => (Raise OSError, s)
    end.

(** The chunks written before the first one that UTF-8 cannot encode,
    and whether all of them were written. *)
Fixpoint written (chunks : list pystr) : pystr * bool :=
  match chunks with
  | [] => ([], true)
  | c :: rest =>
      if existsb is_surrogate c then ([], false)
      else let (t, ok) := written rest in (c ++ t, ok)
  end.

(** [with open(p, 'w', encoding='utf-8') as f: for chunk in chunks:
    f.write(chunk)].  Opening truncates the file; a chunk that cannot be
    encoded raises and the file keeps what was written before it. *)
Definition write_chunks (p : path) (chunks : list pystr) : M os_state unit :=
  fun s =>
    if denied s p || dirs s p then (Raise OSError, s)
    else
      let (t, ok) := written chunks in
      (if ok then Ret tt else Raise UnicodeEncodeError,
       set_file p (Some t) s).

(** [os.path.join] of a directory and a relative file name *)
Definition join (d f : path) : path :=
  match d with
  | EmptyString => f
  | _ =>
      if String.eqb (substring (String.length d - 1) 1 d) "/"
      then (d ++ f)%string
      else (d ++ "/" ++ f)%string
  end.

(** [datetime.now().strftime("%Y%m%d_%H%M%S")] *)
Definition now : M os_state string := fun s => (Ret (clock s), s).

(** The part of [p] up to and including its last slash. *)
Fixpoint head_to_last_sep (p : path) : path :=
  match p with
  | EmptyString => EmptyString
  | String c r =>
      match head_to_last_sep r with
      | EmptyString =>
          if Ascii.eqb c "/" then String c EmptyString else EmptyString
      | h => String c h
      end
  end.

Fixpoint all_sep (p : path) : bool :=
  match p with
  | EmptyString => true
  | String c r => Ascii.eqb c "/" && all_sep r
  end.

(** [p.rstrip('/')] *)
Fixpoint rstrip_sep (p : path) : path :=
  match p with
  | EmptyString => EmptyString
  | String c r => if all_sep p then EmptyString else String c (rstrip_sep r)
  end.

(** [os.path.dirname] of [posixpath] *)
Definition dirname (p : path) : path :=
  let head := head_to_last_sep p in
  if all_sep head then head else rstrip_sep head.

(** [os.makedirs(p, exist_ok=True)]: the empty path is refused, a
    directory that exists is accepted, a file in its place is not. *)
Definition makedirs_exist_ok (p : path) : M os_state unit :=
  fun s =>
    match p with
    | EmptyString => (Raise OSError, s)
    | _ =>
        if dirs s p then (Ret tt, s)
        else
          match files s p with
          | Some _ => (Raise OSError, s)
          | None =>
              if denied s p then (Raise OSError, s)
              else (Ret tt, add_dir p s)
          end
    end.

End Os.

(** [len(x)] *)
Definition py_len (v : value) : outcome nat :=
  match v with
  | VStr s => Ret (length s)
  | VList l => Ret (length l)
  | VDict d => Ret (length d)
  | VNone | VBool _ | VInt _ => Raise TypeError
  end.

(* ================================================================== *)
(** * [src/managers/data_manager.py] *)
(* ================================================================== *)

Module DataManager.

Record t : Type := mk { _data_file : path }.

Definition default_backup_dir : path := "data/backups".

(** The handler shared by [save_data] and [load_data]: any exception
    becomes [DataIOError]. *)
Definition as_DataIOError {A} (_ : exn) : M os_state A := raise DataIOError.

Definition save_data (self : t) (students_data : value) : M os_state bool :=
  try_except
    (lift_outcome (py_len students_data) >>
     Os.write_chunks (_data_file self) (Json.iterencode 0 students_data) >>
     ret true)
    as_DataIOError.

Definition load_data (self : t) : M os_state value :=
  try_except
    (let! present := Os.exists_ (_data_file self) in
     if negb present then ret (VDict [])
     else
       let! text := Os.read_text (_data_file self) in
       let! students_data := lift_outcome (Json.loads text) in
       lift_outcome (py_len students_data) >>
       ret students_data)
    as_DataIOError.

Definition backup_data (self : t) (backup_dir : path) : M os_state path :=
  try_except
    (let! dir_present := Os.exists_ backup_dir in
     (if negb dir_present then Os.makedirs backup_dir else ret tt) >>
     let! present := Os.exists_ (_data_file self) in
     if negb present then raise EmptyDataError
     else
       let! size := Os.getsize (_data_file self) in
       if N.eqb size 0 then raise EmptyDataError
       else
         let! timestamp := Os.now in
         let backup_filename :=
           ("students_backup_" ++ timestamp ++ ".json")%string in
         let backup_path := Os.join backup_dir backup_filename in
         Os.copy2 (_data_file self) backup_path >>
         ret backup_path)
    (fun e =>
       match e with
       | EmptyDataError => raise EmptyDataError
       | _ => raise BackupRestoreError
       end).

Definition restore_data (self : t) (backup_file : path) : M os_state bool :=
  try_except
    (let! present := Os.exists_ backup_file in
     if negb present then raise EmptyDataError
     else
       let! size := Os.getsize backup_file in
       if N.eqb size 0 then raise EmptyDataError
       else
         let! pre_restore_backup := backup_data self default_backup_dir in
         Os.copy2 backup_file (_data_file self) >>
         ret true)
    (fun e =>
       match e with
       | BackupRestoreError => raise BackupRestoreError
       | EmptyDataError => raise EmptyDataError
       | _ => raise BackupRestoreError
       end).

(** [current_data.update(imported_data)]; only a dict has [update]. *)
Definition update_method (current_data : value) (imported : dict value)
  : outcome value :=
  match current_data with
  | VDict d => Ret (VDict (dict_update d imported))
  | _ => Raise AttributeError
  end.

Definition import_data (self : t) (import_file : path) (overwrite : bool)
  : M os_state value :=
  try_except
    (let! present := Os.exists_ import_file in
     if negb present then raise EmptyDataError
     else
       let! size := Os.getsize import_file in
       if N.eqb size 0 then raise EmptyDataError
       else
         let! text := Os.read_text import_file in
         let! imported_data := lift_outcome (Json.loads text) in
         match imported_data with
         | VDict imported =>
             (if overwrite then save_data self imported_data
              else
                let! current_data := load_data self in
                let! merged :=
                  lift_outcome (update_method current_data imported) in
                save_data self merged) >>
             ret imported_data
         | _ => raise DataIOError
         end)
    (fun e =>
       if is_ValueError e then raise DataIOError
       else
         match e with
         | DataIOError => raise DataIOError
         | EmptyDataError => raise EmptyDataError
         | _ => raise DataIOError
         end).

Definition clear_data (self : t) : M os_state bool :=
  try_except
    (let! present := Os.exists_ (_data_file self) in
     (if present then
        try_except
          (backup_data self default_backup_dir >> ret tt)
          (fun _ => ret tt) >>
        Os.remove (_data_file self)
      else ret tt) >>
     ret true)
    as_DataIOError.

Definition _ensure_data_dir_exists (self : t) : M os_state unit :=
  let data_dir := Os.dirname (_data_file self) in
  match data_dir with
  | EmptyString => ret tt
  | _ =>
      let! present := Os.exists_ data_dir in
      if negb present then Os.makedirs data_dir else ret tt
  end.

(** [DataManager(data_file)] *)
Definition __init__ (data_file : path) (s : os_state)
  : outcome' t * os_state :=
  match data_file with
  | EmptyString => (Raise' SystemConfigError, s)
  | _ =>
      match _ensure_data_dir_exists (mk data_file) s with
      | (Ret _, s') => (Ret' (mk data_file), s')
      | (Raise _, s') => (Raise' SystemConfigError, s')
      end
  end.

(** [export_data(export_file)] with the default [format], as
    [StudentManager.export_data] calls it.  The name
    [InvalidOperationError] is imported inside the function, in the
    branch of the other formats, which makes it a local variable of the
    whole function: when the JSON branch raises, the clause
    [except InvalidOperationError] reads that variable before any
    assignment and raises [UnboundLocalError], whatever the exception
    was. *)
Definition export_data (self : t) (export_file : path) (s : os_state)
  : outcome' bool * os_state :=
  match
    (let! students_data := load_data self in
     lift_outcome (py_len students_data) >>
     Os.makedirs_exist_ok (Os.dirname export_file) >>
     Os.write_chunks export_file (Json.iterencode 0 students_data) >>
     ret true) s
  with
  | (Ret b, s') => (Ret' b, s')
  | (Raise _, s') => (Raise' UnboundLocalError, s')
  end.

End DataManager.

(* ================================================================== *)
(** * [src/managers/student_manager.py] *)
(* ================================================================== *)

Module StudentManager.

Record t : Type := mk {
  _data_manager : DataManager.t;
  _students : dict Student.t
}.

(** The manager object together with the system it runs on. *)
Record world : Type := mk_world { self : t; os : os_state }.

Definition lift_os {A} (m : M os_state A) : M world A :=
  fun w => let (r, o) := m (os w) in (r, mk_world (self w) o).

Definition data_manager : M world DataManager.t :=
  fun w => (Ret (_data_manager (self w)), w).

Definition students : M world (dict Student.t) :=
  fun w => (Ret (_students (self w)), w).

Definition set_students (d : dict Student.t) : M world unit :=
  fun w => (Ret tt, mk_world (mk (_data_manager (self w)) d) (os w)).

(** [r'^[a-zA-Z0-9_]{3,20}$'] *)
Definition student_id_pattern : Re.regex :=
  Re.rep_range 3 20
    (Re.Cls (fun c => is_ascii_letter c || is_ascii_digit c || N.eqb c 95)).

Definition _validate_student_id (student_id : value) : bool :=
  match student_id with
  | VStr s => Re.match_anchored student_id_pattern s
  | _ => false
  end.

(** The body of the loop of [_load_students]: a record that
    [Student.from_dict] refuses is skipped. *)
Fixpoint load_items (items : dict value) (acc : dict Student.t)
  : dict Student.t :=
  match items with
  | [] => acc
  | (student_id, student_info) :: rest =>
      match Student.from_dict student_info with
      | Ret student => load_items rest (dict_set student_id student acc)
      | Raise _ => load_items rest acc
      end
  end.

(** [x.items()]; only a dict has [items]. *)
Definition items (x : value) : outcome (dict value) :=
  match x with
  | VDict d => Ret d
  | _ => Raise AttributeError
  end.

Definition _load_students : M world unit :=
  try_except
    (let! dm := data_manager in
     let! students_data := lift_os (DataManager.load_data dm) in
     let! its := lift_outcome (items students_data) in
     let! current := students in
     set_students (load_items its current))
    (fun _ => raise DataIOError).

(** [students_data[student_id] = student.to_dict()] for every entry *)
Fixpoint serialize (students : dict Student.t) (acc : dict value)
  : dict value :=
  match students with
  | [] => acc
  | (student_id, student) :: rest =>
      serialize rest (dict_set student_id (Student.to_dict student) acc)
  end.

Definition _save_students : M world bool :=
  try_except
    (let! dm := data_manager in
     let! current := students in
     lift_os (DataManager.save_data dm (VDict (serialize current []))))
    (fun e =>
       match e with
       | DataIOError | DataValidationError _ => raise e
       | _ => raise DataIOError
       end).

Definition __init__ (data_manager : DataManager.t) (o : os_state)
  : outcome unit * world :=
  _load_students (mk_world (mk data_manager []) o).

Definition add_student (student_id name gender age class_name contact : value)
  : M world bool :=
  try_except
    (if negb (_validate_student_id student_id) then
       raise (DataValidationError None)
     else
       match student_id with
       | VStr sid =>
           let! current := students in
           if dict_mem sid current then raise (StudentExistsError student_id)
           else
             let! student :=
               try_except
                 (let! a := lift_outcome (py_int age) in
                  lift_outcome
                    (Student.__init__ student_id name gender (VInt a)
                                      class_name contact))
                 (fun e =>
                    if is_ValueError e then raise (DataValidationError None)
                    else raise e) in
             set_students (dict_set sid student current) >>
             try_except
               (_save_students >> ret true)
               (fun e =>
                  let! now := students in
                  (if dict_mem sid now then set_students (dict_del sid now)
                   else ret tt) >>
                  raise e)
       | _ => raise TypeError
       end)
    (fun e =>
       match e with
       | DataValidationError _ | StudentExistsError _ | DataIOError => raise e
       | _ => raise OperationFailedError
       end).

Definition get_student_by_id (student_id : value) : M world Student.t :=
  if negb (_validate_student_id student_id) then
    raise (StudentNotFoundError student_id)
  else
    match student_id with
    | VStr sid =>
        let! current := students in
        match dict_get sid current with
        | Some student => ret student
        | None => raise (StudentNotFoundError student_id)
        end
    | _ => raise (StudentNotFoundError student_id)
    end.

(** The first loop of [update_student]: the type conversion and range
    check of [age]. *)
Fixpoint check_fields (kwargs : dict value) : outcome unit :=
  match kwargs with
  | [] => Ret tt
  | (field, v) :: rest =>
      if negb (Student.str_in field Student.allowed_fields) then
        check_fields rest
      else if Student.is_None v then check_fields rest
      else if str_eqb field (lit "age") then
        match py_int v with
        | Ret z =>
            if (z <? 0)%Z || (150 <? z)%Z then
              Raise (DataValidationError None)
            else check_fields rest
        | Raise e =>
            if is_ValueError e then Raise (DataValidationError None)
            else Raise e
        end
      else check_fields rest
  end.

(** [update_student(student_id, kwargs)].  [student] is the object held
    by [_students], so what [update_info] did to it before raising stays
    in the map. *)
Definition update_student (student_id : value) (kwargs : dict value)
  : M world bool :=
  if negb (Student.binds [lit "self"; lit "student_id"] kwargs) then
    raise TypeError
  else if negb (_validate_student_id student_id) then
    raise (DataValidationError None)
  else
    let! student := get_student_by_id student_id in
    match student_id with
    | VStr sid =>
        try_except
          (lift_outcome (check_fields kwargs) >>
           let! current := students in
           let (updated, student') := Student.update_info kwargs student in
           set_students (dict_set sid student' current) >>
           let! updated := lift_outcome updated in
           if updated then
             try_except
               (_save_students >> ret true)
               (fun save_error => _load_students >> raise save_error)
           else ret false)
          (fun e =>
             if is_DataValidationError e then raise e
             else if is_ValueError e then raise (DataValidationError None)
             else raise OperationFailedError)
    | _ => raise TypeError
    end.

Definition delete_student (student_id : value) : M world bool :=
  try_except
    (if negb (_validate_student_id student_id) then
       raise (DataValidationError None)
     else
       match student_id with
       | VStr sid =>
           let! current := students in
           if negb (dict_mem sid current) then
             raise (StudentNotFoundError student_id)
           else
             set_students (dict_del sid current) >>
             try_except
               (_save_students >> ret true)
               (fun _ => _load_students >> raise DataIOError)
       | _ => raise TypeError
       end)
    (fun e =>
       match e with
       | StudentNotFoundError _ | DataValidationError _ | DataIOError =>
           raise e
       | _ => raise OperationFailedError
       end).

(** What the message returned by [delete_students_by_ids] reports. *)
Inductive batch_message : Type :=
| NothingToDelete
| Deleted (count : nat) (not_found : list value) (invalid_ids : list value).

(** [student_id in self._students] for an id that passed the check *)
Definition present (current : dict Student.t) (student_id : value) : bool :=
  match student_id with
  | VStr sid => dict_mem sid current
  | _ => false
  end.

(** The first loop of [delete_students_by_ids]:
    [(deleted_count, not_found, invalid_ids)]. *)
Fixpoint classify (current : dict Student.t) (student_ids : list value)
  : nat * list value * list value :=
  match student_ids with
  | [] => (0, [], [])
  | student_id :: rest =>
      let '(n, not_found, invalid_ids) := classify current rest in
      if negb (_validate_student_id student_id) then
        (n, not_found, student_id :: invalid_ids)
      else if present current student_id then (S n, not_found, invalid_ids)
      else (n, student_id :: not_found, invalid_ids)
  end.

(** [', '.join(ids)] raises unless every item is a [str]. *)
Definition join_ok (ids : list value) : outcome unit :=
  if forallb (fun v => match v with VStr _ => true | _ => false end) ids
  then Ret tt else Raise TypeError.

(** [del self._students[student_id]] for each id of the list, in order *)
Fixpoint delete_each (to_delete : list value) : M world unit :=
  match to_delete with
  | [] => ret tt
  | student_id :: rest =>
      let! current := students in
      if present current student_id then
        match student_id with
        | VStr sid => set_students (dict_del sid current) >> delete_each rest
        | _ => raise TypeError
        end
      else raise KeyError
  end.

Definition delete_students_by_ids (student_ids : list value)
  : M world (nat * batch_message) :=
  try_except
    (let! current := students in
     let '(deleted_count, not_found, invalid_ids) :=
       classify current student_ids in
     (match invalid_ids with
      | [] => ret tt
      | _ => lift_outcome (join_ok invalid_ids)
      end) >>
     (match not_found with
      | [] => ret tt
      | _ => lift_outcome (join_ok not_found)
      end) >>
     if Nat.eqb deleted_count 0 then ret (0, NothingToDelete)
     else
       let to_delete :=
         filter (fun id => _validate_student_id id && present current id)
                student_ids in
       delete_each to_delete >>
       try_except
         (_save_students >>
          ret (deleted_count, Deleted deleted_count not_found invalid_ids))
         (fun save_error => _load_students >> raise save_error))
    (fun e =>
       match e with
       | DataValidationError _ | DataIOError => raise e
       | _ => raise OperationFailedError
       end).

Definition import_data (import_file : path) (overwrite : bool)
  : M world value :=
  try_except
    (let! dm := data_manager in
     let! imported_data :=
       lift_os (DataManager.import_data dm import_file overwrite) in
     _load_students >>
     ret imported_data)
    (fun e => _load_students >> raise e).

(** [self._students.values()] *)
Definition values (d : dict Student.t) : list Student.t := map snd d.

Definition search_students_by_class (class_name : value)
  : M world (list Student.t) :=
  if negb (truthy class_name) then ret []
  else
    let! current := students in
    ret (filter (fun student => eq_str (Student._class_name student)
                                       class_name)
                (values current)).

(** What the message returned by [delete_students_by_class] reports. *)
Inductive class_message : Type :=
| NoSuchClass
| Batch (m : batch_message).

Definition delete_students_by_class (class_name : value)
  : M world (nat * class_message) :=
  if negb (truthy class_name) then raise (DataValidationError None)
  else
    let! current := students in
    let student_ids :=
      map (fun kv => VStr (fst kv))
          (filter (fun kv => eq_str (Student._class_name (snd kv))
                                    class_name) current) in
    match student_ids with
    | [] => ret (0, NoSuchClass)
    | _ =>
        try_except
          (let! r := delete_students_by_ids student_ids in
           ret (fst r, Batch (snd r)))
          (fun _ => raise OperationFailedError)
    end.

Definition get_all_students : M world (list Student.t) :=
  let! current := students in ret (values current).

Definition get_student_count : M world nat :=
  let! current := students in ret (length current).

Definition get_class_list : M world (list pystr) :=
  let! current := students in
  ret (sorted_set (map Student._class_name (values current))).

Definition get_class_student_count (class_name : value) : M world nat :=
  if negb (truthy class_name) then ret 0
  else
    let! current := students in
    ret (length (filter (fun student =>
                           eq_str (Student._class_name student) class_name)
                        (values current))).

Definition backup_data : M world path :=
  try_except
    (let! dm := data_manager in
     lift_os (DataManager.backup_data dm DataManager.default_backup_dir))
    (fun _ => raise OperationFailedError).

(** [export_data(export_file)]: the handler logs and raises the same
    exception again. *)
Definition export_data (export_file : path) (w : world)
  : outcome' bool * world :=
  let (r, o) :=
    DataManager.export_data (_data_manager (self w)) export_file (os w) in
  (r, mk_world (self w) o).

End StudentManager.

(* ================================================================== *)
(** * [src/ui/user_interface.py] *)
(* ================================================================== *)

Module UserInterface.

(** The ids the batch deletion menu passes to [delete_students_by_ids]:
    [[s.strip() for s in student_ids_str.split(',') if s.strip()]]. *)
Definition student_ids (student_ids_str : pystr) : list pystr :=
  map strip
      (filter (fun s => negb (Validator.is_empty (strip s)))
              (split_comma student_ids_str)).

End UserInterface.

(* ================================================================== *)
(** * A running example *)
(* ================================================================== *)

(** The data of the scenarios of the specification: an empty store and
    the records added to it. *)
Module Scenario.

Definition data_file : path := "data/students.json".
Definition dm : DataManager.t := DataManager.mk data_file.

(** Nothing on disk but the directory [data], every path writable. *)
Definition os_empty : os_state :=
  mk_os (fun _ => None) (fun p => String.eqb p "data") (fun _ => false)
        "20240101_120000".

(** 张三, 李四, 王五 *)
Definition zhang_san : pystr := [0x5f20; 0x4e09]%N.
Definition li_si : pystr := [0x674e; 0x56db]%N.
Definition wang_wu : pystr := [0x738b; 0x4e94]%N.

Definition id1 : pystr := lit "2023001".
Definition id2 : pystr := lit "2023002".
Definition id3 : pystr := lit "2023003".

Definition student1 : Student.t :=
  Student.mk id1 zhang_san Validator.male 20 (lit "CS-1") (lit "13800138001").
Definition student2 : Student.t :=
  Student.mk id2 li_si Validator.female 21 (lit "CS-1") (lit "13800138002").
Definition student3 : Student.t :=
  Student.mk id3 wang_wu Validator.male 22 (lit "CS-2") (lit "13800138003").

(** The manager right after construction on the empty store. *)
Definition w0 : StudentManager.world :=
  snd (StudentManager.__init__ dm os_empty).

(** ... after [add_student("2023001", "张三", "男", 20, "CS-1",
    "13800138001")] ... *)
Definition w1 : StudentManager.world :=
  snd (StudentManager.add_student
         (VStr id1) (VStr zhang_san) (VStr Validator.male) (VInt 20)
         (VStr (lit "CS-1")) (VStr (lit "13800138001")) w0).

(** ... and after [add_student("2023002", "李四", "女", 21, "CS-1",
    "13800138002")]. *)
Definition w2 : StudentManager.world :=
  snd (StudentManager.add_student
         (VStr id2) (VStr li_si) (VStr Validator.female) (VInt 21)
         (VStr (lit "CS-1")) (VStr (lit "13800138002")) w1).

(** An import file with the records of 2023002, renamed, and 2023003. *)
Definition student2' : Student.t :=
  Student.mk id2 (lit "Li Si") Validator.female 21 (lit "CS-1")
             (lit "13800138002").

Definition import_file : path := "import/students.json".

Definition imported : value :=
  VDict [ (id2, Student.to_dict student2'); (id3, Student.to_dict student3) ].

Definition w2_with_import : StudentManager.world :=
  StudentManager.mk_world
    (StudentManager.self w2)
    (set_file import_file (Some (Json.dumps imported))
              (StudentManager.os w2)).

Definition imported_records : dict value :=
  [ (id2, Student.to_dict student2'); (id3, Student.to_dict student3) ].

Definition os_with_import : os_state := StudentManager.os w2_with_import.

(** A backup file next to a store whose data file is gone. *)
Definition backup_file : path := "data/backups/students_backup_20231231_235959.json".

Definition os_backup_only : os_state :=
  mk_os (fun p => if String.eqb p backup_file
                  then Some (Json.dumps imported) else None)
        (fun p => String.eqb p "data" || String.eqb p "data/backups")
        (fun _ => false) "20240101_120000".



(** The dataset of the two records, as the manager serializes it. *)
Definition dataset12 : dict value :=
  [ (id1, Student.to_dict student1); (id2, Student.to_dict student2) ].




(** An import file whose values are not records at all. *)
Definition odd_import : dict value :=
  [ (lit "x", VInt 5); (id1, VList [VNone; VBool true]) ].


(** A store whose data file holds a JSON list, next to an import file
    that holds an object. *)
Definition os_list_store : os_state :=
  set_file data_file (Some (lit "[]"))
    (set_file import_file (Some (Json.dumps (VDict odd_import))) os_empty).

End Scenario.

(* ================================================================== *)
(** * Notions used by the statements and the proofs *)
(* ================================================================== *)

(** Every character class of [r] lies within [P]. *)
Fixpoint classes_within (P : char -> bool) (r : Re.regex) : Prop :=
  match r with
  | Re.Cls p => forall c, p c = true -> P c = true
  | Re.Seq a b | Re.Alt a b => classes_within P a /\ classes_within P b
  | Re.Star a => classes_within P a
  | Re.Void | Re.Eps => True
  end.

(** A sufficient syntactic test for the empty language. *)
Fixpoint dead (r : Re.regex) : bool :=
  match r with
  | Re.Void => true
  | Re.Eps | Re.Cls _ | Re.Star _ => false
  | Re.Seq a b => dead a || dead b
  | Re.Alt a b => dead a && dead b
  end.

(** A code point UTF-8 can encode. *)
Definition encodable_char (c : char) : bool := negb (is_surrogate c).
Definition encodable_str (s : pystr) : bool := forallb encodable_char s.

(** Induction over values, with the hypotheses for the members of a list
    and of a dict. *)
Fixpoint value_ind (P : value -> Prop)
  (HNone : P VNone) (HBool : forall b, P (VBool b))
  (HInt : forall z, P (VInt z)) (HStr : forall s, P (VStr s))
  (HList : forall l, Forall P l -> P (VList l))
  (HDict : forall d, Forall (fun kv => P (snd kv)) d -> P (VDict d))
  (v : value) {struct v} : P v :=
  match v with
  | VNone => HNone
  | VBool b => HBool b
  | VInt z => HInt z
  | VStr s => HStr s
  | VList l =>
      HList l
        ((fix all (l : list value) : Forall P l :=
            match l with
            | [] => Forall_nil P
            | x :: l' =>
                Forall_cons x
                  (value_ind HNone HBool HInt HStr HList HDict x) (all l')
            end) l)
  | VDict d =>
      HDict d
        ((fix all (d : list (pystr * value))
            : Forall (fun kv => P (snd kv)) d :=
            match d with
            | [] => Forall_nil _
            | kv :: d' =>
                Forall_cons kv
                  (value_ind HNone HBool HInt HStr HList HDict (snd kv))
                  (all d')
            end) d)
  end.

Fixpoint keys_unique (ks : list pystr) : bool :=
  match ks with
  | [] => true
  | k :: r => negb (Student.str_in k r) && keys_unique r
  end.

(** A value as Python can hold it: no dict has a key twice. *)
Fixpoint well_formed (v : value) : bool :=
  match v with
  | VList l => forallb well_formed l
  | VDict d =>
      keys_unique (dict_keys d) && forallb (fun kv => well_formed (snd kv)) d
  | _ => true
  end.

(** Every string of the value, keys included, can be encoded as UTF-8. *)
Fixpoint encodable (v : value) : bool :=
  match v with
  | VStr s => encodable_str s
  | VList l => forallb encodable l
  | VDict d =>
      forallb (fun kv => encodable_str (fst kv) && encodable (snd kv)) d
  | _ => true
  end.

(** The number of nodes of a value, counting each member once more: an
    upper bound of the fuel [scan_once] needs to read it back. *)
Fixpoint size (v : value) : nat :=
  match v with
  | VList l => S (fold_right (fun x n => S (size x + n)) 0 l)
  | VDict d => S (fold_right (fun kv n => S (size (snd kv) + n)) 0 d)
  | _ => 1
  end.

(** The text of a value at an indentation level. *)
Definition dumps_at (level : nat) (v : value) : pystr :=
  concat (Json.iterencode level v).

(** The text of the members of a list, the first one after [buf], the
    others after a comma and a new line. *)
Fixpoint elems_text (level : nat) (buf : pystr) (l : list value) : pystr :=
  match l with
  | [] => []
  | x :: l' =>
      buf ++ dumps_at (S level) x
      ++ elems_text level (44%N :: Json.newline_indent (S level)) l'
  end.

(** The text of the members of a dict: key, colon, value; a comma and a
    new line before each but the first when [first] holds. *)
Fixpoint items_text (level : nat) (first : bool) (d : list (pystr * value))
  : pystr :=
  match d with
  | [] => []
  | (k, x) :: d' =>
      (if first then [] else 44%N :: Json.newline_indent (S level))
      ++ Json.encode_basestring k ++ lit ": " ++ dumps_at (S level) x
      ++ items_text level false d'
  end.

(** What may follow a value in a text: nothing, a comma or a new line. *)
Definition delimited (rest : pystr) : Prop :=
  match rest with
  | [] => True
  | c :: _ => c = 44%N \/ c = 10%N
  end.

(** [scan_once] reads the text of [x] back, whatever follows it. *)
Definition reads_back (x : value) : Prop :=
  forall level rest fuel,
    delimited rest -> size x <= fuel ->
    Json.scan_once fuel (dumps_at level x ++ rest) = Some (x, rest).

(** ** Valid datasets (section 3 of the specification) *)

Definition record_fields : list pystr :=
  [lit "student_id"; lit "name"; lit "gender"; lit "age";
   lit "class_name"; lit "contact"].

(** [fields[key]] is a string that the rule accepts. *)
Definition str_field (fields : dict value) (key : string)
  (rule : value -> bool) : bool :=
  match dict_get (lit key) fields with
  | Some (VStr s) => rule (VStr s)
  | _ => false
  end.

(** [fields[key]] is an integer that the rule accepts. *)
Definition int_field (fields : dict value) (key : string)
  (rule : value -> bool) : bool :=
  match dict_get (lit key) fields with
  | Some (VInt z) => rule (VInt z)
  | _ => false
  end.

(** A flat record: exactly the six fields, in any order, five strings and
    an integer age, each accepted by its rule. *)
Definition valid_record (v : value) : bool :=
  match v with
  | VDict fields =>
      keys_unique (dict_keys fields) && Nat.eqb (length fields) 6
      && str_field fields "student_id" Validator.validate_student_id
      && str_field fields "name" Validator.validate_name
      && str_field fields "gender" Validator.validate_gender
      && int_field fields "age" Validator.validate_age
      && str_field fields "class_name" Validator.validate_class_name
      && str_field fields "contact" Validator.validate_contact
  | _ => false
  end.

(** A dataset: a dict without repeated keys that maps each id to a valid
    record of that id. *)
Definition valid_dataset (d : dict value) : bool :=
  keys_unique (dict_keys d)
  && forallb (fun kv =>
                valid_record (snd kv)
                && match snd kv with
                   | VDict fields =>
                       match dict_get (lit "student_id") fields with
                       | Some (VStr i) => str_eqb i (fst kv)
                       | _ => false
                       end
                   | _ => false
                   end) d.

(** The system lets the program create or overwrite [p]. *)
Definition writable (s : os_state) (p : path) : bool :=
  negb (denied s p) && negb (dirs s p).

(** [len(v)] is defined: [v] is a string, a list or a dict. *)
Definition sized (v : value) : bool :=
  match v with
  | VStr _ | VList _ | VDict _ => true
  | VNone | VBool _ | VInt _ => false
  end.

(** ** The id rule of the specification *)



(** ** Loading *)

(** The records of a dataset that [Student.from_dict] accepts, under
    their keys and in the order of the dataset. *)
Fixpoint accepted (items : dict value) : dict Student.t :=
  match items with
  | [] => []
  | (k, v) :: rest =>
      match Student.from_dict v with
      | Ret student => (k, student) :: accepted rest
      | Raise _ => accepted rest
      end
  end.

(** The keys of [d] are exactly those listed in [ks]. *)
Definition key_set {V} (d : dict V) (ks : list pystr) : Prop :=
  forall k, In k (dict_keys d) <-> In k ks.

(** ** Records the constructor can produce *)

(** [s.strip() == s] *)
Definition stripped (s : pystr) : bool := str_eqb (strip s) s.

(** Every field holds a value its rule accepts, in the form the
    constructor stores it. *)
Definition valid_student (st : Student.t) : bool :=
  Validator.validate_student_id (VStr (Student._student_id st))
  && Validator.validate_name (VStr (Student._name st))
  && stripped (Student._name st)
  && Validator.validate_gender (VStr (Student._gender st))
  && Validator.validate_age (VInt (Student._age st))
  && Validator.validate_class_name (VStr (Student._class_name st))
  && stripped (Student._class_name st)
  && Validator.validate_contact (VStr (Student._contact st))
  && stripped (Student._contact st).


(** The path [backup_data] copies the data file to. *)
Definition backup_path (backup_dir : path) (s : os_state) : path :=
  Os.join backup_dir ("students_backup_" ++ clock s ++ ".json")%string.

(** [os.makedirs(p, exist_ok=True)] can succeed: the directory is there,
    or nothing is in its place and the system lets it be made. *)
Definition can_make_dir (s : os_state) (p : path) : bool :=
  dirs s p
  || match files s p with
     | Some _ => false
     | None => negb (denied s p)
     end.

(** The path has no slash. *)
Fixpoint bare_name (p : path) : bool :=
  match p with
  | EmptyString => true
  | String c r => negb (Ascii.eqb c "/") && bare_name r
  end.

(** ** The map of a manager *)

(** The map as the program builds it and can save it: one entry per
    key, keys that UTF-8 can encode, valid records. *)
Definition manager_ok (d : dict Student.t) : bool :=
  keys_unique (dict_keys d)
  && forallb (fun kv => encodable_str (fst kv) && valid_student (snd kv)) d.

(** The dict of dicts that stands for the map in the data file. *)
Definition serialized (d : dict Student.t) : dict value :=
  map (fun kv => (fst kv, Student.to_dict (snd kv))) d.

Definition records (w : StudentManager.world) : dict Student.t :=
  StudentManager._students (StudentManager.self w).

Definition data_path (w : StudentManager.world) : path :=
  DataManager._data_file (StudentManager._data_manager (StudentManager.self w)).

(** The manager with the map [d], on a system whose data file holds the
    text of [d]. *)
Definition saved (d : dict Student.t) (w : StudentManager.world)
  : StudentManager.world :=
  StudentManager.mk_world
    (StudentManager.mk (StudentManager._data_manager (StudentManager.self w)) d)
    (set_file (data_path w) (Some (Json.dumps (VDict (serialized d))))
              (StudentManager.os w)).

(** Each string is smaller than the next one. *)
Fixpoint increasing (l : list pystr) : bool :=
  match l with
  | x :: (y :: _) as r => str_ltb x y && increasing r
  | _ => true
  end.

(** The keys of [d] that are not in [ks]. *)
Definition without (ks : list pystr) (d : dict Student.t) : dict Student.t :=
  filter (fun kv => negb (Student.str_in (fst kv) ks)) d.

(** A character of the class [[a-zA-Z0-9_]]. *)
Definition word_char (c : char) : bool :=
  is_ascii_letter c || is_ascii_digit c || N.eqb c 95.

(** The ids of a list that [delete_students_by_ids] deletes, reports as
    not found, and reports as invalid. *)
Definition deletable (d : dict Student.t) (ids : list pystr) : list pystr :=
  filter (fun i => StudentManager._validate_student_id (VStr i)
                   && dict_mem i d) ids.

Definition not_found (d : dict Student.t) (ids : list pystr) : list pystr :=
  filter (fun i => StudentManager._validate_student_id (VStr i)
                   && negb (dict_mem i d)) ids.

Definition invalid_ids (ids : list pystr) : list pystr :=
  filter (fun i => negb (StudentManager._validate_student_id (VStr i))) ids.

(** The entries of the map whose record is of the class [class_name]. *)
Definition members (class_name : value) (d : dict Student.t)
  : dict Student.t :=
  filter (fun kv => eq_str (Student._class_name (snd kv)) class_name) d.

(** Some keyword argument is not a field that can be updated. *)
Definition has_unknown_field (kwargs : dict value) : bool :=
  existsb (fun kv => negb (Student.str_in (fst kv) Student.allowed_fields))
          kwargs.

(** ** A data file with a key that is not an id *)

Module Example.

(** The record of 2023001 stored under the key [ab]. *)
Definition os_short_key : os_state :=
  set_file Scenario.data_file
    (Some (Json.dumps
             (VDict [(lit "ab", Student.to_dict Scenario.student1)])))
    Scenario.os_empty.

(** The manager constructed on that file. *)
Definition w_short_key : StudentManager.world :=
  snd (StudentManager.__init__ Scenario.dm os_short_key).

End Example.

(* ================================================================== *)
(** * Strings and dictionaries: basic facts *)
(* ================================================================== *)

Lemma str_eqb_spec (a b : pystr) : str_eqb a b = true <-> a = b.
Proof.
  revert b; induction a as [|x a IH]; intros [|y b]; simpl; split;
    try congruence; try reflexivity.
  - rewrite andb_true_iff, N.eqb_eq, IH. intros [-> ->]; reflexivity.
  - intros H; injection H as -> ->.
    rewrite N.eqb_refl; simpl; apply IH; reflexivity.
Qed.

Lemma str_eqb_refl (a : pystr) : str_eqb a a = true.
Proof. apply str_eqb_spec; reflexivity. Qed.

Lemma str_eqb_neq (a b : pystr) : str_eqb a b = false <-> a <> b.
Proof.
  split.
  - intros H E. apply str_eqb_spec in E. congruence.
  - intros H. destruct (str_eqb a b) eqn:E; [|reflexivity].
    apply str_eqb_spec in E; contradiction.
Qed.

Lemma str_eqb_sym (a b : pystr) : str_eqb a b = str_eqb b a.
Proof.
  destruct (str_eqb a b) eqn:E.
  - apply str_eqb_spec in E; subst; symmetry; apply str_eqb_refl.
  - symmetry; apply str_eqb_neq. apply str_eqb_neq in E. congruence.
Qed.


Section DictFacts.
Variable V : Type.
Implicit Types (d o : dict V) (k : pystr) (v : V).

Lemma dict_get_set_same k v d : dict_get k (dict_set k v d) = Some v.
Proof.
  induction d as [|[k' v'] d IH]; simpl.
  - rewrite str_eqb_refl; reflexivity.
  - destruct (str_eqb k k') eqn:E; simpl; rewrite E; auto.
Qed.

Lemma dict_get_set_other k k' v d :
  k <> k' -> dict_get k' (dict_set k v d) = dict_get k' d.
Proof.
  intros N. induction d as [|[k0 v0] d IH]; simpl.
  - apply str_eqb_neq in N. rewrite str_eqb_sym, N; reflexivity.
  - destruct (str_eqb k k0) eqn:E; simpl.
    + apply str_eqb_spec in E; subst k0.
      assert (str_eqb k' k = false) as ->
        by (apply str_eqb_neq; congruence).
      reflexivity.
    + destruct (str_eqb k' k0); auto.
Qed.

Lemma dict_get_set k k' v d :
  dict_get k' (dict_set k v d) =
  if str_eqb k' k then Some v else dict_get k' d.
Proof.
  destruct (str_eqb k' k) eqn:E.
  - apply str_eqb_spec in E; subst; apply dict_get_set_same.
  - apply dict_get_set_other. apply str_eqb_neq in E; congruence.
Qed.

Lemma dict_get_None_notin k d :
  dict_get k d = None <-> ~ In k (dict_keys d).
Proof.
  induction d as [|[k' v'] d IH]; simpl.
  - tauto.
  - destruct (str_eqb k k') eqn:E.
    + apply str_eqb_spec in E; subst. split; [discriminate | tauto].
    + apply str_eqb_neq in E. rewrite IH. split.
      * intros H [H1 | H1]; [congruence | tauto].
      * tauto.
Qed.

Lemma dict_get_Some_in k v d : dict_get k d = Some v -> In (k, v) d.
Proof.
  induction d as [|[k' v'] d IH]; simpl; [discriminate|].
  destruct (str_eqb k k') eqn:E.
  - apply str_eqb_spec in E; subst. intros H; injection H as ->; auto.
  - auto.
Qed.

Lemma dict_in_get k v d :
  NoDup (dict_keys d) -> In (k, v) d -> dict_get k d = Some v.
Proof.
  induction d as [|[k' v'] d IH]; simpl; [tauto|].
  intros ND [H | H].
  - injection H as -> ->. rewrite str_eqb_refl; reflexivity.
  - inversion ND as [|? ? Hn ND']; subst.
    destruct (str_eqb k k') eqn:E.
    + apply str_eqb_spec in E; subst. exfalso; apply Hn.
      change k' with (fst (k', v)). apply in_map; exact H.
    + apply IH; assumption.
Qed.

Lemma dict_mem_true k d : dict_mem k d = true <-> In k (dict_keys d).
Proof.
  unfold dict_mem. destruct (dict_get k d) eqn:E.
  - split; [|reflexivity]. intros _.
    apply dict_get_Some_in in E.
    change k with (fst (k, v)). apply in_map; exact E.
  - apply dict_get_None_notin in E. split; [discriminate | tauto].
Qed.

Lemma dict_mem_false k d : dict_mem k d = false <-> dict_get k d = None.
Proof.
  unfold dict_mem. destruct (dict_get k d); split; congruence.
Qed.

Lemma dict_set_absent k v d :
  ~ In k (dict_keys d) -> dict_set k v d = d ++ [(k, v)].
Proof.
  induction d as [|[k' v'] d IH]; simpl; [reflexivity|].
  intros H. destruct (str_eqb k k') eqn:E.
  - apply str_eqb_spec in E; subst. tauto.
  - rewrite IH by tauto. reflexivity.
Qed.

Lemma dict_keys_set k v d :
  dict_keys (dict_set k v d) =
  if dict_mem k d then dict_keys d else dict_keys d ++ [k].
Proof.
  unfold dict_mem.
  induction d as [|[k' v'] d IH]; simpl; [reflexivity|].
  destruct (str_eqb k k') eqn:E; simpl.
  - apply str_eqb_spec in E; subst; reflexivity.
  - rewrite IH. destruct (dict_get k d); reflexivity.
Qed.

Lemma dict_set_NoDup k v d :
  NoDup (dict_keys d) -> NoDup (dict_keys (dict_set k v d)).
Proof.
  intros ND. rewrite dict_keys_set.
  destruct (dict_mem k d) eqn:E; [assumption|].
  apply dict_mem_false, dict_get_None_notin in E.
  apply NoDup_app; [assumption | repeat constructor; simpl; tauto |].
  intros x Hx [<- | []]. tauto.
Qed.

Lemma dict_update_NoDup d o :
  NoDup (dict_keys d) -> NoDup (dict_keys (dict_update d o)).
Proof.
  revert d; induction o as [|[k v] o IH]; simpl; intros d ND;
    [assumption|].
  apply IH, dict_set_NoDup, ND.
Qed.

Lemma dict_update_disjoint d o :
  NoDup (dict_keys o) ->
  (forall k, In k (dict_keys o) -> ~ In k (dict_keys d)) ->
  dict_update d o = d ++ o.
Proof.
  revert d; induction o as [|[k v] o IH]; simpl; intros d ND Hd.
  - rewrite app_nil_r; reflexivity.
  - inversion ND as [|? ? Hn ND']; subst.
    rewrite dict_set_absent by (apply Hd; auto).
    rewrite IH; [rewrite <- app_assoc; reflexivity | assumption |].
    intros k' Hk'. unfold dict_keys. rewrite map_app, in_app_iff. simpl.
    intros [H | [H | []]].
    + apply (Hd k'); auto.
    + subst; tauto.
Qed.

Lemma dict_of_pairs_NoDup (o : list (pystr * V)) :
  NoDup (dict_keys o) -> dict_of_pairs o = o.
Proof.
  intros ND. unfold dict_of_pairs.
  rewrite dict_update_disjoint; auto.
Qed.

(** After [d.update(o)] a key of [o] has the last value [o] gives it and
    any other key keeps the value it has in [d]. *)
Lemma dict_get_update k d o :
  dict_get k (dict_update d o) =
  match dict_get k (rev o) with
  | Some v => Some v
  | None => dict_get k d
  end.
Proof.
  revert d; induction o as [|[k' v'] o IH]; simpl; intros d;
    [reflexivity|].
  rewrite IH. clear IH.
  assert (G : forall (l : dict V) x,
             dict_get k (l ++ [x]) =
             match dict_get k l with
             | Some v => Some v
             | None => if str_eqb k (fst x) then Some (snd x) else None
             end).
  { induction l as [|[a b] l IHl]; intros [x1 x2]; simpl.
    - reflexivity.
    - destruct (str_eqb k a); [reflexivity | apply IHl]. }
  rewrite G. simpl.
  destruct (dict_get k (rev o)); [reflexivity|].
  rewrite dict_get_set. destruct (str_eqb k k'); reflexivity.
Qed.

Lemma dict_get_rev k d :
  NoDup (dict_keys d) -> dict_get k (rev d) = dict_get k d.
Proof.
  intros ND. destruct (dict_get k d) eqn:E.
  - apply dict_in_get.
    + unfold dict_keys. rewrite map_rev. apply NoDup_rev; exact ND.
    + apply in_rev. rewrite rev_involutive.
      apply dict_get_Some_in; exact E.
  - apply dict_get_None_notin. apply dict_get_None_notin in E.
    unfold dict_keys in *. rewrite map_rev, <- in_rev. exact E.
Qed.

Lemma dict_get_del k k' d :
  NoDup (dict_keys d) ->
  dict_get k' (dict_del k d) =
  if str_eqb k' k then None else dict_get k' d.
Proof.
  induction d as [|[a b] d IH]; simpl; intros ND.
  - destruct (str_eqb k' k); reflexivity.
  - inversion ND as [|? ? Hn ND']; subst.
    destruct (str_eqb k a) eqn:E.
    + apply str_eqb_spec in E; subst a.
      destruct (str_eqb k' k) eqn:E'; [|reflexivity].
      apply str_eqb_spec in E'; subst.
      apply dict_get_None_notin; exact Hn.
    + simpl. destruct (str_eqb k' a) eqn:E2.
      * apply str_eqb_spec in E2; subst a.
        rewrite str_eqb_sym, E; reflexivity.
      * apply IH; assumption.
Qed.

End DictFacts.

(* ================================================================== *)
(** * Regular expressions: the characters of a matched string *)
(* ================================================================== *)

Lemma dead_not_nullable r : dead r = true -> Re.nullable r = false.
Proof.
  induction r; simpl; try discriminate; auto.
  - rewrite orb_true_iff. intros [H | H].
    + rewrite IHr1 by assumption; reflexivity.
    + rewrite IHr2 by assumption; apply andb_false_r.
  - rewrite andb_true_iff. intros [H1 H2].
    rewrite IHr1, IHr2 by assumption; reflexivity.
Qed.

Lemma dead_deriv c r : dead r = true -> dead (Re.deriv c r) = true.
Proof.
  induction r; simpl; try discriminate; auto.
  - rewrite orb_true_iff. intros [H | H].
    + rewrite (dead_not_nullable _ H). simpl. rewrite IHr1; auto.
    + destruct (Re.nullable r1); simpl; rewrite ?IHr2, ?H by assumption;
        rewrite ?orb_true_r; reflexivity.
  - rewrite andb_true_iff. intros [H1 H2]. rewrite IHr1, IHr2; auto.
Qed.

Lemma dead_fullmatch r s : dead r = true -> Re.fullmatch r s = false.
Proof.
  revert r; induction s as [|c s IH]; intros r H; simpl.
  - apply dead_not_nullable; assumption.
  - apply IH, dead_deriv; assumption.
Qed.

Lemma classes_within_deriv P c r :
  classes_within P r -> classes_within P (Re.deriv c r).
Proof.
  induction r; simpl; auto.
  - intros _. destruct (b c); exact I.
  - intros [H1 H2]. destruct (Re.nullable r1); simpl; auto.
  - intros [H1 H2]; auto.
Qed.

Lemma deriv_outside_dead P c r :
  classes_within P r -> P c = false -> dead (Re.deriv c r) = true.
Proof.
  intros H Pc. induction r; simpl in *; auto.
  - destruct (b c) eqn:E; [|reflexivity].
    apply H in E; congruence.
  - destruct H as [H1 H2]. destruct (Re.nullable r1); simpl.
    + rewrite IHr1, IHr2 by assumption; reflexivity.
    + rewrite IHr1 by assumption; reflexivity.
  - destruct H as [H1 H2]. rewrite IHr1, IHr2 by assumption; reflexivity.
  - rewrite IHr by assumption; reflexivity.
Qed.

(** A string of the language of [r] is made of characters of the classes
    of [r]. *)
Lemma fullmatch_within P r s :
  classes_within P r -> Re.fullmatch r s = true -> forallb P s = true.
Proof.
  revert r; induction s as [|c s IH]; intros r H M; simpl in *;
    [reflexivity|].
  destruct (P c) eqn:Pc; simpl.
  - apply (IH (Re.deriv c r)); [apply classes_within_deriv|]; assumption.
  - rewrite (dead_fullmatch _ s (deriv_outside_dead _ _ _ H Pc)) in M.
    discriminate.
Qed.

(** The same for [re.match] with [$]: possibly up to a final newline. *)
Lemma match_anchored_within P r s :
  classes_within P r -> Re.match_anchored r s = true ->
  forallb P s = true \/
  exists t, s = t ++ [10%N] /\ forallb P t = true.
Proof.
  intros H M. unfold Re.match_anchored in M.
  apply orb_true_iff in M. destruct M as [M | M].
  - left. eapply fullmatch_within; eassumption.
  - right. destruct (rev s) as [|c t] eqn:E; [discriminate|].
    destruct c as [|p]; [discriminate|].
    destruct (Pos.eq_dec p 10) as [-> | N].
    + exists (rev t). split.
      * rewrite <- (rev_involutive s), E. reflexivity.
      * eapply fullmatch_within; eassumption.
    + exfalso. clear - M N.
      do 4 (destruct p; try discriminate; try congruence).
Qed.

Lemma match_anchored_within' P r s :
  classes_within P r -> P 10%N = true ->
  Re.match_anchored r s = true -> forallb P s = true.
Proof.
  intros H P10 M.
  destruct (match_anchored_within _ _ _ H M) as [? | (t & -> & Ht)];
    [assumption|].
  rewrite forallb_app. simpl. rewrite P10.
  apply andb_true_iff; auto.
Qed.

Lemma classes_within_rep P n r :
  classes_within P r -> classes_within P (Re.rep n r).
Proof. intros H; induction n; simpl; auto. Qed.

Lemma classes_within_upto P n r :
  classes_within P r -> classes_within P (Re.upto n r).
Proof. intros H; induction n; simpl; auto. Qed.

Lemma classes_within_rep_range P lo hi r :
  classes_within P r -> classes_within P (Re.rep_range lo hi r).
Proof.
  intros H; split;
    [apply classes_within_rep | apply classes_within_upto]; assumption.
Qed.

(** ** [strip] removes white space only *)

Lemma lstrip_split s :
  exists w, s = w ++ lstrip s /\ forallb py_isspace w = true.
Proof.
  induction s as [|c s (w & E & W)]; simpl.
  - exists []. auto.
  - destruct (py_isspace c) eqn:Hc.
    + exists (c :: w). simpl. rewrite Hc, W. split; [congruence | reflexivity].
    + exists []. auto.
Qed.

Lemma strip_split s :
  exists w1 w2, s = w1 ++ strip s ++ w2 /\
                forallb py_isspace w1 = true /\
                forallb py_isspace w2 = true.
Proof.
  destruct (lstrip_split s) as (w1 & E1 & W1).
  destruct (lstrip_split (rev (lstrip s))) as (w2 & E2 & W2).
  exists w1, (rev w2). repeat split.
  - unfold strip, rstrip. rewrite <- rev_app_distr, <- E2, rev_involutive.
    exact E1.
  - exact W1.
  - rewrite forallb_forall in *. intros x Hx. apply W2, in_rev, Hx.
Qed.

Lemma forallb_strip P s :
  (forall c, py_isspace c = true -> P c = true) ->
  forallb P (strip s) = true -> forallb P s = true.
Proof.
  intros HP H. destruct (strip_split s) as (w1 & w2 & E & W1 & W2).
  rewrite E, !forallb_app, H.
  assert (G : forall w, forallb py_isspace w = true -> forallb P w = true).
  { intros w Hw. rewrite forallb_forall in *. auto. }
  rewrite (G _ W1), (G _ W2). reflexivity.
Qed.

(* ================================================================== *)
(** * The JSON codec: decoding what was encoded *)
(* ================================================================== *)

Lemma scalar_dumps level x t :
  Json.scalar_text x = Some t -> dumps_at level x = t.
Proof.
  unfold dumps_at.
  destruct x as [|[]| | | |]; simpl; intros H; inversion H;
    rewrite ?app_nil_r; reflexivity.
Qed.

Lemma container_dumps level x :
  Json.scalar_text x = None ->
  Json.iterencode level x <> [] .
Proof.
  destruct x as [|[]| | |[|y l]|[|[k y] d]]; simpl; try discriminate.
  destruct (Json.scalar_text y); discriminate.
Qed.

Lemma elem_chunks_text level buf x :
  concat match Json.scalar_text x with
         | Some t => [buf ++ t]
         | None => buf :: Json.iterencode (S level) x
         end = buf ++ dumps_at (S level) x.
Proof.
  destruct (Json.scalar_text x) eqn:E.
  - rewrite (scalar_dumps (S level) _ E). simpl. apply app_nil_r.
  - reflexivity.
Qed.

Lemma elems_fix_text level buf l :
  concat
    ((fix elems (buf : pystr) (l0 : list value) {struct l0} : list pystr :=
        match l0 with
        | [] => []
        | x0 :: l' =>
            match Json.scalar_text x0 with
            | Some t => [buf ++ t]
            | None => buf :: Json.iterencode (S level) x0
            end ++ elems (44%N :: Json.newline_indent (S level)) l'
        end) buf l) = elems_text level buf l.
Proof.
  revert buf; induction l as [|x l IH]; intros buf; [reflexivity|].
  rewrite concat_app, IH, elem_chunks_text. cbn [elems_text].
  rewrite <- app_assoc. reflexivity.
Qed.

Lemma dumps_at_list level x l :
  dumps_at level (VList (x :: l)) =
  elems_text level (91%N :: Json.newline_indent (S level)) (x :: l)
  ++ Json.newline_indent level ++ lit "]".
Proof.
  unfold dumps_at. cbn [Json.iterencode].
  rewrite !concat_app, elem_chunks_text, elems_fix_text.
  cbn [elems_text concat]. rewrite ?app_nil_r, <- ?app_assoc. reflexivity.
Qed.

Lemma item_chunks_text level x :
  concat match Json.scalar_text x with
         | Some t => [t]
         | None => Json.iterencode (S level) x
         end = dumps_at (S level) x.
Proof.
  destruct (Json.scalar_text x) eqn:E.
  - rewrite (scalar_dumps (S level) _ E). simpl. apply app_nil_r.
  - reflexivity.
Qed.

Lemma items_fix_text level first d :
  concat
    ((fix items (first : bool) (d0 : list (pystr * value)) {struct d0}
        : list pystr :=
        match d0 with
        | [] => []
        | (key, x0) :: d' =>
            (if first then [] else [44%N :: Json.newline_indent (S level)])
            ++ [Json.encode_basestring key; lit ": "]
            ++ match Json.scalar_text x0 with
               | Some t => [t]
               | None => Json.iterencode (S level) x0
               end
            ++ items false d'
        end) first d) = items_text level first d.
Proof.
  revert first; induction d as [|[k x] d IH]; intros first; [reflexivity|].
  rewrite !concat_app, IH, item_chunks_text. cbn [items_text].
  rewrite <- ?app_assoc. f_equal.
  - destruct first; simpl; rewrite ?app_nil_r; reflexivity.
  - cbn [concat]. rewrite ?app_nil_r, <- ?app_assoc. reflexivity.
Qed.

Lemma dumps_at_dict level k x d :
  dumps_at level (VDict ((k, x) :: d)) =
  lit "{" ++ Json.newline_indent (S level)
  ++ items_text level true ((k, x) :: d)
  ++ Json.newline_indent level ++ lit "}".
Proof.
  unfold dumps_at.
  change (Json.iterencode level (VDict ((k, x) :: d))) with
    ([lit "{"; Json.newline_indent (S level)] ++
     (fix items (first : bool) (d0 : list (pystr * value)) {struct d0}
        : list pystr :=
        match d0 with
        | [] => []
        | (key, x0) :: d' =>
            (if first then [] else [44%N :: Json.newline_indent (S level)])
            ++ [Json.encode_basestring key; lit ": "]
            ++ match Json.scalar_text x0 with
               | Some t => [t]
               | None => Json.iterencode (S level) x0
               end
            ++ items false d'
        end) true ((k, x) :: d)
     ++ [Json.newline_indent level; lit "}"]).
  rewrite !concat_app, item_chunks_text, items_fix_text.
  cbn [concat items_text]. rewrite ?app_nil_r, <- ?app_assoc.
  reflexivity.
Qed.

(** ** White space *)

Lemma skip_ws_spaces n t :
  Json.skip_ws (repeat 32%N n ++ t) = Json.skip_ws t.
Proof. induction n; simpl; auto. Qed.

Lemma skip_ws_newline_indent level t :
  Json.skip_ws (Json.newline_indent level ++ t) = Json.skip_ws t.
Proof. unfold Json.newline_indent. simpl. apply skip_ws_spaces. Qed.

Lemma skip_ws_head c t :
  Json.is_ws c = false -> Json.skip_ws (c :: t) = c :: t.
Proof. intros H; simpl; rewrite H; reflexivity. Qed.

(** ** Integers *)

Lemma digit_of_uint_chars u rest :
  match rest with
  | [] => True
  | c :: _ => Json.digit_of_char c = None
  end ->
  Json.read_digits (Json.uint_chars u ++ rest) = (u, rest).
Proof.
  intros H. induction u; simpl; rewrite ?IHu; try reflexivity.
  destruct rest as [|c r]; [reflexivity|]. simpl. rewrite H. reflexivity.
Qed.

Lemma delimited_not_digit rest :
  delimited rest ->
  match rest with
  | [] => True
  | c :: _ => Json.digit_of_char c = None
  end.
Proof. destruct rest as [|c r]; simpl; [tauto|]. intros [-> | ->]; reflexivity. Qed.

Lemma delimited_not_float rest : delimited rest -> Json.float_tail rest = false.
Proof. destruct rest as [|c r]; simpl; [tauto|]. intros [-> | ->]; reflexivity. Qed.

Lemma to_uint_head p :
  Pos.to_uint p <> Decimal.Nil /\
  forall u, Pos.to_uint p <> Decimal.D0 u.
Proof.
  split; [apply DecimalPos.Unsigned.to_uint_nonnil|].
  intros u E.
  pose proof (DecimalPos.Unsigned.to_of (Pos.to_uint p)) as H.
  rewrite DecimalPos.Unsigned.of_to in H. simpl in H.
  pose proof (DecimalPos.Unsigned.to_uint_nonzero p) as NZ.
  rewrite E in H, NZ. rewrite DecimalFacts.unorm_D0 in H.
  unfold Decimal.unorm in H.
  destruct (Decimal.nzhead u) eqn:Hz;
    apply (DecimalFacts.nzhead_nonzero u u); congruence.
Qed.

Lemma uint_chars_pos p :
  exists c cs,
    Json.uint_chars (Pos.to_uint p) = c :: cs /\
    in_range 49 57 c = true.
Proof.
  destruct (to_uint_head p) as [H1 H2].
  destruct (Pos.to_uint p) eqn:E; try congruence;
    try (eexists _, _; split; [reflexivity | reflexivity]).
Qed.

Lemma match_number_nat n rest :
  delimited rest ->
  Json.match_number (Json.uint_chars (N.to_uint n) ++ rest)
  = Some (Z.of_N n, rest).
Proof.
  intros D. destruct n as [|p].
  - simpl. unfold Json.match_number. simpl.
    rewrite (delimited_not_float rest D). reflexivity.
  - simpl N.to_uint.
    destruct (uint_chars_pos p) as (c & cs & E & R).
    unfold Json.match_number.
    pose proof (digit_of_uint_chars (Pos.to_uint p) rest
                  (delimited_not_digit rest D)) as RD.
    rewrite E in *. simpl app in *.
    assert (N45 : N.eqb c 45 = false).
    { unfold in_range in R. apply andb_true_iff in R. destruct R as [R _].
      apply N.leb_le in R. apply N.eqb_neq. lia. }
    assert (N48 : N.eqb c 48 = false).
    { unfold in_range in R. apply andb_true_iff in R. destruct R as [R _].
      apply N.leb_le in R. apply N.eqb_neq. lia. }
    cbv beta iota. rewrite N45. cbv beta iota.
    rewrite N48, R, RD, (delimited_not_float rest D).
    change (N.of_uint (Pos.to_uint p)) with (Pos.of_uint (Pos.to_uint p)).
    rewrite DecimalPos.Unsigned.of_to. reflexivity.
Qed.

Lemma match_number_int_repr z rest :
  delimited rest ->
  Json.match_number (Json.int_repr z ++ rest) = Some (z, rest).
Proof.
  intros D. unfold Json.int_repr. destruct (z <? 0)%Z eqn:Hz.
  - apply Z.ltb_lt in Hz.
    destruct z as [|p|p]; try lia.
    simpl Z.abs_N. simpl N.to_uint.
    pose proof (@match_number_nat (Npos p) rest D) as H.
    simpl N.to_uint in H.
    destruct (uint_chars_pos p) as (c & cs & E & R).
    unfold Json.match_number in *. rewrite E in *. simpl app in *.
    assert (N45 : N.eqb c 45 = false).
    { unfold in_range in R. apply andb_true_iff in R. destruct R as [R _].
      apply N.leb_le in R. apply N.eqb_neq. lia. }
    assert (N48 : N.eqb c 48 = false).
    { unfold in_range in R. apply andb_true_iff in R. destruct R as [R _].
      apply N.leb_le in R. apply N.eqb_neq. lia. }
    cbv beta iota in *. rewrite N.eqb_refl. rewrite N45 in H.
    cbv beta iota in *. rewrite N48, R in *.
    destruct (Json.read_digits (c :: cs ++ rest)) as [u r'].
    destruct (Json.float_tail r'); [discriminate|].
    injection H as H1 H2. subst r'. rewrite H1. reflexivity.
  - apply Z.ltb_ge in Hz.
    rewrite (@match_number_nat (Z.to_N z) rest D).
    rewrite Z2N.id by assumption. reflexivity.
Qed.

Lemma int_repr_head z :
  exists c cs, Json.int_repr z = c :: cs /\
               (c = 45%N \/ in_range 48 57 c = true).
Proof.
  unfold Json.int_repr. destruct (z <? 0)%Z.
  - eexists _, _; split; [reflexivity | left; reflexivity].
  - destruct (Z.to_N z) as [|p].
    + eexists _, _; split; [reflexivity | right; reflexivity].
    + destruct (uint_chars_pos p) as (c & cs & E & R).
      exists c, cs. split; [exact E | right].
      unfold in_range in *. apply andb_true_iff in R. destruct R as [R1 R2].
      apply N.leb_le in R1. rewrite R2, andb_true_r. apply N.leb_le. lia.
Qed.

(** ** Strings *)

Lemma scanstring_escape_char c t :
  Json.scanstring (Json.escape_char c ++ t)
  = Json.cons_str c (Json.scanstring t).
Proof.
  unfold Json.escape_char.
  destruct (N.eqb_spec c 92) as [->|N92]; [reflexivity|].
  destruct (N.eqb_spec c 34) as [->|N34]; [reflexivity|].
  destruct (N.eqb_spec c 8) as [->|N8]; [reflexivity|].
  destruct (N.eqb_spec c 12) as [->|N12]; [reflexivity|].
  destruct (N.eqb_spec c 10) as [->|N10]; [reflexivity|].
  destruct (N.eqb_spec c 13) as [->|N13]; [reflexivity|].
  destruct (N.eqb_spec c 9) as [->|N9]; [reflexivity|].
  destruct (N.ltb_spec c 32) as [L|L].
  - destruct c as [|p]; [reflexivity|].
    do 5 (try destruct p as [p|p|]); try reflexivity; exfalso; lia.
  - change ([c] ++ t) with (c :: t). cbn [Json.scanstring].
    apply N.eqb_neq in N92, N34. rewrite N92, N34.
    assert (N.ltb c 32 = false) as -> by (apply N.ltb_ge; exact L).
    reflexivity.
Qed.

Lemma scanstring_escape s rest :
  Json.scanstring (Json.escape s ++ 34%N :: rest) = Some (s, rest).
Proof.
  induction s as [|c s IH]; [reflexivity|].
  cbn [Json.escape]. rewrite <- app_assoc, scanstring_escape_char, IH.
  reflexivity.
Qed.

(** ** Values *)

Lemma dumps_head level v :
  exists c t, dumps_at level v = c :: t /\
              Json.is_ws c = false /\ N.eqb c 93 = false.
Proof.
  destruct v as [|[]|z|s|[|x l]|[|[k x] d]];
    try (eexists _, _; split; [reflexivity | split; reflexivity]).
  - destruct (int_repr_head z) as (c & cs & E & H).
    exists c, cs. split.
    + rewrite (scalar_dumps level (VInt z) eq_refl). exact E.
    + unfold in_range in H.
      destruct H as [-> | H]; [split; reflexivity|].
      apply andb_true_iff in H. destruct H as [H1 H2].
      apply N.leb_le in H1, H2. unfold Json.is_ws.
      split; [|apply N.eqb_neq; lia].
      repeat (apply orb_false_iff; split); apply N.eqb_neq; lia.
  - rewrite dumps_at_list. cbn [elems_text].
    eexists _, _; split; [reflexivity | split; reflexivity].
Qed.

Lemma skip_ws_dumps level v t :
  Json.skip_ws (dumps_at level v ++ t) = dumps_at level v ++ t.
Proof.
  destruct (dumps_head level v) as (c & r & -> & W & _).
  simpl. rewrite W. reflexivity.
Qed.

Lemma scan_once_scalar_text (c : char) (cs : pystr) fuel :
  N.eqb c 34 = false -> N.eqb c 123 = false -> N.eqb c 91 = false ->
  N.eqb 110 c = false -> N.eqb 116 c = false -> N.eqb 102 c = false ->
  Json.scan_once (S fuel) (c :: cs) =
  match Json.match_number (c :: cs) with
  | Some (z, r') => Some (VInt z, r')
  | None => None
  end.
Proof.
  intros H1 H2 H3 H4 H5 H6. cbn [Json.scan_once].
  rewrite H1, H2, H3.
  change (lit "null") with [110; 117; 108; 108]%N.
  change (lit "true") with [116; 114; 117; 101]%N.
  change (lit "false") with [102; 97; 108; 115; 101]%N.
  cbn [Json.starts_with]. rewrite H4, H5, H6. reflexivity.
Qed.

Lemma reads_back_int z : reads_back (VInt z).
Proof.
  intros level rest fuel D F. simpl in F.
  destruct fuel as [|fuel]; [lia|].
  rewrite (scalar_dumps level (VInt z) eq_refl).
  destruct (int_repr_head z) as (c & cs & E & H).
  pose proof (@match_number_int_repr z rest D) as M.
  rewrite E in *. simpl app in *.
  rewrite scan_once_scalar_text, M; try reflexivity;
    unfold in_range in H;
    (destruct H as [-> | H]; [reflexivity|]);
    apply andb_true_iff in H; destruct H as [H1 H2];
    apply N.leb_le in H1, H2; apply N.eqb_neq; lia.
Qed.

Lemma reads_back_str s : reads_back (VStr s).
Proof.
  intros level rest fuel D F. simpl in F.
  destruct fuel as [|fuel]; [lia|].
  rewrite (scalar_dumps level (VStr s) eq_refl).
  unfold Json.encode_basestring. cbn [Json.scan_once app].
  rewrite <- app_assoc. cbn [app N.eqb Pos.eqb].
  rewrite scanstring_escape. reflexivity.
Qed.

Lemma elems_text_delimited level l t :
  delimited (elems_text level (44%N :: Json.newline_indent (S level)) l
             ++ Json.newline_indent level ++ t).
Proof. destruct l; simpl; auto. Qed.

Lemma elements_dumps level rest l :
  Forall reads_back l ->
  forall x fuel,
    reads_back x ->
    fold_right (fun x n => S (size x + n)) 0 (x :: l) <= fuel ->
    Json.elements fuel
      (dumps_at (S level) x
       ++ elems_text level (44%N :: Json.newline_indent (S level)) l
       ++ Json.newline_indent level ++ 93%N :: rest)
    = Some (x :: l, rest).
Proof.
  induction 1 as [|y l Hy Hl IH]; intros x fuel Hx F.
  - simpl in F. destruct fuel as [|fuel]; [lia|].
    cbn [Json.elements elems_text app].
    rewrite (Hx (S level) _ fuel); [| simpl; auto | lia].
    rewrite skip_ws_newline_indent. reflexivity.
  - cbn [fold_right] in F. destruct fuel as [|fuel]; [lia|].
    cbn [Json.elements].
    rewrite (Hx (S level) _ fuel);
      [| apply elems_text_delimited | lia].
    cbn [elems_text]. rewrite <- !app_assoc.
    cbn [app Json.skip_ws Json.is_ws N.eqb Pos.eqb orb].
    rewrite skip_ws_newline_indent, skip_ws_dumps.
    rewrite (IH y fuel Hy); [reflexivity|].
    cbn [fold_right]. lia.
Qed.

Lemma reads_back_list l : Forall reads_back l -> reads_back (VList l).
Proof.
  intros H level rest fuel D F.
  destruct fuel as [|fuel]; [simpl in F; lia|].
  destruct H as [|x l Hx Hl]; [reflexivity|].
  rewrite dumps_at_list. cbn [elems_text].
  rewrite <- !app_assoc. cbn [app Json.scan_once N.eqb Pos.eqb].
  rewrite skip_ws_newline_indent, skip_ws_dumps.
  destruct (dumps_head (S level) x) as (c & t & E & W & N93).
  pose proof (@elements_dumps level rest l Hl x fuel Hx) as G.
  rewrite E in *. cbn [app] in *. rewrite N93.
  change (lit "]") with [93%N]. cbn [app].
  match goal with
  | |- match ?e with _ => _ end = _ =>
      assert (R : e = Some (x :: l, rest))
        by (apply G; simpl in F; cbn [fold_right]; lia);
      rewrite R
  end.
  reflexivity.
Qed.

Lemma items_text_delimited level d t :
  delimited (items_text level false d ++ Json.newline_indent level ++ t).
Proof. destruct d as [|[k x] d]; simpl; auto. Qed.

Lemma members_dumps level rest d :
  Forall (fun kv => reads_back (snd kv)) d ->
  forall k x fuel,
    reads_back x ->
    fold_right (fun kv n => S (size (snd kv) + n)) 0 ((k, x) :: d) <= fuel ->
    Json.members fuel
      (Json.encode_basestring k ++ lit ": " ++ dumps_at (S level) x
       ++ items_text level false d
       ++ Json.newline_indent level ++ 125%N :: rest)
    = Some ((k, x) :: d, rest).
Proof.
  induction 1 as [|[k' y] d Hy Hd IH]; intros k x fuel Hx F.
  - simpl in F. destruct fuel as [|fuel]; [lia|].
    unfold Json.encode_basestring. cbn [app]. rewrite <- ?app_assoc.
    cbn [Json.members app N.eqb Pos.eqb negb].
    rewrite scanstring_escape.
    change (lit ": ") with [58%N; 32%N].
    cbn [app Json.skip_ws Json.is_ws N.eqb Pos.eqb orb negb].
    rewrite skip_ws_dumps.
    rewrite (Hx (S level) _ fuel); [| simpl; auto | lia].
    cbn [items_text app]. rewrite skip_ws_newline_indent. reflexivity.
  - cbn [fold_right snd] in F. destruct fuel as [|fuel]; [lia|].
    unfold Json.encode_basestring at 1. cbn [app]. rewrite <- ?app_assoc.
    cbn [Json.members app N.eqb Pos.eqb negb].
    rewrite scanstring_escape.
    change (lit ": ") with [58%N; 32%N].
    cbn [app Json.skip_ws Json.is_ws N.eqb Pos.eqb orb negb].
    rewrite skip_ws_dumps.
    rewrite (Hx (S level) _ fuel);
      [| apply items_text_delimited | lia].
    cbn [items_text]. rewrite <- !app_assoc.
    cbn [app Json.skip_ws Json.is_ws N.eqb Pos.eqb orb].
    rewrite skip_ws_newline_indent.
    assert (W : forall t, Json.skip_ws (Json.encode_basestring k' ++ t)
                          = Json.encode_basestring k' ++ t)
      by reflexivity.
    rewrite W, (IH k' y fuel Hy); [reflexivity|].
    cbn [fold_right snd]. lia.
Qed.

Lemma keys_unique_NoDup ks : keys_unique ks = true <-> NoDup ks.
Proof.
  induction ks as [|k ks IH]; simpl.
  - split; [constructor | reflexivity].
  - rewrite andb_true_iff, negb_true_iff, IH. split.
    + intros [H1 H2]. constructor; [|assumption].
      intros Hin. unfold Student.str_in in H1.
      assert (existsb (str_eqb k) ks = true); [|congruence].
      apply existsb_exists. exists k. split; [assumption|].
      apply str_eqb_refl.
    + intros H. inversion H as [|? ? Hn ND]; subst. split; [|assumption].
      destruct (Student.str_in k ks) eqn:E; [|reflexivity].
      unfold Student.str_in in E. apply existsb_exists in E.
      destruct E as (k' & Hin & E). apply str_eqb_spec in E. subst.
      contradiction.
Qed.

Lemma reads_back_dict d :
  NoDup (dict_keys d) ->
  Forall (fun kv => reads_back (snd kv)) d -> reads_back (VDict d).
Proof.
  intros ND H level rest fuel D F.
  destruct fuel as [|fuel]; [simpl in F; lia|].
  destruct H as [|[k x] d Hx Hd]; [reflexivity|].
  rewrite dumps_at_dict. cbn [items_text].
  change (lit "{") with [123%N]. change (lit "}") with [125%N].
  rewrite <- !app_assoc. cbn [app Json.scan_once N.eqb Pos.eqb].
  rewrite skip_ws_newline_indent.
  pose proof (@members_dumps level rest d Hd k x fuel Hx) as G.
  unfold Json.encode_basestring in *.
  cbn [app Json.skip_ws Json.is_ws N.eqb Pos.eqb orb] in *.
  match goal with
  | |- match ?e with _ => _ end = _ =>
      assert (R : e = Some ((k, x) :: d, rest))
        by (apply G; simpl in F; cbn [fold_right snd]; lia);
      rewrite R
  end.
  rewrite (@dict_of_pairs_NoDup _ _ ND). reflexivity.
Qed.

(** What the encoder writes, the decoder reads back. *)
Lemma well_formed_reads_back v : well_formed v = true -> reads_back v.
Proof.
  induction v as [| b | z | s | l IH | d IH] using value_ind; intros W.
  - intros level rest [|fuel] D F; [simpl in F; lia | reflexivity].
  - intros level rest [|fuel] D F; [simpl in F; lia|].
    destruct b; reflexivity.
  - apply reads_back_int.
  - apply reads_back_str.
  - apply reads_back_list. simpl in W. rewrite forallb_forall in W.
    rewrite Forall_forall in *. auto.
  - simpl in W. apply andb_true_iff in W. destruct W as [W1 W2].
    apply reads_back_dict; [apply keys_unique_NoDup; exact W1|].
    rewrite forallb_forall in W2. rewrite Forall_forall in *. auto.
Qed.

Lemma size_le_length v level : size v <= length (dumps_at level v).
Proof.
  revert level.
  induction v as [| b | z | s | l IH | d IH] using value_ind; intros level.
  - simpl. lia.
  - destruct b; simpl; lia.
  - destruct (int_repr_head z) as (c & cs & E & _).
    rewrite (scalar_dumps level (VInt z) eq_refl), E. simpl. lia.
  - rewrite (scalar_dumps level (VStr s) eq_refl). simpl. lia.
  - destruct l as [|x l]; [simpl; lia|].
    rewrite dumps_at_list, !length_app.
    assert (G : forall buf l,
               Forall (fun v => forall level, size v <= length (dumps_at level v)) l ->
               buf <> [] ->
               fold_right (fun x n => S (size x + n)) 0 l
               <= length (elems_text level buf l)).
    { clear. intros buf l H; revert buf.
      induction H as [|x l Hx Hl IHl]; intros buf Hb; simpl; [lia|].
      rewrite !length_app.
      specialize (IHl (44%N :: Json.newline_indent (S level))).
      specialize (Hx (S level)).
      destruct buf; [congruence|]. simpl length.
      assert (44%N :: Json.newline_indent (S level) <> []) as N0
        by discriminate.
      specialize (IHl N0). clear Hb N0 Hl. lia. }
    assert (N0 : 91%N :: Json.newline_indent (S level) <> [])
      by discriminate.
    specialize (G _ (x :: l) IH N0). clear N0 IH.
    change (size (VList (x :: l)))
      with (S (fold_right (fun x n => S (size x + n)) 0 (x :: l))).
    change (length (lit "]")) with 1. lia.
  - destruct d as [|[k x] d]; [simpl; lia|].
    rewrite dumps_at_dict, !length_app.
    assert (G : forall first d,
               Forall (fun kv => forall level,
                         size (snd kv) <= length (dumps_at level (snd kv))) d ->
               fold_right (fun kv n => S (size (snd kv) + n)) 0 d
               <= length (items_text level first d)).
    { clear. intros first d H; revert first.
      induction H as [|[k x] d Hx Hd IHd]; intros first; simpl; [lia|].
      rewrite !length_app.
      specialize (IHd false). specialize (Hx (S level)). simpl in *.
      clear Hd. rewrite !length_app. cbn [length].
      rewrite !length_app. lia. }
    specialize (G true ((k, x) :: d) IH). clear IH.
    change (size (VDict ((k, x) :: d)))
      with (S (fold_right (fun kv n => S (size (snd kv) + n)) 0
                          ((k, x) :: d))).
    change (length (lit "{")) with 1. lia.
Qed.

(** [json.loads(json.dumps(v, ensure_ascii=False, indent=4))] is [v]. *)
Lemma loads_dumps v : well_formed v = true -> Json.loads (Json.dumps v) = Ret v.
Proof.
  intros W. unfold Json.loads, Json.dumps.
  change (concat (Json.iterencode 0 v)) with (dumps_at 0 v).
  pose proof (skip_ws_dumps 0 v []) as S0. rewrite app_nil_r in S0.
  rewrite S0.
  pose proof (@well_formed_reads_back v W 0 [] (S (length (dumps_at 0 v))))
    as R.
  rewrite app_nil_r in R. rewrite R; [reflexivity | exact I |].
  pose proof (size_le_length v 0). lia.
Qed.

(* ================================================================== *)
(** * The decoder returns well-formed values; the encoder writes
      encodable text *)
(* ================================================================== *)

Lemma forallb_dict_set (P : value -> bool) k v (d : dict value) :
  P v = true ->
  forallb (fun kv => P (snd kv)) d = true ->
  forallb (fun kv => P (snd kv)) (dict_set k v d) = true.
Proof.
  intros Hv. induction d as [|[k' v'] d IH]; simpl.
  - rewrite Hv; reflexivity.
  - rewrite andb_true_iff. intros [H1 H2].
    destruct (str_eqb k k'); simpl; rewrite ?Hv, ?H1, ?H2, ?IH; auto.
Qed.

Lemma forallb_dict_update (P : value -> bool) (d o : dict value) :
  forallb (fun kv => P (snd kv)) d = true ->
  forallb (fun kv => P (snd kv)) o = true ->
  forallb (fun kv => P (snd kv)) (dict_update d o) = true.
Proof.
  revert d; induction o as [|[k v] o IH]; simpl; intros d Hd Ho;
    [assumption|].
  apply andb_true_iff in Ho. destruct Ho as [Hv Ho].
  apply IH; [apply forallb_dict_set|]; assumption.
Qed.

Lemma well_formed_dict d :
  NoDup (dict_keys d) ->
  forallb (fun kv => well_formed (snd kv)) d = true ->
  well_formed (VDict d) = true.
Proof.
  intros ND H. simpl. rewrite H, andb_true_r.
  apply keys_unique_NoDup; exact ND.
Qed.

Lemma well_formed_dict_inv d :
  well_formed (VDict d) = true ->
  NoDup (dict_keys d) /\
  forallb (fun kv => well_formed (snd kv)) d = true.
Proof.
  simpl. rewrite andb_true_iff, keys_unique_NoDup. tauto.
Qed.

Lemma well_formed_update d o :
  well_formed (VDict d) = true -> well_formed (VDict o) = true ->
  well_formed (VDict (dict_update d o)) = true.
Proof.
  intros Hd Ho.
  apply well_formed_dict_inv in Hd, Ho.
  destruct Hd as [N1 F1], Ho as [N2 F2].
  apply well_formed_dict;
    [apply dict_update_NoDup | apply forallb_dict_update]; assumption.
Qed.

Lemma scan_well_formed fuel :
  (forall s v r, Json.scan_once fuel s = Some (v, r) ->
                 well_formed v = true) /\
  (forall s ps r, Json.members fuel s = Some (ps, r) ->
                  forallb (fun kv => well_formed (snd kv)) ps = true) /\
  (forall s l r, Json.elements fuel s = Some (l, r) ->
                 forallb well_formed l = true).
Proof.
  induction fuel as [|fuel (IH1 & IH2 & IH3)];
    [repeat split; intros; discriminate|].
  repeat split.
  - intros s v r. cbn [Json.scan_once].
    destruct s as [|c s]; [discriminate|].
    destruct (N.eqb c 34).
    { destruct (Json.scanstring s) as [[str r']|]; [|discriminate].
      intros H; injection H as <- _; reflexivity. }
    destruct (N.eqb c 123).
    { destruct (Json.skip_ws s) as [|c1 r1]; [discriminate|].
      destruct (N.eqb c1 125).
      - intros H; injection H as <- _; reflexivity.
      - destruct (Json.members fuel (c1 :: r1)) as [[ps r']|] eqn:E;
          [|discriminate].
        intros H; injection H as <- _.
        apply well_formed_dict.
        + apply dict_update_NoDup. constructor.
        + apply forallb_dict_update; [reflexivity|].
          eapply IH2; exact E. }
    destruct (N.eqb c 91).
    { destruct (Json.skip_ws s) as [|c1 r1]; [discriminate|].
      destruct (N.eqb c1 93).
      - intros H; injection H as <- _; reflexivity.
      - destruct (Json.elements fuel (c1 :: r1)) as [[l r']|] eqn:E;
          [|discriminate].
        intros H; injection H as <- _. simpl. eapply IH3; exact E. }
    destruct (Json.starts_with (lit "null") (c :: s)).
    { intros H; injection H as <- _; reflexivity. }
    destruct (Json.starts_with (lit "true") (c :: s)).
    { intros H; injection H as <- _; reflexivity. }
    destruct (Json.starts_with (lit "false") (c :: s)).
    { intros H; injection H as <- _; reflexivity. }
    destruct (Json.match_number (c :: s)) as [[z r']|]; [|discriminate].
    intros H; injection H as <- _; reflexivity.
  - intros s ps r. cbn [Json.members].
    destruct s as [|q s]; [discriminate|].
    destruct (negb (N.eqb q 34)); [discriminate|].
    destruct (Json.scanstring s) as [[key r1]|]; [|discriminate].
    destruct (Json.skip_ws r1) as [|colon r2]; [discriminate|].
    destruct (negb (N.eqb colon 58)); [discriminate|].
    destruct (Json.scan_once fuel (Json.skip_ws r2)) as [[v r3]|] eqn:E;
      [|discriminate].
    apply IH1 in E.
    destruct (Json.skip_ws r3) as [|c r4]; [discriminate|].
    destruct (N.eqb c 125).
    { intros H; injection H as <- _. simpl. rewrite E; reflexivity. }
    destruct (N.eqb c 44); [|discriminate].
    destruct (Json.members fuel (Json.skip_ws r4)) as [[ps' r5]|] eqn:E';
      [|discriminate].
    intros H; injection H as <- _. simpl. rewrite E. simpl.
    eapply IH2; exact E'.
  - intros s l r. cbn [Json.elements].
    destruct (Json.scan_once fuel s) as [[v r1]|] eqn:E; [|discriminate].
    apply IH1 in E.
    destruct (Json.skip_ws r1) as [|c r2]; [discriminate|].
    destruct (N.eqb c 93).
    { intros H; injection H as <- _. simpl. rewrite E; reflexivity. }
    destruct (N.eqb c 44); [|discriminate].
    destruct (Json.elements fuel (Json.skip_ws r2)) as [[l' r3]|] eqn:E';
      [|discriminate].
    intros H; injection H as <- _. simpl. rewrite E. simpl.
    eapply IH3; exact E'.
Qed.

(** What [json.loads] returns has no dict with a repeated key. *)
Lemma loads_well_formed t v : Json.loads t = Ret v -> well_formed v = true.
Proof.
  unfold Json.loads.
  destruct (Json.scan_once (S (length t)) (Json.skip_ws t))
    as [[v' r]|] eqn:E; [|discriminate].
  destruct (Json.skip_ws r); [|discriminate].
  intros H; injection H as <-.
  eapply (proj1 (scan_well_formed _)); exact E.
Qed.

Lemma encodable_str_app a b :
  encodable_str (a ++ b) = encodable_str a && encodable_str b.
Proof. apply forallb_app. Qed.

Lemma encodable_newline_indent level :
  encodable_str (Json.newline_indent level) = true.
Proof.
  unfold Json.newline_indent.
  generalize (4 * level). intros n.
  change (encodable_str (10%N :: repeat 32%N n))
    with (encodable_str (repeat 32%N n)).
  induction n as [|n IH]; [reflexivity | exact IH].
Qed.

Lemma encodable_separator level :
  encodable_str (44%N :: Json.newline_indent level) = true.
Proof. apply (encodable_newline_indent level). Qed.

Lemma encodable_uint_chars u : encodable_str (Json.uint_chars u) = true.
Proof. induction u; simpl; auto. Qed.

Lemma encodable_int_repr z : encodable_str (Json.int_repr z) = true.
Proof.
  unfold Json.int_repr. destruct (z <? 0)%Z; simpl;
    apply encodable_uint_chars.
Qed.

Lemma encodable_escape_char c :
  encodable_char c = true -> encodable_str (Json.escape_char c) = true.
Proof.
  intros H. unfold Json.escape_char.
  repeat match goal with
         | |- context [if N.eqb c ?n then _ else _] =>
             destruct (N.eqb c n); [reflexivity|]
         end.
  destruct (N.ltb_spec c 32) as [L|L].
  - destruct c as [|p]; [reflexivity|].
    do 5 (try destruct p as [p|p|]); try reflexivity; exfalso; lia.
  - simpl. rewrite H. reflexivity.
Qed.

Lemma encodable_escape s :
  encodable_str s = true -> encodable_str (Json.escape s) = true.
Proof.
  induction s as [|c s IH]; simpl; [reflexivity|].
  rewrite andb_true_iff. intros [H1 H2].
  rewrite encodable_str_app, encodable_escape_char, IH by assumption.
  reflexivity.
Qed.

Lemma encodable_basestring s :
  encodable_str s = true ->
  encodable_str (Json.encode_basestring s) = true.
Proof.
  intros H. unfold Json.encode_basestring. simpl.
  rewrite encodable_str_app, encodable_escape by assumption. reflexivity.
Qed.

(** The text of an encodable value is encodable. *)
Lemma encodable_dumps_at v :
  encodable v = true -> forall level, encodable_str (dumps_at level v) = true.
Proof.
  induction v as [| b | z | s | l IH | d IH] using value_ind;
    intros E level.
  - reflexivity.
  - destruct b; reflexivity.
  - rewrite (scalar_dumps level (VInt z) eq_refl). apply encodable_int_repr.
  - rewrite (scalar_dumps level (VStr s) eq_refl).
    apply encodable_basestring. exact E.
  - destruct l as [|x l]; [reflexivity|].
    rewrite dumps_at_list, !encodable_str_app, encodable_newline_indent.
    simpl encodable in E.
    assert (G : forall buf l,
               Forall (fun v => encodable v = true ->
                                forall level,
                                  encodable_str (dumps_at level v) = true) l ->
               forallb encodable l = true ->
               encodable_str buf = true ->
               encodable_str (elems_text level buf l) = true).
    { clear. intros buf l H; revert buf.
      induction H as [|x l Hx Hl IHl]; intros buf El Eb; [reflexivity|].
      simpl in El. apply andb_true_iff in El. destruct El as [Ex El].
      cbn [elems_text]. rewrite !encodable_str_app, Eb, (Hx Ex), IHl; auto.
      apply encodable_separator. }
    rewrite G; auto. apply (encodable_newline_indent (S level)).
  - destruct d as [|[k x] d]; [reflexivity|].
    rewrite dumps_at_dict, !encodable_str_app, !encodable_newline_indent.
    simpl encodable in E.
    assert (G : forall first d,
               Forall (fun kv => encodable (snd kv) = true ->
                                 forall level,
                                   encodable_str (dumps_at level (snd kv))
                                   = true) d ->
               forallb (fun kv => encodable_str (fst kv)
                                  && encodable (snd kv)) d = true ->
               encodable_str (items_text level first d) = true).
    { clear. intros first d H; revert first.
      induction H as [|[k x] d Hx Hd IHd]; intros first Ed; [reflexivity|].
      simpl in Ed. apply andb_true_iff in Ed. destruct Ed as [Ex Ed].
      apply andb_true_iff in Ex. destruct Ex as [Ek Ex].
      cbn [items_text].
      rewrite !encodable_str_app, encodable_basestring, (Hx Ex), IHd; auto.
      destruct first; [reflexivity|].
      rewrite encodable_separator. reflexivity. }
    rewrite G; auto.
Qed.

Lemma written_encodable chunks :
  encodable_str (concat chunks) = true ->
  Os.written chunks = (concat chunks, true).
Proof.
  induction chunks as [|c chunks IH]; simpl; [reflexivity|].
  rewrite encodable_str_app, andb_true_iff. intros [H1 H2].
  rewrite IH by assumption.
  assert (existsb is_surrogate c = false) as ->; [|reflexivity].
  destruct (existsb is_surrogate c) eqn:E; [|reflexivity].
  apply existsb_exists in E. destruct E as (x & Hin & Hx).
  unfold encodable_str in H1. rewrite forallb_forall in H1.
  specialize (H1 x Hin). unfold encodable_char in H1.
  rewrite Hx in H1. discriminate.
Qed.

(* ------------------------------------------------------------------ *)
(** ** The decoder never lacks fuel *)

Lemma skip_ws_length s : length (Json.skip_ws s) <= length s.
Proof.
  induction s as [|c s IH]; simpl; [lia|].
  destruct (Json.is_ws c); simpl; lia.
Qed.

Lemma cons_str_length c o x r (n : nat) :
  Json.cons_str c o = Some (x, r) ->
  (forall y, o = Some (y, r) -> length r < n) -> length r < n.
Proof.
  destruct o as [[y r']|]; simpl; [|discriminate].
  intros H; injection H as _ <-. intros K; exact (K y eq_refl).
Qed.

Lemma scanstring_length n :
  forall s x r, length s <= n ->
                Json.scanstring s = Some (x, r) -> length r < length s.
Proof.
  induction n as [|n IH]; intros s x r Hn.
  { destruct s; [discriminate|simpl in Hn; lia]. }
  destruct s as [|c s]; [discriminate|].
  cbn [Json.scanstring].
  assert (Tail : forall t ch, length t <= length s ->
            Json.cons_str ch (Json.scanstring t) = Some (x, r) ->
            length r < length (c :: s)).
  { intros t ch Ht H. eapply cons_str_length; [exact H|].
    intros y Hy. apply IH in Hy; simpl in *; lia. }
  destruct (N.eqb c 34).
  { intros H; injection H as _ <-. simpl; lia. }
  destruct (N.eqb c 92).
  { destruct s as [|e r1]; [discriminate|].
    destruct (N.eqb e 117).
    - destruct r1 as [|h1 [|h2 [|h3 [|h4 r2]]]]; try discriminate.
      destruct (Json.hex4 h1 h2 h3 h4) as [uni|]; [|discriminate].
      destruct (in_range 55296 56319 uni).
      + destruct r2 as [|b [|u [|g1 [|g2 [|g3 [|g4 r3]]]]]];
          try (apply Tail; simpl; lia).
        destruct (N.eqb b 92 && N.eqb u 117);
          [|apply Tail; simpl; lia].
        destruct (Json.hex4 g1 g2 g3 g4) as [uni2|]; [|discriminate].
        destruct (in_range 56320 57343 uni2); apply Tail; simpl; lia.
      + apply Tail; simpl; lia.
    - destruct (Json.unescape e) as [ch|]; [|discriminate].
      apply Tail; simpl; lia. }
  destruct (c <? 32)%N; [discriminate|].
  apply Tail; lia.
Qed.

Lemma starts_with_length p :
  forall s r, Json.starts_with p s = Some r -> length s = length p + length r.
Proof.
  induction p as [|a p IH]; intros s r; simpl.
  - intros H; injection H as <-; reflexivity.
  - destruct s as [|b s]; [discriminate|].
    destruct (N.eqb a b); [|discriminate].
    intros H; apply IH in H; simpl; lia.
Qed.

Lemma read_digits_length s :
  forall u r, Json.read_digits s = (u, r) -> length r <= length s.
Proof.
  induction s as [|c s IH]; intros u r; simpl.
  - intros H; injection H as _ <-; simpl; lia.
  - destruct (Json.digit_of_char c).
    + destruct (Json.read_digits s) as [u' r'] eqn:E.
      intros H; injection H as _ <-.
      specialize (IH _ _ eq_refl); lia.
    + intros H; injection H as _ <-; simpl; lia.
Qed.

Lemma match_number_length s z r :
  Json.match_number s = Some (z, r) -> length r < length s.
Proof.
  unfold Json.match_number.
  set (p := match s with
            | [] => (false, s)
            | c :: r0 => if N.eqb c 45 then (true, r0) else (false, s)
            end).
  assert (Hp : length (snd p) <= length s).
  { subst p. destruct s as [|c s]; [simpl; lia|].
    destruct (N.eqb c 45); simpl; lia. }
  destruct p as [neg s1]. simpl in Hp.
  destruct s1 as [|c r1]; [discriminate|].
  destruct (N.eqb c 48).
  { destruct (Json.float_tail r1); [discriminate|].
    intros H; injection H as _ <-. simpl in Hp; lia. }
  destruct (in_range 49 57 c) eqn:R; [|discriminate].
  destruct (Json.read_digits (c :: r1)) as [u r'] eqn:E.
  destruct (Json.float_tail r'); [discriminate|].
  intros H; injection H as _ <-.
  revert E. simpl. destruct (Json.digit_of_char c) eqn:D.
  - destruct (Json.read_digits r1) as [u1 r1'] eqn:E1.
    intros H; injection H as _ <-.
    pose proof (read_digits_length _ E1). simpl in Hp; lia.
  - exfalso. revert D. unfold Json.digit_of_char.
    unfold in_range in R. apply andb_prop in R. destruct R as [R1 R2].
    apply N.leb_le in R1, R2.
    repeat match goal with
           | |- context [N.eqb c ?k] =>
               destruct (N.eqb_spec c k); [discriminate|]
           end.
    lia.
Qed.

Lemma scan_fuel fuel :
  (forall s v r, Json.scan_once fuel s = Some (v, r) ->
     length r < length s /\
     forall m, length s - length r <= m -> Json.scan_once m s = Some (v, r)) /\
  (forall s ps r, Json.members fuel s = Some (ps, r) ->
     length r < length s /\
     forall m, length s - length r <= m -> Json.members m s = Some (ps, r)) /\
  (forall s l r, Json.elements fuel s = Some (l, r) ->
     length r < length s /\
     forall m, length s - length r <= m -> Json.elements m s = Some (l, r)).
Proof.
  induction fuel as [|fuel (IH1 & IH2 & IH3)];
    [split; [|split]; intros; discriminate|].
  split; [|split].
  - intros s v r. cbn [Json.scan_once].
    destruct s as [|c s]; [discriminate|].
    destruct (N.eqb c 34) eqn:C1.
    { destruct (Json.scanstring s) as [[str r']|] eqn:E; [|discriminate].
      intros H; injection H as <- <-.
      pose proof (@scanstring_length _ _ _ _ (le_n _) E) as L.
      split; [cbn [length]; lia|].
      intros [|m] Hm; [cbn [length] in *; lia|].
      cbn [Json.scan_once]. rewrite C1, E. reflexivity. }
    destruct (N.eqb c 123) eqn:C2.
    { pose proof (skip_ws_length s) as W.
      destruct (Json.skip_ws s) as [|c1 r1] eqn:E0; [discriminate|].
      destruct (N.eqb c1 125) eqn:C3.
      - intros H; injection H as <- <-.
        split; [cbn [length] in *; lia|].
        intros [|m] Hm; [cbn [length] in *; lia|].
        cbn [Json.scan_once]. rewrite C1, C2, E0, C3. reflexivity.
      - destruct (Json.members fuel (c1 :: r1)) as [[ps r']|] eqn:E;
          [|discriminate].
        intros H; injection H as <- <-.
        apply IH2 in E. destruct E as [L K].
        split; [cbn [length] in *; lia|].
        intros [|m] Hm; [cbn [length] in *; lia|].
        cbn [Json.scan_once]. rewrite C1, C2, E0, C3.
        rewrite K; [reflexivity|cbn [length] in *; lia]. }
    destruct (N.eqb c 91) eqn:C3.
    { pose proof (skip_ws_length s) as W.
      destruct (Json.skip_ws s) as [|c1 r1] eqn:E0; [discriminate|].
      destruct (N.eqb c1 93) eqn:C4.
      - intros H; injection H as <- <-.
        split; [cbn [length] in *; lia|].
        intros [|m] Hm; [cbn [length] in *; lia|].
        cbn [Json.scan_once]. rewrite C1, C2, C3, E0, C4. reflexivity.
      - destruct (Json.elements fuel (c1 :: r1)) as [[l r']|] eqn:E;
          [|discriminate].
        intros H; injection H as <- <-.
        apply IH3 in E. destruct E as [L K].
        split; [cbn [length] in *; lia|].
        intros [|m] Hm; [cbn [length] in *; lia|].
        cbn [Json.scan_once]. rewrite C1, C2, C3, E0, C4.
        rewrite K; [reflexivity|cbn [length] in *; lia]. }
    intros H.
    assert (L : length r < length (c :: s)).
    { revert H.
      destruct (Json.starts_with (lit "null") (c :: s)) eqn:E1.
      { intros H; injection H as _ <-.
        apply starts_with_length in E1. rewrite E1. simpl; lia. }
      destruct (Json.starts_with (lit "true") (c :: s)) eqn:E2.
      { intros H; injection H as _ <-.
        apply starts_with_length in E2. rewrite E2. simpl; lia. }
      destruct (Json.starts_with (lit "false") (c :: s)) eqn:E3.
      { intros H; injection H as _ <-.
        apply starts_with_length in E3. rewrite E3. simpl; lia. }
      destruct (Json.match_number (c :: s)) as [[z r']|] eqn:E4;
        [|discriminate].
      intros H; injection H as _ <-.
      apply match_number_length in E4. exact E4. }
    split; [exact L|].
    intros [|m] Hm; [lia|].
    cbn [Json.scan_once]. rewrite C1, C2, C3. exact H.
  - intros s ps r. cbn [Json.members].
    destruct s as [|q s]; [discriminate|].
    destruct (negb (N.eqb q 34)) eqn:C1; [discriminate|].
    destruct (Json.scanstring s) as [[key r1]|] eqn:E1; [|discriminate].
    pose proof (@scanstring_length _ _ _ _ (le_n _) E1) as L1.
    pose proof (skip_ws_length r1) as W1.
    destruct (Json.skip_ws r1) as [|colon r2] eqn:E2; [discriminate|].
    destruct (negb (N.eqb colon 58)) eqn:C2; [discriminate|].
    pose proof (skip_ws_length r2) as W2.
    destruct (Json.scan_once fuel (Json.skip_ws r2)) as [[v r3]|] eqn:E3;
      [|discriminate].
    apply IH1 in E3. destruct E3 as [L3 K3].
    pose proof (skip_ws_length r3) as W3.
    destruct (Json.skip_ws r3) as [|c r4] eqn:E4; [discriminate|].
    destruct (N.eqb c 125) eqn:C3.
    { intros H; injection H as <- <-.
      split; [cbn [length] in *; lia|].
      intros [|m] Hm; [cbn [length] in *; lia|].
      cbn [Json.members]. rewrite C1, E1, E2, C2.
      rewrite K3; [|cbn [length] in *; lia].
      rewrite E4, C3. reflexivity. }
    destruct (N.eqb c 44) eqn:C4; [|discriminate].
    pose proof (skip_ws_length r4) as W4.
    destruct (Json.members fuel (Json.skip_ws r4)) as [[ps' r5]|] eqn:E5;
      [|discriminate].
    apply IH2 in E5. destruct E5 as [L5 K5].
    intros H; injection H as <- <-.
    split; [cbn [length] in *; lia|].
    intros [|m] Hm; [cbn [length] in *; lia|].
    cbn [Json.members]. rewrite C1, E1, E2, C2.
    rewrite K3; [|cbn [length] in *; lia].
    rewrite E4, C3, C4.
    rewrite K5; [reflexivity|cbn [length] in *; lia].
  - intros s l r. cbn [Json.elements].
    destruct (Json.scan_once fuel s) as [[v r1]|] eqn:E1; [|discriminate].
    apply IH1 in E1. destruct E1 as [L1 K1].
    pose proof (skip_ws_length r1) as W1.
    destruct (Json.skip_ws r1) as [|c r2] eqn:E2; [discriminate|].
    destruct (N.eqb c 93) eqn:C1.
    { intros H; injection H as <- <-.
      split; [cbn [length] in *; lia|].
      intros [|m] Hm; [cbn [length] in *; lia|].
      cbn [Json.elements].
      rewrite K1; [|cbn [length] in *; lia].
      rewrite E2, C1. reflexivity. }
    destruct (N.eqb c 44) eqn:C2; [|discriminate].
    pose proof (skip_ws_length r2) as W2.
    destruct (Json.elements fuel (Json.skip_ws r2)) as [[l' r3]|] eqn:E3;
      [|discriminate].
    apply IH3 in E3. destruct E3 as [L3 K3].
    intros H; injection H as <- <-.
    split; [cbn [length] in *; lia|].
    intros [|m] Hm; [cbn [length] in *; lia|].
    cbn [Json.elements].
    rewrite K1; [|cbn [length] in *; lia].
    rewrite E2, C1, C2.
    rewrite K3; [reflexivity|cbn [length] in *; lia].
Qed.

(** Fuel never decides what [json.loads] returns: a text that reads as
    [v] with some amount of fuel is what [loads] decodes to [v]. *)
Lemma loads_any_fuel fuel t v r :
  Json.scan_once fuel (Json.skip_ws t) = Some (v, r) ->
  Json.skip_ws r = [] ->
  Json.loads t = Ret v.
Proof.
  intros E R. unfold Json.loads.
  destruct (proj1 (scan_fuel fuel) _ _ _ E) as [L K].
  pose proof (skip_ws_length t) as W.
  rewrite K; [rewrite R; reflexivity|lia].
Qed.

(** And a text that [loads] rejects is rejected with any amount of
    fuel. *)
Lemma loads_rejects_any_fuel fuel t :
  Json.loads t = Raise JSONDecodeError ->
  match Json.scan_once fuel (Json.skip_ws t) with
  | Some (_, r) => Json.skip_ws r <> []
  | None => True
  end.
Proof.
  intros H.
  destruct (Json.scan_once fuel (Json.skip_ws t)) as [[v r]|] eqn:E;
    [|exact I].
  intros R. rewrite (loads_any_fuel _ _ E R) in H. discriminate.
Qed.

(* ================================================================== *)
(** * Validated strings are encodable *)
(* ================================================================== *)

Ltac split_range_hyps :=
  repeat match goal with
         | H : _ || _ = true |- _ =>
             apply orb_true_iff in H; destruct H as [H|H]
         | H : _ && _ = true |- _ =>
             apply andb_true_iff in H; destruct H as [? ?]
         | H : N.leb _ _ = true |- _ => apply N.leb_le in H
         | H : N.eqb _ _ = true |- _ => apply N.eqb_eq in H
         end.

(** A character of one of the listed classes is not a surrogate. *)
Ltac range_solve :=
  let c := fresh "c" in
  let H := fresh "H" in
  intros c H;
  unfold encodable_char, is_surrogate, is_han, is_ascii_letter,
    is_ascii_digit, py_isspace, in_range in *;
  split_range_hyps;
  apply negb_true_iff, andb_false_iff;
  solve [left; apply N.leb_gt; lia | right; apply N.leb_gt; lia].

Ltac unfold_classes :=
  cbn [classes_within Re.Plus Re.Chr Re.rep Re.upto Re.Opt Re.rep_range
       Re.at_least Validator.student_id_pattern Validator.chinese_pattern
       Validator.english_pattern Validator.class_name_pattern
       Validator.phone_pattern Validator.email_pattern].

Lemma isspace_encodable : forall c, py_isspace c = true -> encodable_char c = true.
Proof. range_solve. Qed.

Lemma decimal_encodable c : py_isdecimal c = true -> encodable_char c = true.
Proof.
  unfold py_isdecimal, py_decimal_value.
  destruct (find (fun z => in_range z (z + 9) c) decimal_zeros) as [z|] eqn:F;
    [|discriminate].
  intros _. apply find_some in F. destruct F as [Hin R].
  assert (B : forallb (fun z => N.ltb (z + 9) 0xd800 || N.ltb 0xdfff z)
                      decimal_zeros = true) by (vm_compute; reflexivity).
  rewrite forallb_forall in B. specialize (B z Hin).
  unfold encodable_char, is_surrogate, in_range in *.
  apply andb_true_iff in R. destruct R as [R1 R2].
  apply N.leb_le in R1, R2.
  apply negb_true_iff, andb_false_iff.
  apply orb_true_iff in B. destruct B as [B|B]; apply N.ltb_lt in B.
  - left. apply N.leb_gt. lia.
  - right. apply N.leb_gt. lia.
Qed.

Lemma student_id_encodable s :
  Validator.validate_student_id (VStr s) = true -> encodable_str s = true.
Proof.
  unfold Validator.validate_student_id.
  destruct (Validator.is_empty (strip s)); [discriminate|].
  destruct ((length s <? 6) || (20 <? length s)); [discriminate|].
  destruct (Re.match_anchored Validator.student_id_pattern s) eqn:M;
    [|discriminate].
  intros _. revert M. apply match_anchored_within'; [|reflexivity].
  unfold_classes. split; range_solve.
Qed.

Lemma name_encodable s :
  Validator.validate_name (VStr s) = true -> encodable_str s = true.
Proof.
  unfold Validator.validate_name.
  destruct (Validator.is_empty (strip s)); [discriminate|].
  destruct ((length (strip s) <? 2) || (10 <? length (strip s)));
    [discriminate|].
  intros M. apply forallb_strip; [apply isspace_encodable|].
  apply orb_true_iff in M. destruct M as [M|M]; revert M;
    apply match_anchored_within'; try reflexivity.
  - apply classes_within_rep_range. range_solve.
  - unfold_classes. repeat split; range_solve.
Qed.

Lemma gender_encodable s :
  Validator.validate_gender (VStr s) = true -> encodable_str s = true.
Proof.
  unfold Validator.validate_gender. intros M.
  apply orb_true_iff in M.
  destruct M as [M|M]; apply str_eqb_spec in M; subst; reflexivity.
Qed.

Lemma class_name_encodable s :
  Validator.validate_class_name (VStr s) = true -> encodable_str s = true.
Proof.
  unfold Validator.validate_class_name.
  destruct (Validator.is_empty (strip s)); [discriminate|].
  destruct (20 <? length (strip s)); [discriminate|].
  destruct (Re.match_anchored Validator.class_name_pattern (strip s)) eqn:M;
    [|discriminate].
  intros _. apply forallb_strip; [apply isspace_encodable|].
  revert M. apply match_anchored_within'; [|reflexivity].
  unfold_classes. split; range_solve.
Qed.

Lemma contact_encodable s :
  Validator.validate_contact (VStr s) = true -> encodable_str s = true.
Proof.
  unfold Validator.validate_contact.
  destruct (Validator.is_empty (strip s)); [discriminate|].
  destruct (50 <? length (strip s)); [discriminate|].
  intros M. apply forallb_strip; [apply isspace_encodable|].
  apply orb_true_iff in M. destruct M as [M|M]; revert M;
    apply match_anchored_within'; try reflexivity.
  - unfold_classes. repeat split; try apply decimal_encodable; range_solve.
  - unfold_classes. repeat split; range_solve.
Qed.

(* ================================================================== *)
(** * The persistence store: what [save_data] writes, [load_data] reads *)
(* ================================================================== *)

Lemma files_set_file_same p t s : files (set_file p t s) p = t.
Proof. simpl. rewrite String.eqb_refl. reflexivity. Qed.

Lemma files_set_file_other p q t s :
  q <> p -> files (set_file p t s) q = files s q.
Proof.
  intros N. simpl. destruct (String.eqb_spec q p); [contradiction|].
  reflexivity.
Qed.

(** Reduce the monadic plumbing and rewrite with the equations at hand. *)
Ltac run :=
  repeat (progress (cbv beta iota delta [negb orb andb fst snd];
                    try match goal with
                        | H : ?x = _ |- context [?x] => rewrite H
                        end)).

Ltac unfold_monad :=
  unfold try_except, bind, lift_outcome, ret, raise, get_state, put_state,
    DataManager.as_DataIOError, Os.exists_, Os.read_text, Os.write_chunks,
    Os.getsize, Os.copy2, Os.makedirs, Os.now, Os.remove in *.

Lemma sized_len v :
  py_len v = if sized v then py_len v else Raise TypeError.
Proof. destruct v; reflexivity. Qed.

(** [load_data] as one case analysis on the data file. *)
Lemma load_data_eq self s :
  DataManager.load_data self s =
  (match files s (DataManager._data_file self) with
   | Some t =>
       match Json.loads t with
       | Ret v => if sized v then Ret v else Raise DataIOError
       | Raise _ => Raise DataIOError
       end
   | None =>
       if dirs s (DataManager._data_file self) then Raise DataIOError
       else Ret (VDict [])
   end, s).
Proof.
  unfold DataManager.load_data. unfold_monad.
  destruct (files s (DataManager._data_file self)) as [t|] eqn:F; run.
  - destruct (Json.loads t) as [v|e] eqn:L; run; [|reflexivity].
    destruct v; reflexivity.
  - destruct (dirs s (DataManager._data_file self)) eqn:D; run;
      reflexivity.
Qed.

(** [save_data] as one case analysis on the value and the data file. *)
Lemma save_data_eq self v s :
  DataManager.save_data self v s =
  if sized v && writable s (DataManager._data_file self) then
    (if snd (Os.written (Json.iterencode 0 v)) then Ret true
     else Raise DataIOError,
     set_file (DataManager._data_file self)
              (Some (fst (Os.written (Json.iterencode 0 v)))) s)
  else (Raise DataIOError, s).
Proof.
  unfold DataManager.save_data, writable. unfold_monad.
  rewrite sized_len.
  destruct (sized v) eqn:Sz; [|reflexivity].
  assert (exists n, py_len v = Ret n) as [n Hn]
    by (destruct v; try discriminate; simpl; eauto).
  run.
  destruct (denied s (DataManager._data_file self)) eqn:D1; run;
    [reflexivity|].
  destruct (dirs s (DataManager._data_file self)) eqn:D2; run;
    [reflexivity|].
  destruct (Os.written (Json.iterencode 0 v)) as [t [|]]; reflexivity.
Qed.

Lemma save_data_writes self v s :
  sized v = true -> encodable v = true ->
  writable s (DataManager._data_file self) = true ->
  DataManager.save_data self v s
  = (Ret true,
     set_file (DataManager._data_file self) (Some (Json.dumps v)) s).
Proof.
  intros Hs He Hw. rewrite save_data_eq, Hs, Hw.
  rewrite written_encodable by apply (encodable_dumps_at v He 0).
  reflexivity.
Qed.

Lemma load_data_reads self s t v :
  files s (DataManager._data_file self) = Some t ->
  Json.loads t = Ret v -> sized v = true ->
  DataManager.load_data self s = (Ret v, s).
Proof.
  intros Hf Hl Hs. rewrite load_data_eq, Hf, Hl, Hs. reflexivity.
Qed.

Lemma load_data_absent self s :
  files s (DataManager._data_file self) = None ->
  dirs s (DataManager._data_file self) = false ->
  DataManager.load_data self s = (Ret (VDict []), s).
Proof.
  intros Hf Hd. rewrite load_data_eq, Hf, Hd. reflexivity.
Qed.

(** [load_data] never changes the system. *)
Lemma load_data_state self s : snd (DataManager.load_data self s) = s.
Proof. rewrite load_data_eq. reflexivity. Qed.

(** What [load_data] returns is sized and well formed. *)
Lemma load_data_value self s v s' :
  DataManager.load_data self s = (Ret v, s') ->
  sized v = true /\ well_formed v = true /\ s' = s.
Proof.
  rewrite load_data_eq.
  destruct (files s (DataManager._data_file self)) as [t|].
  - destruct (Json.loads t) as [v'|e] eqn:L; [|discriminate].
    destruct (sized v') eqn:Sz; [|discriminate].
    intros H; injection H as <- <-. repeat split; [assumption|].
    eapply loads_well_formed; exact L.
  - destruct (dirs s (DataManager._data_file self)); [discriminate|].
    intros H; injection H as <- <-. repeat split.
Qed.

Lemma save_then_load self v s :
  sized v = true -> well_formed v = true -> encodable v = true ->
  writable s (DataManager._data_file self) = true ->
  let s' := set_file (DataManager._data_file self) (Some (Json.dumps v)) s in
  DataManager.save_data self v s = (Ret true, s') /\
  DataManager.load_data self s' = (Ret v, s').
Proof.
  intros Hs Hw He Hwr s'. split.
  - apply save_data_writes; assumption.
  - apply load_data_reads with (t := Json.dumps v);
      [apply files_set_file_same | apply loads_dumps; assumption
      | assumption].
Qed.

(** ** Valid datasets are well formed and encodable *)

Lemma record_fields_NoDup : NoDup record_fields.
Proof. apply keys_unique_NoDup. vm_compute. reflexivity. Qed.

Lemma str_field_inv fields key rule :
  str_field fields key rule = true ->
  exists s, dict_get (lit key) fields = Some (VStr s) /\
            rule (VStr s) = true.
Proof.
  unfold str_field.
  destruct (dict_get (lit key) fields) as [[]|]; try discriminate; eauto.
Qed.

Lemma int_field_inv fields key rule :
  int_field fields key rule = true ->
  exists z, dict_get (lit key) fields = Some (VInt z) /\
            rule (VInt z) = true.
Proof.
  unfold int_field.
  destruct (dict_get (lit key) fields) as [[]|]; try discriminate; eauto.
Qed.

Lemma valid_record_entries fields :
  valid_record (VDict fields) = true ->
  NoDup (dict_keys fields) /\
  forall k x, In (k, x) fields ->
              encodable_str k = true /\ encodable x = true
              /\ well_formed x = true.
Proof.
  unfold valid_record. rewrite !andb_true_iff.
  intros [[[[[[[U L] F1] F2] F3] F4] F5] F6].
  apply keys_unique_NoDup in U. apply Nat.eqb_eq in L.
  split; [exact U|].
  destruct (str_field_inv _ _ _ F1) as (s1 & G1 & R1).
  destruct (str_field_inv _ _ _ F2) as (s2 & G2 & R2).
  destruct (str_field_inv _ _ _ F3) as (s3 & G3 & R3).
  destruct (int_field_inv _ _ _ F4) as (z4 & G4 & R4).
  destruct (str_field_inv _ _ _ F5) as (s5 & G5 & R5).
  destruct (str_field_inv _ _ _ F6) as (s6 & G6 & R6).
  assert (I : incl (dict_keys fields) record_fields).
  { apply NoDup_length_incl.
    - exact record_fields_NoDup.
    - unfold dict_keys. rewrite length_map, L. simpl. lia.
    - intros k Hk. simpl in Hk.
      assert (forall key v, dict_get key fields = Some v ->
                            In key (dict_keys fields)) as A.
      { intros key v Hv. apply dict_get_Some_in in Hv.
        change key with (fst (key, v)). apply in_map. exact Hv. }
      destruct Hk as [<-|[<-|[<-|[<-|[<-|[<-|[]]]]]]]; eapply A; eassumption. }
  intros k x Hin.
  pose proof (@dict_in_get _ k x fields U Hin) as Hg.
  assert (Hk : In k record_fields).
  { apply I. change k with (fst (k, x)). apply in_map. exact Hin. }
  simpl in Hk.
  destruct Hk as [<-|[<-|[<-|[<-|[<-|[<-|[]]]]]]];
    match goal with
    | A : dict_get ?key fields = Some ?a, B : dict_get ?key fields = Some ?b
      |- _ => rewrite A in B; injection B as <-
    end;
    (split; [reflexivity | split; [|reflexivity]]); simpl.
  - apply student_id_encodable; assumption.
  - apply name_encodable; assumption.
  - apply gender_encodable; assumption.
  - reflexivity.
  - apply class_name_encodable; assumption.
  - apply contact_encodable; assumption.
Qed.

Lemma valid_record_well_formed v :
  valid_record v = true -> well_formed v = true /\ encodable v = true.
Proof.
  destruct v as [| | | | |fields]; try discriminate.
  intros H. destruct (valid_record_entries fields H) as [U E].
  split.
  - apply well_formed_dict; [exact U|].
    apply forallb_forall. intros [k x] Hin. apply (E k x Hin).
  - simpl. apply forallb_forall. intros [k x] Hin.
    destruct (E k x Hin) as (E1 & E2 & _). simpl. rewrite E1, E2.
    reflexivity.
Qed.

Lemma valid_dataset_well_formed d :
  valid_dataset d = true ->
  well_formed (VDict d) = true /\ encodable (VDict d) = true.
Proof.
  unfold valid_dataset. rewrite andb_true_iff. intros [U F].
  rewrite forallb_forall in F.
  split.
  - simpl. rewrite U. simpl. apply forallb_forall. intros kv Hin.
    specialize (F kv Hin). apply andb_true_iff in F.
    apply valid_record_well_formed, (proj1 F).
  - simpl. apply forallb_forall. intros [k v] Hin.
    specialize (F (k, v) Hin). simpl in F.
    apply andb_true_iff in F. destruct F as [V K].
    destruct (valid_record_well_formed v V) as [_ Ev].
    simpl. rewrite Ev, andb_true_r.
    destruct v as [| | | | |fields]; try discriminate.
    unfold valid_record in V. rewrite !andb_true_iff in V.
    destruct V as [[[[[[_ F1] _] _] _] _] _].
    destruct (str_field_inv _ _ _ F1) as (i & G & R).
    rewrite G in K. apply str_eqb_spec in K. subst k.
    apply student_id_encodable; exact R.
Qed.

(* ================================================================== *)
(** * The record: [update_info] *)
(* ================================================================== *)

Lemma setattr_student_id self key v self' :
  Student.setattr self key v = Ret self' ->
  Student._student_id self' = Student._student_id self.
Proof.
  unfold Student.setattr, Student.set_name, Student.set_gender,
    Student.set_age, Student.set_class_name, Student.set_contact,
    bind_outcome.
  repeat match goal with
         | |- context [if ?b then _ else _] => destruct b
         end;
    match goal with
    | |- context [match ?m with Ret _ => _ | Raise _ => _ end] =>
        destruct m; [|discriminate]
    end;
    intros H; injection H as <-; reflexivity.
Qed.

Lemma update_info_from_student_id kwargs hc self :
  Student._student_id (snd (Student.update_info_from hc kwargs self))
  = Student._student_id self.
Proof.
  revert hc self. induction kwargs as [|[key v] rest IH]; intros hc self;
    [reflexivity|].
  cbn [Student.update_info_from].
  destruct (str_eqb key (lit "student_id")); [reflexivity|].
  destruct (negb (Student.str_in key Student.allowed_fields));
    [reflexivity|].
  destruct (Student.is_None v); [apply IH|].
  destruct (Student.setattr self key v) as [self'|e] eqn:E; [|reflexivity].
  rewrite IH. eapply setattr_student_id; exact E.
Qed.

Lemma setattr_raises self key v e :
  Student.setattr self key v = Raise e -> is_DataValidationError e = true.
Proof.
  unfold Student.setattr, Student.set_name, Student.set_gender,
    Student.set_age, Student.set_class_name, Student.set_contact,
    Student._validate_name, Student._validate_gender, Student._validate_age,
    Student._validate_class_name, Student._validate_contact, bind_outcome.
  repeat match goal with
         | |- context [if ?b then _ else _] => destruct b
         | |- context [match v with _ => _ end] => destruct v
         | |- context [match py_int ?a with _ => _ end] => destruct (py_int a)
         end;
    intros H; try discriminate; injection H as <-; reflexivity.
Qed.

(** With the key [student_id] among the keyword arguments the loop cannot
    run to its end. *)
Lemma update_info_from_with_id pre v post hc self :
  exists e,
    fst (Student.update_info_from hc (pre ++ (lit "student_id", v) :: post)
           self) = Raise e /\
    (e = InvalidOperationError \/ is_DataValidationError e = true).
Proof.
  revert hc self. induction pre as [|[key x] pre IH]; intros hc self.
  - exists InvalidOperationError. split; [reflexivity | left; reflexivity].
  - cbn [app Student.update_info_from].
    destruct (str_eqb key (lit "student_id")).
    { exists InvalidOperationError. split; [reflexivity | left; reflexivity]. }
    destruct (negb (Student.str_in key Student.allowed_fields)).
    { eexists. split; [reflexivity | right; reflexivity]. }
    destruct (Student.is_None x); [apply IH|].
    destruct (Student.setattr self key x) as [self'|e] eqn:E; [apply IH|].
    exists e. split; [reflexivity | right].
    eapply setattr_raises; exact E.
Qed.

(** When only [None] values of allowed fields are listed before it, the
    key [student_id] is reached with the record untouched. *)
Lemma update_info_from_id_first pre v post hc self :
  forallb (fun kv => Student.str_in (fst kv) Student.allowed_fields
                     && Student.is_None (snd kv)) pre = true ->
  Student.update_info_from hc (pre ++ (lit "student_id", v) :: post) self
  = (Raise InvalidOperationError, self).
Proof.
  induction pre as [|[key x] pre IH]; intros H; [reflexivity|].
  cbn [forallb fst snd] in H. apply andb_true_iff in H.
  destruct H as [H1 H2].
  apply andb_true_iff in H1. destruct H1 as [Ha Hn].
  cbn [app Student.update_info_from].
  destruct (str_eqb key (lit "student_id")); [reflexivity|].
  rewrite Ha, Hn. cbn [negb]. apply IH. exact H2.
Qed.

Lemma binds_with_id params pre v post :
  Student.str_in (lit "student_id") params = true ->
  Student.binds params (pre ++ (lit "student_id", v) :: post) = false.
Proof.
  intros H. unfold Student.binds. rewrite forallb_app. simpl.
  rewrite H. simpl. apply andb_false_r.
Qed.

(* ================================================================== *)
(** * Ids that the rule of the specification rejects *)
(* ================================================================== *)



Lemma get_rejects s w :
  dict_get s (StudentManager._students (StudentManager.self w)) = None ->
  StudentManager.get_student_by_id (VStr s) w
  = (Raise (StudentNotFoundError (VStr s)), w).
Proof.
  intros G. unfold StudentManager.get_student_by_id.
  destruct (StudentManager._validate_student_id (VStr s)); [|reflexivity].
  cbn [negb]. unfold bind, StudentManager.students. rewrite G. reflexivity.
Qed.






(* ================================================================== *)
(** * Loading the map from the store *)
(* ================================================================== *)

Lemma load_items_accepted items :
  NoDup (dict_keys items) ->
  forall acc,
    (forall k, In k (dict_keys items) -> ~ In k (dict_keys acc)) ->
    StudentManager.load_items items acc = acc ++ accepted items.
Proof.
  induction items as [|[k v] items IH]; intros ND acc D.
  - simpl. rewrite app_nil_r. reflexivity.
  - inversion ND as [|? ? Hn ND']; subst.
    cbn [StudentManager.load_items accepted].
    destruct (Student.from_dict v) as [st|e].
    + rewrite dict_set_absent by (apply D; left; reflexivity).
      rewrite IH; [rewrite <- app_assoc; reflexivity | assumption |].
      intros k' Hk'. unfold dict_keys. rewrite map_app, in_app_iff.
      simpl. intros [H | [H | []]].
      * apply (D k'); [right; exact Hk' | exact H].
      * subst. contradiction.
    + apply IH; [assumption|]. intros k' Hk'. apply D. right. exact Hk'.
Qed.





(** [_load_students] when the store loads: the accepted records are put
    into the map, on top of what the map holds. *)
Lemma _load_students_eq dm current s d :
  DataManager.load_data dm s = (Ret (VDict d), s) ->
  StudentManager._load_students
    (StudentManager.mk_world (StudentManager.mk dm current) s)
  = (Ret tt,
     StudentManager.mk_world
       (StudentManager.mk dm (StudentManager.load_items d current)) s).
Proof.
  intros L.
  unfold StudentManager._load_students, try_except, bind,
    StudentManager.data_manager, StudentManager.lift_os,
    StudentManager.students, StudentManager.set_students, lift_outcome.
  cbn [StudentManager.self StudentManager.os StudentManager._data_manager
       StudentManager._students].
  rewrite L. reflexivity.
Qed.

(* ================================================================== *)
(** * Import *)
(* ================================================================== *)

Lemma loads_nonempty t v : Json.loads t = Ret v -> t <> [].
Proof. intros H ->. discriminate. Qed.

Lemma getsize_nonempty s p t :
  files s p = Some t -> t <> [] ->
  exists n, Os.getsize p s = (Ret n, s) /\ N.eqb n 0 = false.
Proof.
  intros F N. unfold Os.getsize. rewrite F.
  eexists. split; [reflexivity|].
  destruct t as [|c t]; [congruence|]. simpl.
  apply N.eqb_neq. unfold Os.utf8_size.
  repeat match goal with
         | |- context [if ?b then _ else _] => destruct b
         end; lia.
Qed.

Lemma forallb_pairs_dict_set (P : pystr * value -> bool) k v
  (d : dict value) :
  P (k, v) = true -> forallb P d = true ->
  forallb P (dict_set k v d) = true.
Proof.
  intros Hv. induction d as [|[k' v'] d IH]; simpl.
  - rewrite Hv; reflexivity.
  - rewrite andb_true_iff. intros [H1 H2].
    destruct (str_eqb k k') eqn:E; simpl.
    + apply str_eqb_spec in E. subst k'. rewrite Hv, H2. reflexivity.
    + rewrite H1, IH by assumption. reflexivity.
Qed.

Lemma encodable_update d o :
  encodable (VDict d) = true -> encodable (VDict o) = true ->
  encodable (VDict (dict_update d o)) = true.
Proof.
  simpl. revert d; induction o as [|[k v] o IH]; simpl; intros d Hd Ho;
    [assumption|].
  apply andb_true_iff in Ho. destruct Ho as [Hv Ho].
  apply IH; [apply forallb_pairs_dict_set|]; assumption.
Qed.

(** [import_data] with [overwrite=True] on a writable store. *)
Lemma import_overwrite self f s t im :
  files s f = Some t -> Json.loads t = Ret (VDict im) ->
  encodable (VDict im) = true ->
  writable s (DataManager._data_file self) = true ->
  DataManager.import_data self f true s
  = (Ret (VDict im),
     set_file (DataManager._data_file self)
              (Some (Json.dumps (VDict im))) s).
Proof.
  intros F L E W.
  destruct (getsize_nonempty s f F (loads_nonempty L)) as (n & G & Z).
  pose proof (save_data_writes self (VDict im) s eq_refl E W) as Sv.
  unfold DataManager.import_data, try_except, bind, lift_outcome, ret,
    Os.exists_, Os.read_text.
  run. reflexivity.
Qed.

(** [import_data] with [overwrite=False] on a writable store whose data
    file loads. *)
Lemma import_merge self f s t im cur :
  files s f = Some t -> Json.loads t = Ret (VDict im) ->
  DataManager.load_data self s = (Ret (VDict cur), s) ->
  encodable (VDict (dict_update cur im)) = true ->
  writable s (DataManager._data_file self) = true ->
  DataManager.import_data self f false s
  = (Ret (VDict im),
     set_file (DataManager._data_file self)
              (Some (Json.dumps (VDict (dict_update cur im)))) s).
Proof.
  intros F L Ld E W.
  destruct (getsize_nonempty s f F (loads_nonempty L)) as (n & G & Z).
  pose proof (save_data_writes self (VDict (dict_update cur im)) s
                eq_refl E W) as Sv.
  unfold DataManager.import_data, try_except, bind, lift_outcome, ret,
    Os.exists_, Os.read_text, DataManager.update_method.
  run. reflexivity.
Qed.


Lemma dict_get_in_keys {V} k (d : dict V) :
  In k (dict_keys d) <-> exists v, dict_get k d = Some v.
Proof.
  split.
  - intros H. destruct (dict_get k d) as [v|] eqn:E; [eauto|].
    apply dict_get_None_notin in E. contradiction.
  - intros [v E]. apply dict_get_Some_in in E.
    change k with (fst (k, v)). apply in_map. exact E.
Qed.

(** After [d.update(o)] the keys are those of [d] and of [o]; a key of
    [o] has the value of [o], any other key the value of [d]. *)
Lemma dict_get_update_NoDup {V} k (d o : dict V) :
  NoDup (dict_keys o) ->
  dict_get k (dict_update d o) =
  match dict_get k o with
  | Some v => Some v
  | None => dict_get k d
  end.
Proof.
  intros ND. rewrite dict_get_update, dict_get_rev by assumption.
  reflexivity.
Qed.

Lemma dict_update_keys {V} k (d o : dict V) :
  NoDup (dict_keys o) ->
  In k (dict_keys (dict_update d o)) <->
  In k (dict_keys d) \/ In k (dict_keys o).
Proof.
  intros ND. rewrite !dict_get_in_keys, dict_get_update_NoDup by assumption.
  destruct (dict_get k o) as [v|]; split.
  - eauto.
  - intros _. eauto.
  - intros H; left; exact H.
  - intros [H | [v H]]; [exact H | discriminate].
Qed.

(* ================================================================== *)
(** * Properties of the specification *)
(* ================================================================== *)

(** C6.  Round-trip law of the persistence store: for every valid dataset
    map (each value a flat record of the six fields, strings and an
    integer age, that satisfies the field rules, stored under its id),
    [save_data] followed by [load_data] returns a map equal to the
    original, on any system that lets the data file be written. *)
Theorem C6_save_load_roundtrip
  (self : DataManager.t) (s : os_state) (d : dict value) :
  valid_dataset d = true ->
  writable s (DataManager._data_file self) = true ->
  exists s',
    DataManager.save_data self (VDict d) s = (Ret true, s') /\
    DataManager.load_data self s' = (Ret (VDict d), s').
Proof.
  intros V W. destruct (valid_dataset_well_formed d V) as [Hw He].
  eexists. apply save_then_load; auto.
Qed.

Lemma C6_save_load_roundtrip_witness :
  valid_dataset Scenario.dataset12 = true /\
  writable Scenario.os_empty (DataManager._data_file Scenario.dm) = true /\
  exists s',
    DataManager.save_data Scenario.dm (VDict Scenario.dataset12)
                          Scenario.os_empty = (Ret true, s') /\
    DataManager.load_data Scenario.dm s' = (Ret (VDict Scenario.dataset12), s').
Proof.
  split; [vm_compute; reflexivity|].
  split; [vm_compute; reflexivity|].
  apply (C6_save_load_roundtrip Scenario.dm Scenario.os_empty
           Scenario.dataset12); vm_compute; reflexivity.
Defined.

(** C4.  [restore_data] with a backup file that is present and not empty,
    on a store whose data file is missing: the automatic backup of the
    current data raises [EmptyDataError] and [restore_data] lets it
    through, although both checks on the backup file passed.  The
    specification (and the docstring of [restore_data]) reserve
    [EmptyDataError] for a missing or empty backup file. *)
Theorem C4_restore_leaks_EmptyDataError :
  fst (Os.exists_ Scenario.backup_file Scenario.os_backup_only) = Ret true /\
  (exists n, fst (Os.getsize Scenario.backup_file Scenario.os_backup_only)
             = Ret n /\ n <> 0%N) /\
  files Scenario.os_backup_only (DataManager._data_file Scenario.dm) = None /\
  fst (DataManager.restore_data Scenario.dm Scenario.backup_file
         Scenario.os_backup_only) = Raise EmptyDataError.
Proof.
  split; [reflexivity|]. split; [|split; vm_compute; reflexivity].
  eexists. split; [vm_compute; reflexivity | discriminate].
Qed.

(** C1.  [update_student("2023001", name="李四", age=10)] on the store of
    the two records: the age is rejected by its rule and the call raises
    [DataValidationError], but the name, listed before it, has already
    been assigned to the record held by the map.  The file still has the
    old name, so the map no longer mirrors the disk. *)
Theorem C1_update_commits_fields_before_the_failing_one :
  let kwargs := [(lit "name", VStr Scenario.li_si); (lit "age", VInt 10)] in
  let r := StudentManager.update_student (VStr Scenario.id1) kwargs
             Scenario.w2 in
  dict_get Scenario.id1 (StudentManager._students
                           (StudentManager.self Scenario.w2))
    = Some Scenario.student1 /\
  Validator.validate_name (VStr Scenario.li_si) = true /\
  Validator.validate_age (VInt 10) = false /\
  fst r = Raise (DataValidationError (Some (lit "age"))) /\
  dict_get Scenario.id1 (StudentManager._students
                           (StudentManager.self (snd r)))
    = Some (Student.mk Scenario.id1 Scenario.li_si Validator.male 20
                       (lit "CS-1") (lit "13800138001")) /\
  fst (DataManager.load_data Scenario.dm (StudentManager.os (snd r)))
    = Ret (VDict Scenario.dataset12).
Proof. repeat split; vm_compute; reflexivity. Qed.

(** C2.  [import_data(file, overwrite=True)] of a file with the records
    2023002 and 2023003 into a manager that holds 2023001 and 2023002:
    the file on disk becomes the imported dataset, but [_load_students]
    adds the loaded records to the map without emptying it first, so
    2023001 stays in memory although it is no longer on disk. *)
Theorem C2_import_keeps_stale_records :
  let r := StudentManager.import_data Scenario.import_file true
             Scenario.w2_with_import in
  StudentManager._students (StudentManager.self Scenario.w2_with_import)
    = [(Scenario.id1, Scenario.student1); (Scenario.id2, Scenario.student2)] /\
  fst r = Ret Scenario.imported /\
  fst (DataManager.load_data Scenario.dm (StudentManager.os (snd r)))
    = Ret Scenario.imported /\
  StudentManager._students (StudentManager.self (snd r))
    = [(Scenario.id1, Scenario.student1); (Scenario.id2, Scenario.student2');
       (Scenario.id3, Scenario.student3)].
Proof. repeat split; vm_compute; reflexivity. Qed.

(** C8.  [delete_students_by_ids(["2023001", "2023001"])] on the store of
    the two records: the id is counted twice as deletable, the second
    [del] raises [KeyError], the call fails with [OperationFailedError]
    after the record has left the map, and nothing is saved: the file
    still holds both records. *)
Theorem C8_batch_delete_fails_on_repeated_id :
  let r := StudentManager.delete_students_by_ids
             [VStr Scenario.id1; VStr Scenario.id1] Scenario.w2 in
  StudentManager._students (StudentManager.self Scenario.w2)
    = [(Scenario.id1, Scenario.student1); (Scenario.id2, Scenario.student2)] /\
  fst r = Raise OperationFailedError /\
  StudentManager._students (StudentManager.self (snd r))
    = [(Scenario.id2, Scenario.student2)] /\
  fst (DataManager.load_data Scenario.dm (StudentManager.os (snd r)))
    = Ret (VDict Scenario.dataset12).
Proof. repeat split; vm_compute; reflexivity. Qed.

(** C7 as stated fails: [update_info(name="李四", student_id="2023009")]
    raises [InvalidOperationError] after the name has been changed, and
    [update_student] cannot be passed [student_id] as a keyword at all:
    binding the call raises [TypeError], not [InvalidOperationError]. *)
Lemma C7_counterexample :
  let kwargs := [(lit "name", VStr Scenario.li_si);
                 (lit "student_id", VStr (lit "2023009"))] in
  fst (Student.update_info kwargs Scenario.student1)
    = Raise InvalidOperationError /\
  Student._name (snd (Student.update_info kwargs Scenario.student1))
    <> Student._name Scenario.student1 /\
  fst (StudentManager.update_student (VStr Scenario.id1)
         [(lit "student_id", VStr (lit "2023009"))] Scenario.w2)
    <> Raise InvalidOperationError.
Proof. repeat split; vm_compute; discriminate. Qed.

(** C7, amended.  A call of [update_info] whose keyword arguments include
    [student_id] never returns normally and never changes the id: it
    raises [InvalidOperationError], unless a field listed before it is
    rejected first, which raises [DataValidationError].  When nothing but
    [None] values of allowed fields is listed before [student_id], the
    error is [InvalidOperationError] and the record is left as it was.
    [update_student] cannot receive [student_id] as a field to update:
    the call is refused with [TypeError] when it is bound, and the manager
    and the disk are unchanged. *)
Theorem C7_id_is_immutable
  (st : Student.t) (pre post : dict value) (v : value) :
  let kwargs := pre ++ (lit "student_id", v) :: post in
  Student.binds [lit "self"] kwargs = true ->
  (exists e,
      fst (Student.update_info kwargs st) = Raise e /\
      (e = InvalidOperationError \/ is_DataValidationError e = true)) /\
  Student._student_id (snd (Student.update_info kwargs st))
    = Student._student_id st /\
  (forallb (fun kv => Student.str_in (fst kv) Student.allowed_fields
                      && Student.is_None (snd kv)) pre = true ->
   Student.update_info kwargs st = (Raise InvalidOperationError, st)) /\
  (forall sid w,
      StudentManager.update_student sid kwargs w = (Raise TypeError, w)).
Proof.
  intros kwargs B. unfold Student.update_info. rewrite B.
  repeat split.
  - apply update_info_from_with_id.
  - apply update_info_from_student_id.
  - apply update_info_from_id_first.
  - intros sid w. unfold StudentManager.update_student.
    unfold kwargs. rewrite binds_with_id by reflexivity. reflexivity.
Qed.

Lemma C7_id_is_immutable_witness :
  let st := Scenario.student1 in
  let pre := [(lit "name", VNone)] in
  let post := [(lit "age", VInt 30)] in
  let kwargs := pre ++ (lit "student_id", VStr (lit "2023009")) :: post in
  Student.binds [lit "self"] kwargs = true /\
  Student.update_info kwargs st = (Raise InvalidOperationError, st).
Proof.
  split; [vm_compute; reflexivity|].
  apply (C7_id_is_immutable Scenario.student1 [(lit "name", VNone)]
           [(lit "age", VInt 30)] (VStr (lit "2023009")));
    vm_compute; reflexivity.
Defined.






(** C5.  A store whose dataset has the keys A and B, an import file whose
    top-level object has the keys B and C, a writable data file and
    encodable strings.  [import_data(file, overwrite=False)] returns the
    map of the file and leaves a dataset with exactly the keys A, B and
    C, in which B and C have the values of the file and A keeps its
    value.  [import_data(file, overwrite=True)] returns the map of the
    file too and leaves exactly the dataset of the file. *)
Theorem C5_import_merges_or_overwrites
  (self : DataManager.t) (s : os_state) (f : path) (t : pystr)
  (cur im : dict value) (A B C : pystr) :
  A <> B -> A <> C -> B <> C ->
  DataManager.load_data self s = (Ret (VDict cur), s) ->
  key_set cur [A; B] ->
  files s f = Some t -> Json.loads t = Ret (VDict im) ->
  key_set im [B; C] ->
  encodable (VDict cur) = true -> encodable (VDict im) = true ->
  writable s (DataManager._data_file self) = true ->
  (exists s1 merged,
      DataManager.import_data self f false s = (Ret (VDict im), s1) /\
      DataManager.load_data self s1 = (Ret (VDict merged), s1) /\
      key_set merged [A; B; C] /\
      dict_get A merged = dict_get A cur /\
      dict_get B merged = dict_get B im /\
      dict_get C merged = dict_get C im) /\
  (exists s2,
      DataManager.import_data self f true s = (Ret (VDict im), s2) /\
      DataManager.load_data self s2 = (Ret (VDict im), s2) /\
      key_set im [B; C]).
Proof.
  intros AB AC BC Ld Kc F L Ki Ec Ei W.
  destruct (load_data_value self s Ld) as (_ & Wc & _).
  pose proof (@loads_well_formed t (VDict im) L) as Wi.
  pose proof (well_formed_update cur im Wc Wi) as Wm.
  pose proof (encodable_update cur im Ec Ei) as Em.
  destruct (well_formed_dict_inv im Wi) as [NDi _].
  split.
  - exists (set_file (DataManager._data_file self)
                     (Some (Json.dumps (VDict (dict_update cur im)))) s),
           (dict_update cur im).
    split; [apply import_merge with (t := t); assumption|].
    split; [apply (save_then_load self (VDict (dict_update cur im)) s
                     eq_refl Wm Em W)|].
    assert (GA : dict_get A im = None).
    { apply dict_get_None_notin. intros H. apply Ki in H. simpl in H.
      destruct H as [H | [H | []]]; congruence. }
    assert (GB : exists v, dict_get B im = Some v)
      by (apply dict_get_in_keys, Ki; simpl; auto).
    assert (GC : exists v, dict_get C im = Some v)
      by (apply dict_get_in_keys, Ki; simpl; auto).
    destruct GB as [vb GB], GC as [vc GC].
    repeat split.
    + intros H. apply dict_update_keys in H; [|assumption].
      destruct H as [H | H]; [apply Kc in H | apply Ki in H];
        simpl in *; tauto.
    + intros H. apply dict_update_keys; [assumption|].
      simpl in H. destruct H as [H | [H | [H | []]]].
      * left. apply Kc. simpl. auto.
      * right. apply Ki. simpl. auto.
      * right. apply Ki. simpl. auto.
    + rewrite dict_get_update_NoDup, GA by assumption. reflexivity.
    + rewrite dict_get_update_NoDup, GB by assumption. reflexivity.
    + rewrite dict_get_update_NoDup, GC by assumption. reflexivity.
  - exists (set_file (DataManager._data_file self)
                     (Some (Json.dumps (VDict im))) s).
    split; [apply import_overwrite with (t := t); assumption|].
    split; [apply (save_then_load self (VDict im) s eq_refl Wi Ei W)|].
    exact Ki.
Qed.

Lemma C5_import_merges_or_overwrites_witness :
  DataManager.load_data Scenario.dm Scenario.os_with_import
    = (Ret (VDict Scenario.dataset12), Scenario.os_with_import) /\
  files Scenario.os_with_import Scenario.import_file
    = Some (Json.dumps (VDict Scenario.imported_records)) /\
  Json.loads (Json.dumps (VDict Scenario.imported_records))
    = Ret (VDict Scenario.imported_records) /\
  writable Scenario.os_with_import (DataManager._data_file Scenario.dm)
    = true /\
  exists s1 merged,
    DataManager.import_data Scenario.dm Scenario.import_file false
                            Scenario.os_with_import
      = (Ret (VDict Scenario.imported_records), s1) /\
    DataManager.load_data Scenario.dm s1 = (Ret (VDict merged), s1) /\
    key_set merged [Scenario.id1; Scenario.id2; Scenario.id3] /\
    dict_get Scenario.id2 merged
      = dict_get Scenario.id2 Scenario.imported_records.
Proof.
  assert (H1 : DataManager.load_data Scenario.dm Scenario.os_with_import
               = (Ret (VDict Scenario.dataset12), Scenario.os_with_import))
    by (vm_compute; reflexivity).
  assert (H2 : files Scenario.os_with_import Scenario.import_file
               = Some (Json.dumps (VDict Scenario.imported_records)))
    by (vm_compute; reflexivity).
  assert (H3 : Json.loads (Json.dumps (VDict Scenario.imported_records))
               = Ret (VDict Scenario.imported_records))
    by (vm_compute; reflexivity).
  assert (H4 : writable Scenario.os_with_import
                 (DataManager._data_file Scenario.dm) = true)
    by (vm_compute; reflexivity).
  assert (N12 : Scenario.id1 <> Scenario.id2) by (vm_compute; discriminate).
  assert (N13 : Scenario.id1 <> Scenario.id3) by (vm_compute; discriminate).
  assert (N23 : Scenario.id2 <> Scenario.id3) by (vm_compute; discriminate).
  assert (K1 : key_set Scenario.dataset12 [Scenario.id1; Scenario.id2])
    by (intros k; reflexivity).
  assert (K2 : key_set Scenario.imported_records
                 [Scenario.id2; Scenario.id3])
    by (intros k; reflexivity).
  assert (E1 : encodable (VDict Scenario.dataset12) = true)
    by (vm_compute; reflexivity).
  assert (E2 : encodable (VDict Scenario.imported_records) = true)
    by (vm_compute; reflexivity).
  split; [exact H1|]. split; [exact H2|]. split; [exact H3|].
  split; [exact H4|].
  destruct (@C5_import_merges_or_overwrites
              Scenario.dm Scenario.os_with_import Scenario.import_file
              (Json.dumps (VDict Scenario.imported_records))
              Scenario.dataset12 Scenario.imported_records
              Scenario.id1 Scenario.id2 Scenario.id3
              N12 N13 N23 H1 K1 H2 H3 K2 E1 E2 H4)
    as [(s1 & merged & I & L & K & _ & GB & _) _].
  exists s1, merged. split; [exact I|]. split; [exact L|].
  split; [exact K | exact GB].
Defined.




(* ================================================================== *)
(** * Further properties of the record *)
(* ================================================================== *)

(** ** [strip] is idempotent *)

Lemma lstrip_idem s : lstrip (lstrip s) = lstrip s.
Proof.
  induction s as [|c s IH]; simpl; [reflexivity|].
  destruct (py_isspace c) eqn:E; [exact IH|].
  simpl. rewrite E. reflexivity.
Qed.

Lemma lstrip_snoc u c :
  py_isspace c = false -> lstrip (u ++ [c]) = lstrip u ++ [c].
Proof.
  intros Hc. induction u as [|x u IH]; simpl.
  - rewrite Hc. reflexivity.
  - destruct (py_isspace x); [exact IH|reflexivity].
Qed.

Lemma lstrip_head s :
  match lstrip s with
  | [] => True
  | c :: _ => py_isspace c = false
  end.
Proof.
  induction s as [|c s IH]; simpl; [exact I|].
  destruct (py_isspace c) eqn:E; [exact IH|exact E].
Qed.

Lemma rstrip_idem s : rstrip (rstrip s) = rstrip s.
Proof.
  unfold rstrip. rewrite rev_involutive, lstrip_idem. reflexivity.
Qed.

Lemma strip_idem s : strip (strip s) = strip s.
Proof.
  unfold strip.
  assert (A : lstrip (rstrip (lstrip s)) = rstrip (lstrip s)).
  { pose proof (lstrip_head s) as H.
    destruct (lstrip s) as [|c t]; [reflexivity|].
    unfold rstrip. simpl rev.
    rewrite (@lstrip_snoc (rev t) c H), rev_app_distr. simpl.
    rewrite H. reflexivity. }
  rewrite A. apply rstrip_idem.
Qed.

Lemma stripped_strip s : stripped (strip s) = true.
Proof. unfold stripped. rewrite strip_idem. apply str_eqb_refl. Qed.

(** ** The constructor and the setters produce valid records *)

Lemma _validate_student_id_inv v s :
  Student._validate_student_id v = Ret s ->
  v = VStr s /\ Validator.validate_student_id (VStr s) = true.
Proof.
  unfold Student._validate_student_id.
  destruct (Validator.validate_student_id v) eqn:E; [|discriminate].
  destruct v; try discriminate.
  intros H; injection H as <-. auto.
Qed.

Lemma _validate_name_inv v s :
  Student._validate_name v = Ret s ->
  Validator.validate_name (VStr s) = true /\ stripped s = true.
Proof.
  unfold Student._validate_name.
  destruct (Validator.validate_name v) eqn:E; [|discriminate].
  destruct v as [| | |x| |]; try discriminate.
  intros H; injection H as <-.
  split; [|apply stripped_strip].
  revert E. unfold Validator.validate_name. rewrite strip_idem. auto.
Qed.

Lemma _validate_gender_inv v s :
  Student._validate_gender v = Ret s ->
  v = VStr s /\ Validator.validate_gender (VStr s) = true.
Proof.
  unfold Student._validate_gender.
  destruct (Validator.validate_gender v) eqn:E; [|discriminate].
  destruct v; try discriminate.
  intros H; injection H as <-. auto.
Qed.

Lemma _validate_age_inv v z :
  Student._validate_age v = Ret z ->
  py_int v = Ret z /\ Validator.validate_age (VInt z) = true.
Proof.
  unfold Student._validate_age, Validator.validate_age.
  destruct (py_int v) as [a|e] eqn:E; [|discriminate].
  destruct ((a <? 15)%Z || (50 <=? a)%Z) eqn:R; [discriminate|].
  intros H; injection H as <-. simpl. rewrite R. auto.
Qed.

Lemma _validate_class_name_inv v s :
  Student._validate_class_name v = Ret s ->
  Validator.validate_class_name (VStr s) = true /\ stripped s = true.
Proof.
  unfold Student._validate_class_name.
  destruct (Validator.validate_class_name v) eqn:E; [|discriminate].
  destruct v as [| | |x| |]; try discriminate.
  intros H; injection H as <-.
  split; [|apply stripped_strip].
  revert E. unfold Validator.validate_class_name. rewrite strip_idem. auto.
Qed.

Lemma _validate_contact_inv v s :
  Student._validate_contact v = Ret s ->
  Validator.validate_contact (VStr s) = true /\ stripped s = true.
Proof.
  unfold Student._validate_contact.
  destruct (Validator.validate_contact v) eqn:E; [|discriminate].
  destruct v as [| | |x| |]; try discriminate.
  intros H; injection H as <-.
  split; [|apply stripped_strip].
  revert E. unfold Validator.validate_contact. rewrite strip_idem. auto.
Qed.

Lemma valid_student_intro i n g a c k :
  Validator.validate_student_id (VStr i) = true ->
  Validator.validate_name (VStr n) = true -> stripped n = true ->
  Validator.validate_gender (VStr g) = true ->
  Validator.validate_age (VInt a) = true ->
  Validator.validate_class_name (VStr c) = true -> stripped c = true ->
  Validator.validate_contact (VStr k) = true -> stripped k = true ->
  valid_student (Student.mk i n g a c k) = true.
Proof.
  intros. unfold valid_student. simpl.
  repeat (apply andb_true_iff; split); assumption.
Qed.

Lemma valid_student_inv st :
  valid_student st = true ->
  Validator.validate_student_id (VStr (Student._student_id st)) = true /\
  Validator.validate_name (VStr (Student._name st)) = true /\
  stripped (Student._name st) = true /\
  Validator.validate_gender (VStr (Student._gender st)) = true /\
  Validator.validate_age (VInt (Student._age st)) = true /\
  Validator.validate_class_name (VStr (Student._class_name st)) = true /\
  stripped (Student._class_name st) = true /\
  Validator.validate_contact (VStr (Student._contact st)) = true /\
  stripped (Student._contact st) = true.
Proof.
  unfold valid_student. rewrite !andb_true_iff. tauto.
Qed.

Lemma init_valid i n g a c k st :
  Student.__init__ i n g a c k = Ret st -> valid_student st = true.
Proof.
  unfold Student.__init__, bind_outcome.
  destruct (Student._validate_student_id i) as [i'|] eqn:E1; [|discriminate].
  destruct (Student._validate_name n) as [n'|] eqn:E2; [|discriminate].
  destruct (Student._validate_gender g) as [g'|] eqn:E3; [|discriminate].
  destruct (Student._validate_age a) as [a'|] eqn:E4; [|discriminate].
  destruct (Student._validate_class_name c) as [c'|] eqn:E5; [|discriminate].
  destruct (Student._validate_contact k) as [k'|] eqn:E6; [|discriminate].
  intros H; injection H as <-.
  apply _validate_student_id_inv in E1. apply _validate_name_inv in E2.
  apply _validate_gender_inv in E3. apply _validate_age_inv in E4.
  apply _validate_class_name_inv in E5. apply _validate_contact_inv in E6.
  apply valid_student_intro; tauto.
Qed.

Lemma from_dict_valid v st :
  Student.from_dict v = Ret st -> valid_student st = true.
Proof.
  destruct v; try discriminate. simpl. apply init_valid.
Qed.

Lemma stripped_eq s : stripped s = true -> strip s = s.
Proof. apply str_eqb_spec. Qed.

Lemma init_of_valid st :
  valid_student st = true ->
  Student.__init__ (VStr (Student._student_id st)) (VStr (Student._name st))
    (VStr (Student._gender st)) (VInt (Student._age st))
    (VStr (Student._class_name st)) (VStr (Student._contact st)) = Ret st.
Proof.
  intros H. apply valid_student_inv in H.
  destruct H as (H1 & H2 & S2 & H3 & H4 & H5 & S5 & H6 & S6).
  unfold Student.__init__, Student._validate_student_id,
    Student._validate_name, Student._validate_gender, Student._validate_age,
    Student._validate_class_name, Student._validate_contact, bind_outcome.
  rewrite H1, H2, H3, H4, H5, H6. simpl.
  rewrite (@stripped_eq _ S2), (@stripped_eq _ S5), (@stripped_eq _ S6).
  destruct st; reflexivity.
Qed.

Lemma from_dict_to_dict st :
  valid_student st = true -> Student.from_dict (Student.to_dict st) = Ret st.
Proof. intros H. exact (init_of_valid st H). Qed.

Lemma setattr_valid st key v st' :
  valid_student st = true -> Student.setattr st key v = Ret st' ->
  valid_student st' = true.
Proof.
  intros H. apply valid_student_inv in H.
  destruct H as (H1 & H2 & S2 & H3 & H4 & H5 & S5 & H6 & S6).
  unfold Student.setattr, Student.set_name, Student.set_gender,
    Student.set_age, Student.set_class_name, Student.set_contact,
    bind_outcome.
  repeat match goal with
         | |- context [if ?b then _ else _] => destruct b
         end.
  - destruct (Student._validate_name v) as [x|] eqn:E; [|discriminate].
    intros K; injection K as <-. apply _validate_name_inv in E.
    apply valid_student_intro; tauto.
  - destruct (Student._validate_gender v) as [x|] eqn:E; [|discriminate].
    intros K; injection K as <-. apply _validate_gender_inv in E.
    apply valid_student_intro; tauto.
  - destruct (Student._validate_age v) as [x|] eqn:E; [|discriminate].
    intros K; injection K as <-. apply _validate_age_inv in E.
    apply valid_student_intro; tauto.
  - destruct (Student._validate_class_name v) as [x|] eqn:E; [|discriminate].
    intros K; injection K as <-. apply _validate_class_name_inv in E.
    apply valid_student_intro; tauto.
  - destruct (Student._validate_contact v) as [x|] eqn:E; [|discriminate].
    intros K; injection K as <-. apply _validate_contact_inv in E.
    apply valid_student_intro; tauto.
Qed.

Lemma update_info_from_valid kwargs hc st :
  valid_student st = true ->
  valid_student (snd (Student.update_info_from hc kwargs st)) = true.
Proof.
  revert hc st. induction kwargs as [|[key v] rest IH]; intros hc st H;
    [exact H|].
  cbn [Student.update_info_from].
  destruct (str_eqb key (lit "student_id")); [exact H|].
  destruct (negb (Student.str_in key Student.allowed_fields)); [exact H|].
  destruct (Student.is_None v); [apply IH; exact H|].
  destruct (Student.setattr st key v) as [st'|e] eqn:E; [|exact H].
  apply IH. eapply setattr_valid; eassumption.
Qed.

(** ** Regular expressions: a repeated character class *)

Lemma fullmatch_Alt a b s :
  Re.fullmatch (Re.Alt a b) s = Re.fullmatch a s || Re.fullmatch b s.
Proof.
  revert a b. induction s as [|c s IH]; intros a b; simpl;
    [reflexivity|apply IH].
Qed.

Lemma fullmatch_Seq_Void r s : Re.fullmatch (Re.Seq Re.Void r) s = false.
Proof. apply dead_fullmatch. reflexivity. Qed.

Lemma fullmatch_Seq_Eps r s :
  Re.fullmatch (Re.Seq Re.Eps r) s = Re.fullmatch r s.
Proof.
  destruct s as [|c s]; simpl; [reflexivity|].
  rewrite fullmatch_Alt, fullmatch_Seq_Void. reflexivity.
Qed.

Lemma fullmatch_Star_Cls p s :
  Re.fullmatch (Re.Star (Re.Cls p)) s = forallb p s.
Proof.
  induction s as [|c s IH]; simpl; [reflexivity|].
  destruct (p c); simpl.
  - rewrite fullmatch_Seq_Eps. exact IH.
  - apply fullmatch_Seq_Void.
Qed.

Lemma fullmatch_Plus_Cls p s :
  Re.fullmatch (Re.Plus (Re.Cls p)) s
  = match s with [] => false | _ :: _ => forallb p s end.
Proof.
  destruct s as [|c s]; simpl; [reflexivity|].
  destruct (p c); simpl.
  - rewrite fullmatch_Seq_Eps. apply fullmatch_Star_Cls.
  - apply fullmatch_Seq_Void.
Qed.

(** A string with a character that is not white space is not blank. *)
Lemma strip_not_blank s c :
  In c s -> py_isspace c = false -> strip s <> [].
Proof.
  intros Hin Hc E.
  destruct (strip_split s) as (w1 & w2 & Es & W1 & W2).
  rewrite E in Es. simpl in Es. rewrite Es in Hin.
  apply in_app_or in Hin.
  rewrite forallb_forall in W1, W2.
  destruct Hin as [Hin | Hin]; [apply W1 in Hin | apply W2 in Hin];
    congruence.
Qed.

Lemma digit_not_space c : is_ascii_digit c = true -> py_isspace c = false.
Proof.
  unfold is_ascii_digit, in_range. intros H.
  apply andb_true_iff in H. destruct H as [H1 H2].
  apply N.leb_le in H1, H2.
  destruct (py_isspace c) eqn:E; [|reflexivity].
  exfalso. revert E. unfold py_isspace.
  rewrite !orb_true_iff. unfold in_range.
  rewrite ?andb_true_iff, ?N.leb_le, ?N.eqb_eq. lia.
Qed.

(* ------------------------------------------------------------------ *)
(** ** The record and its rules *)

(** X1.  A record that the constructor returned is read back unchanged:
    [Student.from_dict(student.to_dict())] succeeds and has the same six
    fields, although the constructor stripped the name, the class and the
    contact and converted the age. *)
Theorem X1_from_dict_inverts_to_dict
  (student_id name gender age class_name contact : value) (st : Student.t) :
  Student.__init__ student_id name gender age class_name contact = Ret st ->
  Student.from_dict (Student.to_dict st) = Ret st.
Proof.
  intros H. apply from_dict_to_dict. eapply init_valid. exact H.
Qed.

Lemma X1_from_dict_inverts_to_dict_witness :
  Student.from_dict (Student.to_dict Scenario.student1)
  = Ret Scenario.student1.
Proof.
  apply (@X1_from_dict_inverts_to_dict
           (VStr Scenario.id1)
           (VStr (32 :: Scenario.zhang_san ++ [32; 10])%N)
           (VStr Validator.male) (VStr (lit " 20 "))
           (VStr (lit "CS-1 ")) (VStr (lit "13800138001"))).
  vm_compute. reflexivity.
Defined.

Lemma validate_len_inv (s : pystr) lo hi (rest : bool) :
  (if Validator.is_empty s then false
   else if (length s <? lo) || (hi <? length s) then false
        else rest) = true ->
  lo <= length s <= hi /\ 1 <= length s /\ rest = true.
Proof.
  destruct s as [|c s]; simpl Validator.is_empty; [discriminate|].
  destruct ((length (c :: s) <? lo) || (hi <? length (c :: s))) eqn:E;
    [discriminate|].
  apply orb_false_iff in E. destruct E as [E1 E2].
  apply Nat.ltb_ge in E1, E2. intros ->.
  cbn [length] in *. repeat split; lia.
Qed.

(** X2.  What the constructor stores: an id of 6 to 20 characters, a name
    of 2 to 10 characters, one of the two genders, an integer age from 15
    to 49, a class of 1 to 20 characters and a contact of 1 to 50
    characters; name, class and contact without white space at either
    end; id and gender exactly as they were given. *)
Theorem X2_constructor_postcondition
  (student_id name gender age class_name contact : value) (st : Student.t) :
  Student.__init__ student_id name gender age class_name contact = Ret st ->
  student_id = VStr (Student._student_id st) /\
  6 <= length (Student._student_id st) <= 20 /\
  2 <= length (Student._name st) <= 10 /\
  strip (Student._name st) = Student._name st /\
  gender = VStr (Student._gender st) /\
  (Student._gender st = Validator.male
   \/ Student._gender st = Validator.female) /\
  py_int age = Ret (Student._age st) /\
  (15 <= Student._age st <= 49)%Z /\
  1 <= length (Student._class_name st) <= 20 /\
  strip (Student._class_name st) = Student._class_name st /\
  1 <= length (Student._contact st) <= 50 /\
  strip (Student._contact st) = Student._contact st.
Proof.
  intros H.
  pose proof (init_valid _ _ _ _ _ _ H) as V.
  apply valid_student_inv in V.
  destruct V as (H1 & H2 & S2 & H3 & H4 & H5 & S5 & H6 & S6).
  apply stripped_eq in S2, S5, S6.
  revert H. unfold Student.__init__, bind_outcome.
  destruct (Student._validate_student_id student_id) as [i'|] eqn:E1;
    [|discriminate].
  destruct (Student._validate_name name) as [n'|] eqn:E2; [|discriminate].
  destruct (Student._validate_gender gender) as [g'|] eqn:E3;
    [|discriminate].
  destruct (Student._validate_age age) as [a'|] eqn:E4; [|discriminate].
  destruct (Student._validate_class_name class_name) as [c'|] eqn:E5;
    [|discriminate].
  destruct (Student._validate_contact contact) as [k'|] eqn:E6;
    [|discriminate].
  intros H; injection H as <-. simpl in *.
  apply _validate_student_id_inv in E1. apply _validate_gender_inv in E3.
  apply _validate_age_inv in E4.
  destruct E1 as [-> _], E3 as [-> _], E4 as [E4 _].
  repeat match goal with |- _ /\ _ => split end;
    try reflexivity; try assumption.
  - revert H1. unfold Validator.validate_student_id.
    destruct (Validator.is_empty (strip i')); [discriminate|].
    destruct ((length i' <? 6) || (20 <? length i')) eqn:E; [discriminate|].
    apply orb_false_iff in E. destruct E as [Ea Eb].
    apply Nat.ltb_ge in Ea. lia.
  - revert H1. unfold Validator.validate_student_id.
    destruct (Validator.is_empty (strip i')); [discriminate|].
    destruct ((length i' <? 6) || (20 <? length i')) eqn:E; [discriminate|].
    apply orb_false_iff in E. destruct E as [Ea Eb].
    apply Nat.ltb_ge in Eb. lia.
  - revert H2. unfold Validator.validate_name. rewrite S2.
    intros K. apply validate_len_inv in K. lia.
  - revert H2. unfold Validator.validate_name. rewrite S2.
    intros K. apply validate_len_inv in K. lia.
  - revert H3. unfold Validator.validate_gender.
    rewrite orb_true_iff, !str_eqb_spec. tauto.
  - revert H4. unfold Validator.validate_age. simpl.
    destruct ((a' <? 15)%Z || (50 <=? a')%Z) eqn:E; [discriminate|].
    apply orb_false_iff in E. destruct E as [Ea Eb].
    apply Z.ltb_ge in Ea. lia.
  - revert H4. unfold Validator.validate_age. simpl.
    destruct ((a' <? 15)%Z || (50 <=? a')%Z) eqn:E; [discriminate|].
    apply orb_false_iff in E. destruct E as [Ea Eb].
    apply Z.leb_gt in Eb. lia.
  - revert H5. unfold Validator.validate_class_name. rewrite S5.
    destruct c' as [|x c']; [discriminate|]. intros _. simpl; lia.
  - revert H5. unfold Validator.validate_class_name. rewrite S5.
    destruct (Validator.is_empty c'); [discriminate|].
    destruct (20 <? length c') eqn:E; [discriminate|].
    apply Nat.ltb_ge in E. intros _; exact E.
  - revert H6. unfold Validator.validate_contact. rewrite S6.
    destruct k' as [|x k']; [discriminate|]. intros _. simpl; lia.
  - revert H6. unfold Validator.validate_contact. rewrite S6.
    destruct (Validator.is_empty k'); [discriminate|].
    destruct (50 <? length k') eqn:E; [discriminate|].
    apply Nat.ltb_ge in E. intros _; exact E.
Qed.

Lemma X2_constructor_postcondition_witness :
  Student._name Scenario.student1 = Scenario.zhang_san /\
  py_int (VStr (lit " 20 ")) = Ret 20%Z /\
  strip (Student._class_name Scenario.student1)
  = Student._class_name Scenario.student1.
Proof.
  assert (H : Student.__init__
                (VStr Scenario.id1)
                (VStr (32 :: Scenario.zhang_san ++ [32; 10])%N)
                (VStr Validator.male) (VStr (lit " 20 "))
                (VStr (lit "CS-1 ")) (VStr (lit "13800138001"))
              = Ret Scenario.student1) by (vm_compute; reflexivity).
  pose proof (X2_constructor_postcondition _ _ _ _ _ _ H) as P.
  split; [reflexivity|]. split; [apply P|apply P].
Defined.

(** X3.  [update_info] never leaves a field with a value its rule
    rejects and never changes the id: whatever the keyword arguments, and
    also when the call raises after some fields were assigned, a valid
    record stays a valid record with the same id. *)
Theorem X3_update_info_keeps_record_valid
  (kwargs : dict value) (st : Student.t) :
  valid_student st = true ->
  valid_student (snd (Student.update_info kwargs st)) = true /\
  Student._student_id (snd (Student.update_info kwargs st))
  = Student._student_id st.
Proof.
  intros H. unfold Student.update_info.
  destruct (Student.binds [lit "self"] kwargs); simpl; [|auto].
  split; [apply update_info_from_valid; exact H
         |apply update_info_from_student_id].
Qed.

Lemma X3_update_info_keeps_record_valid_witness :
  valid_student
    (snd (Student.update_info
            [(lit "name", VStr Scenario.li_si); (lit "age", VInt 10)]
            Scenario.student1)) = true /\
  Student._student_id
    (snd (Student.update_info
            [(lit "name", VStr Scenario.li_si); (lit "age", VInt 10)]
            Scenario.student1)) = Scenario.id1.
Proof.
  apply (@X3_update_info_keeps_record_valid
           [(lit "name", VStr Scenario.li_si); (lit "age", VInt 10)]
           Scenario.student1).
  vm_compute. reflexivity.
Defined.

Lemma update_info_from_result kwargs :
  forall hc st b st',
    Student.update_info_from hc kwargs st = (Ret b, st') ->
    b = hc || existsb (fun kv => negb (Student.is_None (snd kv))) kwargs
    /\ (b = false -> st' = st).
Proof.
  induction kwargs as [|[key v] rest IH]; intros hc st b st'.
  - simpl. intros H; injection H as <- <-.
    rewrite orb_false_r. auto.
  - cbn [Student.update_info_from existsb snd].
    destruct (str_eqb key (lit "student_id")); [discriminate|].
    destruct (negb (Student.str_in key Student.allowed_fields));
      [discriminate|].
    destruct (Student.is_None v); simpl negb.
    + intros H. apply IH in H. exact H.
    + destruct (Student.setattr st key v) as [st1|e]; [|discriminate].
      intros H. apply IH in H. destruct H as [-> _].
      simpl. rewrite orb_true_r. split; [reflexivity|discriminate].
Qed.

(** X4.  When [update_info] returns, it returns [True] exactly when some
    keyword argument has a value other than [None], whether or not that
    value differs from the one the record had; when it returns [False]
    the record is unchanged. *)
Theorem X4_update_info_reports_assignments
  (kwargs : dict value) (st st' : Student.t) (b : bool) :
  Student.update_info kwargs st = (Ret b, st') ->
  b = existsb (fun kv => negb (Student.is_None (snd kv))) kwargs /\
  (b = false -> st' = st).
Proof.
  unfold Student.update_info.
  destruct (Student.binds [lit "self"] kwargs); [|discriminate].
  intros H. apply update_info_from_result in H. exact H.
Qed.

Lemma X4_update_info_reports_assignments_witness :
  true = existsb (fun kv => negb (Student.is_None (snd kv)))
           [(lit "gender", VNone); (lit "age", VInt 20)] /\
  (true = false -> Scenario.student1 = Scenario.student1).
Proof.
  apply (@X4_update_info_reports_assignments
           [(lit "gender", VNone); (lit "age", VInt 20)]
           Scenario.student1 Scenario.student1 true).
  vm_compute. reflexivity.
Defined.

Lemma validate_student_id_iff (v : value) :
  Validator.validate_student_id v = true <->
  exists s, v = VStr s /\ 6 <= length s <= 20 /\
            (forallb is_ascii_digit s = true \/
             exists d, s = d ++ [10%N] /\ forallb is_ascii_digit d = true).
Proof.
  split.
  - destruct v as [| | |s| |]; try discriminate.
    unfold Validator.validate_student_id.
    destruct (Validator.is_empty (strip s)); [discriminate|].
    destruct ((length s <? 6) || (20 <? length s)) eqn:L; [discriminate|].
    destruct (Re.match_anchored Validator.student_id_pattern s) eqn:M;
      [|discriminate].
    intros _. exists s. split; [reflexivity|].
    apply orb_false_iff in L. destruct L as [L1 L2].
    apply Nat.ltb_ge in L1, L2. split; [lia|].
    apply (@match_anchored_within is_ascii_digit) in M; [exact M|].
    simpl. auto.
  - intros (s & -> & L & D).
    unfold Validator.validate_student_id.
    assert (B : Validator.is_empty (strip s) = false).
    { assert (exists c, In c s /\ is_ascii_digit c = true) as (c & Hc & Dc).
      { destruct D as [D | (d & -> & D)].
        - destruct s as [|c s]; [simpl in L; lia|].
          exists c. simpl in D. apply andb_true_iff in D. simpl. tauto.
        - destruct d as [|c d].
          { simpl in L. lia. }
          exists c. simpl in D. apply andb_true_iff in D. simpl. tauto. }
      pose proof (@strip_not_blank s c Hc (digit_not_space _ Dc)).
      destruct (strip s); [congruence|reflexivity]. }
    rewrite B.
    assert (L' : (length s <? 6) || (20 <? length s) = false).
    { apply orb_false_iff. split; apply Nat.ltb_ge; lia. }
    rewrite L'.
    assert (M : Re.match_anchored Validator.student_id_pattern s = true).
    { unfold Re.match_anchored, Validator.student_id_pattern.
      destruct D as [D | (d & -> & D)].
      - rewrite fullmatch_Plus_Cls.
        destruct s; [simpl in L; lia|]. rewrite D. reflexivity.
      - rewrite rev_app_distr. cbn [rev app].
        rewrite rev_involutive, (fullmatch_Plus_Cls _ d).
        destruct d; [simpl in L; lia|]. rewrite D.
        apply orb_true_r. }
    rewrite M. reflexivity.
Qed.

(** X5.  [Validator.validate_student_id] accepts exactly the strings of
    6 to 20 characters that are ASCII digits only, or ASCII digits
    followed by one newline, which counts as one of the characters; a
    value that is not a string is rejected. *)
Theorem X5_validate_student_id_accepts (v : value) :
  Validator.validate_student_id v = true <->
  exists s, v = VStr s /\ 6 <= length s <= 20 /\
            (forallb is_ascii_digit s = true \/
             exists d, s = d ++ [10%N] /\ forallb is_ascii_digit d = true).
Proof. apply validate_student_id_iff. Qed.

(* ------------------------------------------------------------------ *)
(** ** The whole-record check of the validator *)










(* ================================================================== *)
(** * Further properties of the store *)
(* ================================================================== *)

(** ** [backup_data], [restore_data], [clear_data] *)

Lemma getsize_zero t :
  N.eqb (fold_right (fun c n => (Os.utf8_size c + n)%N) 0%N t) 0
  = match t with [] => true | _ => false end.
Proof.
  destruct t as [|c t]; [reflexivity|]. simpl fold_right.
  apply N.eqb_neq. unfold Os.utf8_size.
  repeat match goal with |- context [if ?b then _ else _] => destruct b end;
    lia.
Qed.

Lemma backup_data_eq self backup_dir s :
  DataManager.backup_data self backup_dir s =
  let dir_present :=
    match files s backup_dir with Some _ => true | None => dirs s backup_dir end in
  if negb dir_present && denied s backup_dir then (Raise BackupRestoreError, s)
  else
    let s1 := if dir_present then s else add_dir backup_dir s in
    match files s (DataManager._data_file self) with
    | None =>
        (if dirs s1 (DataManager._data_file self)
         then Raise BackupRestoreError else Raise EmptyDataError, s1)
    | Some [] => (Raise EmptyDataError, s1)
    | Some t =>
        let p := backup_path backup_dir s in
        if String.eqb (DataManager._data_file self) p
           || (denied s p || dirs s1 p)
        then (Raise BackupRestoreError, s1)
        else (Ret p, set_file p (Some t) s1)
    end.
Proof.
  unfold DataManager.backup_data, backup_path.
  unfold try_except, bind, ret, raise, Os.exists_, Os.makedirs, Os.getsize,
    Os.now, Os.copy2.
  destruct (files s backup_dir) as [x|] eqn:Fd; cbn [negb andb].
  - cbv beta iota.
    destruct (files s (DataManager._data_file self)) as [t|] eqn:Ff;
      cbn [negb].
    + cbv beta iota. rewrite Ff. cbv beta iota. rewrite getsize_zero.
      destruct t as [|c t]; [reflexivity|].
      cbv beta iota. rewrite Ff.
      destruct (String.eqb _ _); [reflexivity|]. cbn [orb].
      destruct (denied s _ || dirs s _); reflexivity.
    + destruct (dirs s (DataManager._data_file self)) eqn:Df; cbn [negb];
        cbv beta iota; [|reflexivity].
      rewrite Ff, Df. cbv beta iota. cbn [N.eqb]. cbv beta iota.
      rewrite Ff. reflexivity.
  - destruct (dirs s backup_dir) eqn:Dd; cbn [negb andb].
    + cbv beta iota.
      destruct (files s (DataManager._data_file self)) as [t|] eqn:Ff;
        cbn [negb].
      * cbv beta iota. rewrite Ff. cbv beta iota. rewrite getsize_zero.
        destruct t as [|c t]; [reflexivity|].
        cbv beta iota. rewrite Ff.
        destruct (String.eqb _ _); [reflexivity|]. cbn [orb].
        destruct (denied s _ || dirs s _); reflexivity.
      * destruct (dirs s (DataManager._data_file self)) eqn:Df; cbn [negb];
          cbv beta iota; [|reflexivity].
        rewrite Ff, Df. cbv beta iota. cbn [N.eqb]. cbv beta iota.
        rewrite Ff. reflexivity.
    + destruct (denied s backup_dir) eqn:Nd; [reflexivity|].
      cbv beta iota. cbn [files add_dir dirs denied clock].
      destruct (files s (DataManager._data_file self)) as [t|] eqn:Ff;
        cbn [negb].
      * cbv beta iota. cbn [files add_dir dirs denied clock].
        rewrite Ff. cbv beta iota. rewrite getsize_zero.
        destruct t as [|c t]; [reflexivity|].
        cbv beta iota. cbn [files add_dir dirs denied clock]. rewrite Ff.
        destruct (String.eqb (DataManager._data_file self) _); [reflexivity|].
        cbn [orb].
        match goal with
        | |- context [denied s ?p || ?d] => destruct (denied s p || d)
        end; reflexivity.
      * match goal with
        | |- context [if ?b then true else dirs s ?f] =>
            destruct (if b then true else dirs s f) eqn:Df
        end; cbn [negb]; cbv beta iota; [|reflexivity].
        cbn [files add_dir dirs denied clock]. rewrite Ff, Df.
        cbv beta iota. cbn [N.eqb]. cbv beta iota.
        cbn [files add_dir dirs denied clock]. rewrite Ff. reflexivity.
Qed.

Lemma backup_data_effect self backup_dir s s' r :
  DataManager.backup_data self backup_dir s = (r, s') ->
  files s' (DataManager._data_file self)
  = files s (DataManager._data_file self) /\
  (forall q, q <> backup_path backup_dir s -> files s' q = files s q) /\
  match r with
  | Ret p =>
      p = backup_path backup_dir s /\
      p <> DataManager._data_file self /\
      exists t, files s (DataManager._data_file self) = Some t /\ t <> [] /\
                files s' p = Some t
  | Raise e =>
      (e = EmptyDataError \/ e = BackupRestoreError) /\
      forall q, files s' q = files s q
  end.
Proof.
  rewrite backup_data_eq. cbv zeta.
  set (dp := match files s backup_dir with
             | Some _ => true | None => dirs s backup_dir end).
  assert (F1 : forall q, files (if dp then s else add_dir backup_dir s) q
                         = files s q) by (destruct dp; reflexivity).
  destruct (negb dp && denied s backup_dir).
  { intros H; injection H as <- <-. auto. }
  destruct (files s (DataManager._data_file self)) as [t|] eqn:Ff.
  - destruct t as [|c t].
    { intros H; injection H as <- <-. rewrite F1. auto. }
    destruct (String.eqb (DataManager._data_file self)
                         (backup_path backup_dir s)) eqn:Es; cbn [orb].
    { intros H; injection H as <- <-. rewrite F1. auto. }
    match goal with |- context [if ?b then _ else _] => destruct b end.
    { intros H; injection H as <- <-. rewrite F1. auto. }
    intros H; injection H as <- <-.
    apply String.eqb_neq in Es.
    repeat split.
    + rewrite files_set_file_other by exact Es. rewrite F1. exact Ff.
    + intros q Hq. rewrite files_set_file_other by exact Hq. apply F1.
    + intros E. apply Es. symmetry. exact E.
    + exists (c :: t). repeat split; [discriminate|].
      apply files_set_file_same.
  - intros H; injection H as <- <-. rewrite F1.
    repeat split; auto.
    match goal with |- context [if ?b then _ else _] => destruct b end; auto.
Qed.

(** X7.  [backup_data] changes no file but the backup it writes, and
    never the data file.  When it returns, it returns the path made of
    the directory, [students_backup_], the time and [.json]; that path
    is not the data file, the data file is not empty and the backup
    holds its text.  When it raises, it raises [EmptyDataError] or
    [BackupRestoreError] and no file has changed. *)
Theorem X7_backup_copies_the_data_file
  (self : DataManager.t) (backup_dir : path) (s s' : os_state)
  (r : outcome path) :
  DataManager.backup_data self backup_dir s = (r, s') ->
  files s' (DataManager._data_file self)
  = files s (DataManager._data_file self) /\
  (forall q, q <> backup_path backup_dir s -> files s' q = files s q) /\
  match r with
  | Ret p =>
      p = backup_path backup_dir s /\
      p <> DataManager._data_file self /\
      exists t, files s (DataManager._data_file self) = Some t /\ t <> [] /\
                files s' p = Some t
  | Raise e =>
      (e = EmptyDataError \/ e = BackupRestoreError) /\
      forall q, files s' q = files s q
  end.
Proof. apply backup_data_effect. Qed.

Lemma X7_backup_copies_the_data_file_witness :
  files (snd (DataManager.backup_data Scenario.dm "data/backups"
                (StudentManager.os Scenario.w2)))
        "data/backups/students_backup_20240101_120000.json"
  = files (StudentManager.os Scenario.w2) Scenario.data_file.
Proof.
  destruct (@X7_backup_copies_the_data_file Scenario.dm "data/backups"
              (StudentManager.os Scenario.w2)
              (snd (DataManager.backup_data Scenario.dm "data/backups"
                      (StudentManager.os Scenario.w2)))
              (Ret "data/backups/students_backup_20240101_120000.json"%string))
    as (_ & _ & _ & _ & t & E1 & _ & E2).
  - vm_compute. reflexivity.
  - exact (eq_trans E2 (eq_sym E1)).
Defined.

(** X8.  When [restore_data] returns, it returns [True]; the data file
    and the backup file were not empty; the text the data file had is
    kept at the path of the backup made before restoring; the data file
    now holds the text of the backup file, unless the backup file is at
    that very path, in which case it was overwritten first and the data
    file holds what it held before; no other file has changed. *)
Theorem X8_restore_replaces_the_data_file
  (self : DataManager.t) (backup_file : path) (s s' : os_state) (r : bool) :
  DataManager.restore_data self backup_file s = (Ret r, s') ->
  r = true /\
  exists old new,
    files s (DataManager._data_file self) = Some old /\ old <> [] /\
    files s backup_file = Some new /\ new <> [] /\
    files s' (backup_path DataManager.default_backup_dir s) = Some old /\
    files s' (DataManager._data_file self)
    = Some (if String.eqb (backup_path DataManager.default_backup_dir s)
                          backup_file
            then old else new) /\
    forall q, q <> backup_path DataManager.default_backup_dir s ->
              q <> DataManager._data_file self ->
              files s' q = files s q.
Proof.
  unfold DataManager.restore_data.
  unfold try_except, bind, ret, raise, Os.exists_, Os.getsize, Os.copy2.
  intros H. set (p := backup_path DataManager.default_backup_dir s).
  assert (G : exists new s1 pp,
             files s backup_file = Some new /\ new <> [] /\
             DataManager.backup_data self DataManager.default_backup_dir s
             = (Ret pp, s1) /\
             exists t, files s1 backup_file = Some t /\
                       String.eqb backup_file (DataManager._data_file self)
                       = false /\
                       s' = set_file (DataManager._data_file self) (Some t) s1
                       /\ r = true).
  { revert H.
    destruct (files s backup_file) as [new|] eqn:Fb; cbn [negb].
    - cbv beta iota. rewrite Fb. cbv beta iota. rewrite getsize_zero.
      destruct new as [|c new]; [discriminate|].
      cbv beta iota.
      destruct (DataManager.backup_data self DataManager.default_backup_dir s)
        as [[pp|e] s1] eqn:B; cbv beta iota; [|destruct e; discriminate].
      destruct (files s1 backup_file) as [t|] eqn:F1; [|discriminate].
      destruct (String.eqb backup_file (DataManager._data_file self)) eqn:Eb;
        [discriminate|].
      destruct (denied s1 _ || dirs s1 _); [discriminate|].
      intros H; injection H as <- <-.
      exists (c :: new), s1, pp. repeat split; [discriminate|].
      exists t. auto.
    - destruct (dirs s backup_file) eqn:Db; cbn [negb]; cbv beta iota;
        [|discriminate].
      rewrite Fb, Db. cbv beta iota. cbn [N.eqb]. cbv beta iota.
      destruct (DataManager.backup_data self DataManager.default_backup_dir s)
        as [[pp|e] s1] eqn:B; cbv beta iota; [|destruct e; discriminate].
      pose proof (backup_data_effect _ _ _ B) as (_ & K & _).
      destruct (files s1 backup_file) as [t|] eqn:F1; [|discriminate].
      exfalso.
      destruct (String.eqb_spec backup_file
                  (backup_path DataManager.default_backup_dir s)) as [E|E].
      + revert B. rewrite backup_data_eq. cbv zeta.
        destruct (_ && _); [discriminate|].
        destruct (files s (DataManager._data_file self)) as [[|c t0]|];
          [discriminate| |
           match goal with
           | |- (if ?b then _ else _, _) = _ -> _ => destruct b
           end; discriminate].
        rewrite <- E.
        assert (dirs (if match files s DataManager.default_backup_dir with
                         | Some _ => true
                         | None => dirs s DataManager.default_backup_dir
                         end
                      then s else add_dir DataManager.default_backup_dir s)
                     backup_file = true) as ->.
        { destruct (match files s DataManager.default_backup_dir with
                    | Some _ => true
                    | None => dirs s DataManager.default_backup_dir
                    end); [exact Db|].
          simpl. rewrite Db. destruct (String.eqb _ _); reflexivity. }
        rewrite !orb_true_r. discriminate.
      + rewrite (K _ E), Fb in F1. discriminate. }
  destruct G as (new & s1 & pp & Fb & Nn & B & t & F1 & Eb & -> & ->).
  pose proof (backup_data_effect _ _ _ B)
    as (Kd & K & -> & Np & old & Fo & No & Fp).
  fold p in K, Fp, B, Np.
  apply String.eqb_neq in Eb.
  split; [reflexivity|].
  exists old, new. repeat split; try assumption.
  - rewrite files_set_file_other by assumption. exact Fp.
  - rewrite files_set_file_same. f_equal.
    destruct (String.eqb_spec p backup_file) as [E|E].
    + rewrite <- E, Fp in F1. injection F1 as <-. reflexivity.
    + rewrite K, Fb in F1 by (intros X; apply E; symmetry; exact X).
      injection F1 as <-. reflexivity.
  - intros q Hq1 Hq2. rewrite files_set_file_other by assumption.
    apply K. exact Hq1.
Qed.

Lemma X8_restore_replaces_the_data_file_witness :
  exists old new,
    files Scenario.os_with_import Scenario.data_file = Some old /\
    files Scenario.os_with_import Scenario.import_file = Some new /\
    files (snd (DataManager.restore_data Scenario.dm Scenario.import_file
                  Scenario.os_with_import)) Scenario.data_file
    = Some new.
Proof.
  destruct (@X8_restore_replaces_the_data_file Scenario.dm
              Scenario.import_file Scenario.os_with_import
              (snd (DataManager.restore_data Scenario.dm Scenario.import_file
                      Scenario.os_with_import)) true)
    as (_ & old & new & E1 & _ & E2 & _ & _ & E3 & _).
  - vm_compute. reflexivity.
  - exists old, new. repeat split; assumption.
Defined.

Lemma backup_data_dirs self backup_dir s s' r q :
  DataManager.backup_data self backup_dir s = (r, s') ->
  dirs s' q = true ->
  dirs s q = true \/ (q = backup_dir /\ files s backup_dir = None).
Proof.
  rewrite backup_data_eq. cbv zeta.
  destruct (files s backup_dir) as [x|] eqn:Fd.
  - cbn [negb andb].
    destruct (files s (DataManager._data_file self)) as [[|c t]|].
    + intros H; injection H as <- <-. auto.
    + destruct (_ || _); intros H; injection H as <- <-; auto.
    + intros H; injection H as _ <-. auto.
  - destruct (dirs s backup_dir) eqn:Dd; cbn [negb andb].
    + destruct (files s (DataManager._data_file self)) as [[|c t]|].
      * intros H; injection H as <- <-. auto.
      * destruct (_ || _); intros H; injection H as <- <-; auto.
      * intros H; injection H as _ <-. auto.
    + assert (G : dirs (add_dir backup_dir s) q = true ->
                  dirs s q = true \/ q = backup_dir /\ None = None (A:=pystr)).
      { simpl. destruct (String.eqb_spec q backup_dir); auto. }
      destruct (denied s backup_dir).
      { intros H; injection H as <- <-. auto. }
      destruct (files s (DataManager._data_file self)) as [[|c t]|].
      * intros H; injection H as <- <-. exact G.
      * destruct (_ || _); intros H; injection H as <- <-; exact G.
      * intros H; injection H as _ <-. exact G.
Qed.

(** X9.  When [clear_data] returns, it returns [True], the data file is
    gone, and no file has changed but the data file and the backup made
    before deleting; unless the path of the data file is a directory,
    [load_data] then returns the empty dict. *)
Theorem X9_clear_leaves_an_empty_store
  (self : DataManager.t) (s s' : os_state) (r : bool) :
  DataManager.clear_data self s = (Ret r, s') ->
  r = true /\
  files s' (DataManager._data_file self) = None /\
  (forall q, q <> DataManager._data_file self ->
             q <> backup_path DataManager.default_backup_dir s ->
             files s' q = files s q) /\
  (dirs s (DataManager._data_file self) = false ->
   DataManager.load_data self s' = (Ret (VDict []), s')).
Proof.
  unfold DataManager.clear_data.
  unfold try_except at 1. unfold bind at 1. unfold bind at 1.
  unfold Os.exists_ at 1.
  destruct (files s (DataManager._data_file self)) as [t|] eqn:Ff.
  - unfold bind at 1. unfold try_except at 1. unfold bind at 1.
    destruct (DataManager.backup_data self DataManager.default_backup_dir s)
      as [r1 s1] eqn:B.
    pose proof (backup_data_effect _ _ _ B) as (Kd & K & _).
    assert (E : (let (o, s'0) :=
                   match r1 with
                   | Ret _ => ret tt s1
                   | Raise e => (Raise e, s1)
                   end in
                 match o with
                 | Ret a => (Ret a, s'0)
                 | Raise _ => ret tt s'0
                 end) = (Ret tt, s1)) by (destruct r1; reflexivity).
    rewrite E. unfold Os.remove, ret, DataManager.as_DataIOError, raise.
    rewrite Kd, Ff.
    destruct (denied s1 (DataManager._data_file self)); [discriminate|].
    intros H; injection H as <- <-.
    repeat split.
    + apply files_set_file_same.
    + intros q Hq1 Hq2. rewrite files_set_file_other by exact Hq1.
      apply K. exact Hq2.
    + intros Df. apply load_data_absent.
      * apply files_set_file_same.
      * simpl. destruct (dirs s1 (DataManager._data_file self)) eqn:D1;
          [|reflexivity].
        destruct (backup_data_dirs _ _ _ _ B D1) as [X | [X1 X2]].
        -- rewrite Df in X. discriminate.
        -- rewrite <- X1, Ff in X2. discriminate.
  - destruct (dirs s (DataManager._data_file self)) eqn:Df.
    + unfold bind at 1. unfold try_except at 1. unfold bind at 1.
      destruct (DataManager.backup_data self DataManager.default_backup_dir s)
        as [r1 s1] eqn:B.
      pose proof (backup_data_effect _ _ _ B) as (Kd & K & _).
      assert (E : (let (o, s'0) :=
                     match r1 with
                     | Ret _ => ret tt s1
                     | Raise e => (Raise e, s1)
                     end in
                   match o with
                   | Ret a => (Ret a, s'0)
                   | Raise _ => ret tt s'0
                   end) = (Ret tt, s1)) by (destruct r1; reflexivity).
      rewrite E. unfold Os.remove, ret, DataManager.as_DataIOError, raise.
      rewrite Kd, Ff. discriminate.
    + unfold ret. intros H; injection H as <- <-.
      repeat split; auto.
      intros _. apply load_data_absent; assumption.
Qed.

Lemma X9_clear_leaves_an_empty_store_witness :
  DataManager.load_data Scenario.dm
    (snd (DataManager.clear_data Scenario.dm (StudentManager.os Scenario.w2)))
  = (Ret (VDict []),
     snd (DataManager.clear_data Scenario.dm (StudentManager.os Scenario.w2))).
Proof.
  destruct (@X9_clear_leaves_an_empty_store Scenario.dm
              (StudentManager.os Scenario.w2)
              (snd (DataManager.clear_data Scenario.dm
                      (StudentManager.os Scenario.w2))) true)
    as (_ & _ & _ & L).
  - vm_compute. reflexivity.
  - apply L. vm_compute. reflexivity.
Defined.

(** ** [save_data] and [export_data] *)

Lemma encodable_escape_char_eq c :
  encodable_str (Json.escape_char c) = encodable_char c.
Proof.
  destruct (encodable_char c) eqn:E.
  - apply encodable_escape_char. exact E.
  - unfold encodable_char in E. apply negb_false_iff in E.
    unfold is_surrogate, in_range in E.
    apply andb_true_iff in E. destruct E as [E1 E2].
    apply N.leb_le in E1, E2.
    unfold Json.escape_char.
    repeat match goal with
           | |- context [if N.eqb c ?n then _ else _] =>
               destruct (N.eqb_spec c n); [exfalso; lia|]
           end.
    destruct (N.ltb_spec c 32); [exfalso; lia|].
    simpl. unfold encodable_char, is_surrogate, in_range.
    apply N.leb_le in E1, E2. rewrite E1, E2. reflexivity.
Qed.

Lemma encodable_escape_eq s : encodable_str (Json.escape s) = encodable_str s.
Proof.
  induction s as [|c s IH]; simpl; [reflexivity|].
  rewrite encodable_str_app, encodable_escape_char_eq, IH. reflexivity.
Qed.

Lemma encodable_basestring_eq s :
  encodable_str (Json.encode_basestring s) = encodable_str s.
Proof.
  unfold Json.encode_basestring. simpl.
  rewrite encodable_str_app, encodable_escape_eq. simpl.
  apply andb_true_r.
Qed.

(** The text of a value can be encoded exactly when the value can. *)
Lemma encodable_dumps_at_eq v :
  forall level, encodable_str (dumps_at level v) = encodable v.
Proof.
  induction v as [| b | z | s | l IH | d IH] using value_ind;
    intros level.
  - reflexivity.
  - destruct b; reflexivity.
  - rewrite (scalar_dumps level (VInt z) eq_refl). apply encodable_int_repr.
  - rewrite (scalar_dumps level (VStr s) eq_refl).
    apply encodable_basestring_eq.
  - destruct l as [|x l]; [reflexivity|].
    rewrite dumps_at_list, !encodable_str_app, encodable_newline_indent.
    assert (G : forall buf l,
               Forall (fun v => forall level,
                           encodable_str (dumps_at level v) = encodable v) l ->
               encodable_str buf = true ->
               encodable_str (elems_text level buf l) = forallb encodable l).
    { clear. intros buf l H; revert buf.
      induction H as [|x l Hx Hl IHl]; intros buf Eb; [reflexivity|].
      cbn [elems_text forallb].
      rewrite !encodable_str_app, Eb, Hx, IHl; auto.
      apply encodable_separator. }
    rewrite G; auto; [|apply (encodable_newline_indent (S level))].
    cbn [encodable]. rewrite andb_true_r. reflexivity.
  - destruct d as [|[k x] d]; [reflexivity|].
    rewrite dumps_at_dict, !encodable_str_app, !encodable_newline_indent.
    assert (G : forall first d,
               Forall (fun kv => forall level,
                           encodable_str (dumps_at level (snd kv))
                           = encodable (snd kv)) d ->
               encodable_str (items_text level first d)
               = forallb (fun kv => encodable_str (fst kv)
                                    && encodable (snd kv)) d).
    { clear. intros first d H; revert first.
      induction H as [|[k x] d Hx Hd IHd]; intros first; [reflexivity|].
      cbn [items_text forallb fst snd].
      rewrite !encodable_str_app, encodable_basestring_eq, IHd.
      simpl in Hx. rewrite Hx.
      destruct first;
        [unfold encodable_str at 1; cbn [forallb]
        |rewrite encodable_separator];
        change (encodable_str (lit ": ")) with true; cbn [andb];
        apply andb_assoc. }
    rewrite G; auto.
    cbn [encodable]. simpl. rewrite andb_true_r. reflexivity.
Qed.

Lemma encodable_str_surrogate c :
  encodable_str c = negb (existsb is_surrogate c).
Proof.
  induction c as [|x c IH]; simpl; [reflexivity|].
  rewrite IH, negb_orb. reflexivity.
Qed.

(** What [written] keeps is the beginning of the text, all of it exactly
    when the text can be encoded. *)
Lemma written_prefix chunks :
  snd (Os.written chunks) = encodable_str (concat chunks) /\
  exists rest,
    concat chunks = fst (Os.written chunks) ++ rest /\
    (snd (Os.written chunks) = true -> rest = []) /\
    (snd (Os.written chunks) = false -> rest <> []).
Proof.
  induction chunks as [|c chunks (IH1 & rest & IH2 & IH3 & IH4)].
  - simpl. split; [reflexivity|]. exists []. repeat split; auto; discriminate.
  - cbn [Os.written concat]. rewrite encodable_str_app, encodable_str_surrogate.
    destruct (existsb is_surrogate c) eqn:E.
    + simpl. split; [reflexivity|].
      exists (c ++ concat chunks). repeat split; [discriminate|].
      intros _. destruct c; [discriminate|discriminate].
    + destruct (Os.written chunks) as [t ok]. simpl in *.
      split; [exact IH1|].
      exists rest. rewrite IH2, app_assoc. auto.
Qed.

Lemma head_to_last_sep_bare p :
  bare_name p = true -> Os.head_to_last_sep p = EmptyString.
Proof.
  induction p as [|c p IH]; simpl; [reflexivity|].
  rewrite andb_true_iff, negb_true_iff. intros [Hc Hp].
  rewrite (IH Hp), Hc. reflexivity.
Qed.

Lemma dirname_bare p : bare_name p = true -> Os.dirname p = EmptyString.
Proof.
  intros H. unfold Os.dirname. rewrite (head_to_last_sep_bare _ H).
  reflexivity.
Qed.

Lemma export_data_succeeds self f s v :
  DataManager.load_data self s = (Ret v, s) ->
  encodable v = true ->
  Os.dirname f <> EmptyString ->
  can_make_dir s (Os.dirname f) = true ->
  writable s f = true -> f <> Os.dirname f ->
  DataManager.export_data self f s
  = (Ret' true,
     set_file f (Some (Json.dumps v))
       (if dirs s (Os.dirname f) then s else add_dir (Os.dirname f) s)).
Proof.
  intros L E Nd Cd W Nf.
  pose proof (load_data_value _ _ L) as (Sz & _ & _).
  unfold DataManager.export_data.
  unfold bind at 1. rewrite L.
  unfold bind at 1. unfold lift_outcome at 1.
  rewrite sized_len, Sz.
  assert (P : exists n, py_len v = Ret n)
    by (destruct v; try discriminate Sz; simpl; eauto).
  destruct P as [n ->].
  unfold bind at 1. unfold Os.makedirs_exist_ok at 1.
  destruct (Os.dirname f) as [|c d] eqn:Ed; [congruence|].
  unfold can_make_dir in Cd. unfold writable in W.
  apply andb_true_iff in W. destruct W as [W1 W2].
  apply negb_true_iff in W1, W2.
  assert (Wr : forall s1, denied s1 f = false -> dirs s1 f = false ->
            (let (o, s'0) :=
               Os.write_chunks f (Json.iterencode 0 v) s1 in
             match o with
             | Ret _ => ret true s'0
             | Raise e => (Raise e, s'0)
             end) = (Ret true, set_file f (Some (Json.dumps v)) s1)).
  { intros s1 D1 D2. unfold Os.write_chunks. rewrite D1, D2. cbn [orb].
    rewrite written_encodable
      by (apply (encodable_dumps_at v E 0)).
    reflexivity. }
  destruct (dirs s (String c d)) eqn:Dd.
  - unfold bind at 1. rewrite Wr by assumption. reflexivity.
  - cbn [orb] in Cd.
    destruct (files s (String c d)); [discriminate|].
    apply negb_true_iff in Cd. rewrite Cd.
    unfold bind at 1. rewrite Wr; [reflexivity|exact W1|].
    simpl. rewrite W2.
    destruct (String.eqb_spec f (String c d)); [contradiction|reflexivity].
Qed.

Lemma export_data_raises self f s e s' :
  DataManager.export_data self f s = (Raise' e, s') -> e = UnboundLocalError.
Proof.
  unfold DataManager.export_data.
  match goal with |- context [match ?m with _ => _ end] => destruct m as [[b|x] s1] end;
    intros H; inversion H; reflexivity.
Qed.

Lemma export_data_bare self f s :
  bare_name f = true ->
  DataManager.export_data self f s = (Raise' UnboundLocalError, s).
Proof.
  intros B. unfold DataManager.export_data.
  rewrite (dirname_bare _ B).
  unfold bind at 1.
  destruct (DataManager.load_data self s) as [[v|e] s1] eqn:L.
  - pose proof (load_data_value _ _ L) as (Sz & _ & ->).
    unfold bind at 1. unfold lift_outcome at 1.
    assert (P : exists n, py_len v = Ret n)
      by (destruct v; try discriminate Sz; simpl; eauto).
    destruct P as [n ->]. reflexivity.
  - pose proof (load_data_state self s) as St. rewrite L in St.
    simpl in St. subst s1. reflexivity.
Qed.

Lemma export_data_unloadable self f s e :
  fst (DataManager.load_data self s) = Raise e ->
  DataManager.export_data self f s = (Raise' UnboundLocalError, s).
Proof.
  intros L. unfold DataManager.export_data. unfold bind at 1.
  pose proof (load_data_state self s) as St.
  destruct (DataManager.load_data self s) as [[v|x] s1].
  - discriminate.
  - simpl in St. subst s1. reflexivity.
Qed.


(** X10.  Exporting writes what [load_data] returns: when the data can
    be loaded and encoded, the export path has a directory part that
    exists or can be made, and the export file can be written,
    [export_data] returns [True]; the export file then holds the JSON text
    of the loaded data, which decodes to the same data, and no other file
    has changed. *)
Theorem X10_export_writes_the_loaded_data
  (self : DataManager.t) (export_file : path) (s : os_state) (v : value) :
  DataManager.load_data self s = (Ret v, s) ->
  encodable v = true ->
  Os.dirname export_file <> EmptyString ->
  can_make_dir s (Os.dirname export_file) = true ->
  writable s export_file = true ->
  export_file <> Os.dirname export_file ->
  exists s',
    DataManager.export_data self export_file s = (Ret' true, s') /\
    Os.read_text export_file s' = (Ret (Json.dumps v), s') /\
    Json.loads (Json.dumps v) = Ret v /\
    forall q, q <> export_file -> files s' q = files s q.
Proof.
  intros L E Nd Cd W Nf.
  rewrite (export_data_succeeds _ L E Nd Cd W Nf).
  eexists. split; [reflexivity|].
  pose proof (load_data_value _ _ L) as (_ & Wf & _).
  repeat split.
  - unfold Os.read_text. rewrite files_set_file_same. reflexivity.
  - apply loads_dumps. exact Wf.
  - intros q Hq. rewrite files_set_file_other by exact Hq.
    destruct (dirs s (Os.dirname export_file)); reflexivity.
Qed.

Lemma X10_export_writes_the_loaded_data_witness :
  exists s',
    DataManager.export_data Scenario.dm "export/students.json"
      (StudentManager.os Scenario.w2) = (Ret' true, s') /\
    Os.read_text "export/students.json" s'
    = (Ret (Json.dumps (VDict Scenario.dataset12)), s') /\
    Json.loads (Json.dumps (VDict Scenario.dataset12))
    = Ret (VDict Scenario.dataset12) /\
    forall q, q <> "export/students.json"%string ->
              files s' q = files (StudentManager.os Scenario.w2) q.
Proof.
  apply (@X10_export_writes_the_loaded_data Scenario.dm
           "export/students.json" (StudentManager.os Scenario.w2)
           (VDict Scenario.dataset12)).
  - vm_compute. reflexivity.
  - vm_compute. reflexivity.
  - vm_compute. discriminate.
  - vm_compute. reflexivity.
  - vm_compute. reflexivity.
  - vm_compute. discriminate.
Defined.

(** X11.  [export_data] never raises [DataIOError], nor any other
    exception of the store: whenever it fails, the exception that leaves
    it is [UnboundLocalError].  It fails in this way, writing nothing,
    whenever the export path has no directory part, and whenever the data
    file cannot be loaded. *)
Theorem X11_export_failures
  (self : DataManager.t) (export_file : path) (s : os_state) :
  (forall e s', DataManager.export_data self export_file s = (Raise' e, s') ->
                e = UnboundLocalError) /\
  (bare_name export_file = true ->
   DataManager.export_data self export_file s
   = (Raise' UnboundLocalError, s)) /\
  (forall e, fst (DataManager.load_data self s) = Raise e ->
             DataManager.export_data self export_file s
             = (Raise' UnboundLocalError, s)).
Proof.
  repeat split.
  - intros e s'. apply export_data_raises.
  - apply export_data_bare.
  - intros e. apply export_data_unloadable.
Qed.

Lemma X11_export_failures_witness :
  DataManager.export_data Scenario.dm "students_export.json"
    (StudentManager.os Scenario.w2)
  = (Raise' UnboundLocalError, StudentManager.os Scenario.w2) /\
  DataManager.export_data Scenario.dm "export/students.json"
    Scenario.os_list_store
  = (Ret' true,
     set_file "export/students.json" (Some (lit "[]"))
       (add_dir "export" Scenario.os_list_store)).
Proof.
  split.
  - apply (proj1 (proj2 (@X11_export_failures Scenario.dm
                           "students_export.json"
                           (StudentManager.os Scenario.w2)))).
    vm_compute. reflexivity.
  - vm_compute. reflexivity.
Defined.

(** X12.  [DataManager(data_file)] refuses the empty path with
    [SystemConfigError].  When it returns, the manager holds the path,
    no file has changed, and the directory part of the path, if it has
    one, exists.  It fails otherwise only when that directory is missing
    and cannot be made, with [SystemConfigError], having changed
    nothing. *)
Theorem X12_constructor_ensures_the_directory
  (data_file : path) (s : os_state) :
  match DataManager.__init__ data_file s with
  | (Ret' self, s') =>
      DataManager._data_file self = data_file /\
      data_file <> EmptyString /\
      (forall q, files s' q = files s q) /\
      (Os.dirname data_file = EmptyString
       \/ fst (Os.exists_ (Os.dirname data_file) s') = Ret true)
  | (Raise' e, s') =>
      e = SystemConfigError /\ s' = s /\
      (data_file = EmptyString \/
       (fst (Os.exists_ (Os.dirname data_file) s) = Ret false /\
        denied s (Os.dirname data_file) = true))
  end.
Proof.
  unfold DataManager.__init__.
  destruct data_file as [|c r]; [auto|].
  unfold DataManager._ensure_data_dir_exists. cbn [DataManager._data_file].
  destruct (Os.dirname (String c r)) as [|c' d] eqn:Ed.
  - unfold ret. repeat split; [discriminate|auto].
  - unfold bind, Os.exists_, Os.makedirs, ret.
    destruct (files s (String c' d)) eqn:Fd; cbn [negb].
    + repeat split; [discriminate|]. right. cbn [fst]. rewrite Fd. reflexivity.
    + destruct (dirs s (String c' d)) eqn:Dd; cbn [negb].
      * repeat split; [discriminate|]. right. cbn [fst]. rewrite Fd, Dd.
        reflexivity.
      * destruct (denied s (String c' d)) eqn:Nd.
        -- repeat split. right. cbn [fst]. rewrite ?Fd, ?Dd. auto.
        -- repeat split; [discriminate|]. right. cbn [fst files dirs add_dir].
           rewrite Fd, String.eqb_refl. reflexivity.
Qed.

(** X13.  [save_data] is not atomic.  When the data holds a string that
    UTF-8 cannot encode, on a data file that can be written, [save_data]
    raises [DataIOError] after the file was opened for writing: what the
    file held is lost, and it now holds a proper beginning of the JSON
    text of the data. *)
Theorem X13_failed_save_truncates_the_file
  (self : DataManager.t) (students_data : value) (s : os_state) :
  sized students_data = true ->
  writable s (DataManager._data_file self) = true ->
  encodable students_data = false ->
  exists t rest,
    DataManager.save_data self students_data s
    = (Raise DataIOError,
       set_file (DataManager._data_file self) (Some t) s) /\
    Json.dumps students_data = t ++ rest /\ rest <> [].
Proof.
  intros Sz W E.
  rewrite save_data_eq, Sz, W. cbn [andb].
  destruct (written_prefix (Json.iterencode 0 students_data))
    as (Hs & rest & Hc & _ & Hr).
  fold (dumps_at 0 students_data) in Hs.
  rewrite encodable_dumps_at_eq, E in Hs.
  rewrite Hs.
  exists (fst (Os.written (Json.iterencode 0 students_data))), rest.
  repeat split; [exact Hc|apply Hr; exact Hs].
Qed.

Lemma X13_failed_save_truncates_the_file_witness :
  exists t rest,
    DataManager.save_data Scenario.dm
      (VDict [(lit "a", VStr [0xd800%N])]) (StudentManager.os Scenario.w2)
    = (Raise DataIOError,
       set_file Scenario.data_file (Some t) (StudentManager.os Scenario.w2))
    /\ Json.dumps (VDict [(lit "a", VStr [0xd800%N])]) = t ++ rest
    /\ rest <> [].
Proof.
  apply (@X13_failed_save_truncates_the_file Scenario.dm
           (VDict [(lit "a", VStr [0xd800%N])])
           (StudentManager.os Scenario.w2)).
  - reflexivity.
  - vm_compute. reflexivity.
  - vm_compute. reflexivity.
Defined.

(** X14.  What one store exports, another imports: after
    [export_data(f)] of a store whose data is a dict, [import_data(f,
    overwrite=True)] of a second store returns that dict, and the second
    store then loads exactly that dict. *)
Theorem X14_import_reads_an_export
  (a b : DataManager.t) (f : path) (s : os_state) (d : dict value) :
  DataManager.load_data a s = (Ret (VDict d), s) ->
  encodable (VDict d) = true ->
  Os.dirname f <> EmptyString ->
  can_make_dir s (Os.dirname f) = true ->
  writable s f = true -> f <> Os.dirname f ->
  writable s (DataManager._data_file b) = true ->
  DataManager._data_file b <> Os.dirname f ->
  exists s1 s2,
    DataManager.export_data a f s = (Ret' true, s1) /\
    DataManager.import_data b f true s1 = (Ret (VDict d), s2) /\
    DataManager.load_data b s2 = (Ret (VDict d), s2).
Proof.
  intros L E Nd Cd W Nf Wb Nb.
  rewrite (export_data_succeeds _ L E Nd Cd W Nf).
  pose proof (load_data_value _ _ L) as (_ & Wf & _).
  set (s0 := if dirs s (Os.dirname f) then s else add_dir (Os.dirname f) s).
  set (s1 := set_file f (Some (Json.dumps (VDict d))) s0).
  assert (W1 : writable s1 (DataManager._data_file b) = true).
  { revert Wb. unfold writable, s1, s0. simpl.
    destruct (dirs s (Os.dirname f)); [auto|]. simpl.
    destruct (String.eqb_spec (DataManager._data_file b) (Os.dirname f));
      [contradiction|auto]. }
  exists s1. eexists. split; [reflexivity|].
  assert (F1 : files s1 f = Some (Json.dumps (VDict d)))
    by apply files_set_file_same.
  rewrite (import_overwrite b _ _ F1 (loads_dumps _ Wf) E W1).
  split; [reflexivity|].
  eapply load_data_reads.
  - apply files_set_file_same.
  - apply loads_dumps. exact Wf.
  - reflexivity.
Qed.

Lemma X14_import_reads_an_export_witness :
  exists s1 s2,
    DataManager.export_data Scenario.dm "export/students.json"
      (StudentManager.os Scenario.w2) = (Ret' true, s1) /\
    DataManager.import_data (DataManager.mk "copy/students.json")
      "export/students.json" true s1
    = (Ret (VDict Scenario.dataset12), s2) /\
    DataManager.load_data (DataManager.mk "copy/students.json") s2
    = (Ret (VDict Scenario.dataset12), s2).
Proof.
  apply (@X14_import_reads_an_export Scenario.dm
           (DataManager.mk "copy/students.json") "export/students.json"
           (StudentManager.os Scenario.w2) Scenario.dataset12).
  - vm_compute. reflexivity.
  - vm_compute. reflexivity.
  - vm_compute. discriminate.
  - vm_compute. reflexivity.
  - vm_compute. reflexivity.
  - vm_compute. discriminate.
  - vm_compute. reflexivity.
  - vm_compute. discriminate.
Defined.

(* ================================================================== *)
(** * Further properties of the manager *)
(* ================================================================== *)

(** ** Bounded repetition of a character class *)

Lemma fullmatch_Seq a b s :
  Re.fullmatch (Re.Seq a b) s = true <->
  exists s1 s2, s = s1 ++ s2 /\ Re.fullmatch a s1 = true
                /\ Re.fullmatch b s2 = true.
Proof.
  revert a b. induction s as [|c s IH]; intros a b.
  - simpl. rewrite andb_true_iff. split.
    + intros [H1 H2]. exists [], []. auto.
    + intros (s1 & s2 & E & H1 & H2).
      symmetry in E. apply app_eq_nil in E. destruct E as [-> ->]. auto.
  - cbn [Re.fullmatch Re.deriv].
    destruct (Re.nullable a) eqn:Na.
    + rewrite fullmatch_Alt, orb_true_iff, IH. split.
      * intros [(s1 & s2 & -> & H1 & H2) | H].
        -- exists (c :: s1), s2. auto.
        -- exists [], (c :: s). auto.
      * intros (s1 & s2 & E & H1 & H2).
        destruct s1 as [|c' s1].
        -- right. simpl in E. subst s2. exact H2.
        -- left. injection E as <- ->. exists s1, s2. auto.
    + rewrite IH. split.
      * intros (s1 & s2 & -> & H1 & H2). exists (c :: s1), s2. auto.
      * intros (s1 & s2 & E & H1 & H2).
        destruct s1 as [|c' s1].
        -- simpl in H1. congruence.
        -- injection E as <- ->. exists s1, s2. auto.
Qed.

Lemma fullmatch_Eps s :
  Re.fullmatch Re.Eps s = match s with [] => true | _ => false end.
Proof.
  destruct s as [|c s]; [reflexivity|]. simpl.
  apply dead_fullmatch. reflexivity.
Qed.

Lemma fullmatch_Cls_Seq p r s :
  Re.fullmatch (Re.Seq (Re.Cls p) r) s
  = match s with [] => false | c :: s' => p c && Re.fullmatch r s' end.
Proof.
  destruct s as [|c s]; [reflexivity|]. simpl.
  destruct (p c); simpl.
  - apply fullmatch_Seq_Eps.
  - apply fullmatch_Seq_Void.
Qed.

Lemma fullmatch_rep_Cls p n :
  forall s, Re.fullmatch (Re.rep n (Re.Cls p)) s
            = Nat.eqb (length s) n && forallb p s.
Proof.
  induction n as [|n IH]; intros s.
  - simpl Re.rep. rewrite fullmatch_Eps. destruct s; reflexivity.
  - simpl Re.rep. rewrite fullmatch_Cls_Seq.
    destruct s as [|c s]; [reflexivity|].
    rewrite IH. simpl. destruct (p c); simpl;
      [reflexivity|rewrite andb_false_r; reflexivity].
Qed.

Lemma fullmatch_upto_Cls p n :
  forall s, Re.fullmatch (Re.upto n (Re.Cls p)) s
            = (length s <=? n) && forallb p s.
Proof.
  induction n as [|n IH]; intros s.
  - simpl Re.upto. rewrite fullmatch_Eps. destruct s; reflexivity.
  - simpl Re.upto. unfold Re.Opt.
    rewrite fullmatch_Alt, fullmatch_Eps, fullmatch_Cls_Seq.
    destruct s as [|c s]; [reflexivity|].
    rewrite IH. simpl. destruct (p c); simpl;
      [reflexivity|rewrite andb_false_r; reflexivity].
Qed.

Lemma fullmatch_rep_range_Cls p lo hi s :
  lo <= hi ->
  Re.fullmatch (Re.rep_range lo hi (Re.Cls p)) s
  = (lo <=? length s) && (length s <=? hi) && forallb p s.
Proof.
  intros L. unfold Re.rep_range.
  destruct ((lo <=? length s) && (length s <=? hi) && forallb p s) eqn:E.
  - apply andb_true_iff in E. destruct E as [E P].
    apply andb_true_iff in E. destruct E as [E1 E2].
    apply Nat.leb_le in E1, E2.
    apply fullmatch_Seq. exists (firstn lo s), (skipn lo s).
    rewrite <- (firstn_skipn lo s) in P.
    rewrite forallb_app in P. apply andb_true_iff in P. destruct P as [P1 P2].
    split; [symmetry; apply firstn_skipn|]. split.
    + rewrite fullmatch_rep_Cls, P1, length_firstn.
      rewrite Nat.min_l by lia. rewrite Nat.eqb_refl. reflexivity.
    + rewrite fullmatch_upto_Cls, P2, length_skipn.
      rewrite andb_true_r. apply Nat.leb_le. lia.
  - destruct (Re.fullmatch _ s) eqn:M; [|reflexivity].
    apply fullmatch_Seq in M. destruct M as (s1 & s2 & -> & M1 & M2).
    rewrite fullmatch_rep_Cls in M1. rewrite fullmatch_upto_Cls in M2.
    apply andb_true_iff in M1, M2. destruct M1 as [A1 B1], M2 as [A2 B2].
    apply Nat.eqb_eq in A1. apply Nat.leb_le in A2.
    rewrite forallb_app, B1, B2, length_app in E.
    rewrite andb_true_r in E.
    apply andb_false_iff in E. destruct E as [E|E].
    + apply Nat.leb_gt in E. lia.
    + apply Nat.leb_gt in E. lia.
Qed.

(** ** The id check of the manager *)

Lemma match_anchored_iff r s :
  Re.match_anchored r s = true <->
  Re.fullmatch r s = true \/
  exists d, s = d ++ [10%N] /\ Re.fullmatch r d = true.
Proof.
  unfold Re.match_anchored. rewrite orb_true_iff. split.
  - intros [M | M]; [left; exact M|right].
    destruct (rev s) as [|c t] eqn:E; [discriminate|].
    destruct c as [|p]; [discriminate|].
    destruct (Pos.eq_dec p 10) as [-> | N].
    + exists (rev t). split; [|exact M].
      rewrite <- (rev_involutive s), E. reflexivity.
    + exfalso. clear - M N.
      do 4 (destruct p; try discriminate; try congruence).
  - intros [M | (d & -> & M)]; [left; exact M|right].
    rewrite rev_app_distr. cbn [rev app]. rewrite rev_involutive. exact M.
Qed.

Lemma manager_id_rule s :
  StudentManager._validate_student_id (VStr s) = true <->
  (3 <= length s <= 20 /\ forallb word_char s = true) \/
  exists d, s = d ++ [10%N] /\ 3 <= length d <= 20
            /\ forallb word_char d = true.
Proof.
  unfold StudentManager._validate_student_id,
    StudentManager.student_id_pattern.
  change (fun c : char => is_ascii_letter c || is_ascii_digit c || N.eqb c 95)
    with word_char.
  rewrite match_anchored_iff.
  assert (G : forall t,
             Re.fullmatch (Re.rep_range 3 20 (Re.Cls word_char)) t = true <->
             3 <= length t <= 20 /\ forallb word_char t = true).
  { intros t. rewrite fullmatch_rep_range_Cls by lia.
    rewrite !andb_true_iff, !Nat.leb_le. tauto. }
  rewrite G. split.
  - intros [H | (d & E & H)]; [left; exact H|right].
    exists d. apply G in H. tauto.
  - intros [H | (d & E & H)]; [left; exact H|right].
    exists d. rewrite G. tauto.
Qed.

Lemma digit_word_char c : is_ascii_digit c = true -> word_char c = true.
Proof. intros H. unfold word_char. rewrite H, orb_true_r. reflexivity. Qed.

Lemma validator_id_manager_id s :
  Validator.validate_student_id (VStr s) = true ->
  StudentManager._validate_student_id (VStr s) = true.
Proof.
  intros H. apply validate_student_id_iff in H.
  destruct H as (s' & E & L & D). injection E as <-.
  apply manager_id_rule.
  assert (W : forall t, forallb is_ascii_digit t = true ->
                        forallb word_char t = true).
  { intros t Ht. rewrite forallb_forall in *. intros x Hx.
    apply digit_word_char. auto. }
  destruct D as [D | (d & -> & D)].
  - left. split; [lia|auto].
  - right. exists d. rewrite length_app in L. simpl in L.
    repeat split; [lia|lia|auto].
Qed.

(** ** Saving and loading the map *)

Lemma serialize_update d :
  forall acc, StudentManager.serialize d acc = dict_update acc (serialized d).
Proof.
  induction d as [|[k st] d IH]; intros acc; [reflexivity|].
  simpl. apply IH.
Qed.

Lemma serialized_keys d : dict_keys (serialized d) = dict_keys d.
Proof.
  unfold dict_keys, serialized. rewrite map_map. reflexivity.
Qed.

Lemma serialize_serialized d :
  NoDup (dict_keys d) -> StudentManager.serialize d [] = serialized d.
Proof.
  intros H. rewrite serialize_update.
  apply (@dict_of_pairs_NoDup value). rewrite serialized_keys. exact H.
Qed.

Lemma valid_student_record st :
  valid_student st = true ->
  encodable (Student.to_dict st) = true /\
  well_formed (Student.to_dict st) = true.
Proof.
  intros H. apply valid_student_inv in H.
  destruct H as (H1 & H2 & _ & H3 & _ & H5 & _ & H6 & _).
  split; [|reflexivity].
  simpl.
  rewrite (student_id_encodable _ H1), (name_encodable _ H2),
    (gender_encodable _ H3), (class_name_encodable _ H5),
    (contact_encodable _ H6).
  reflexivity.
Qed.

Lemma manager_ok_inv d :
  manager_ok d = true ->
  NoDup (dict_keys d) /\
  forall k st, In (k, st) d ->
               encodable_str k = true /\ valid_student st = true.
Proof.
  unfold manager_ok. rewrite andb_true_iff, keys_unique_NoDup.
  intros [H1 H2]. split; [exact H1|].
  intros k st Hin. rewrite forallb_forall in H2.
  apply H2 in Hin. simpl in Hin. apply andb_true_iff in Hin. exact Hin.
Qed.

Lemma manager_ok_intro d :
  NoDup (dict_keys d) ->
  (forall k st, In (k, st) d ->
                encodable_str k = true /\ valid_student st = true) ->
  manager_ok d = true.
Proof.
  intros H1 H2. unfold manager_ok.
  apply andb_true_iff. split; [apply keys_unique_NoDup; exact H1|].
  apply forallb_forall. intros [k st] Hin. simpl.
  apply andb_true_iff. apply H2. exact Hin.
Qed.

Lemma manager_ok_serialized d :
  manager_ok d = true ->
  well_formed (VDict (serialized d)) = true /\
  encodable (VDict (serialized d)) = true.
Proof.
  intros H. apply manager_ok_inv in H. destruct H as [N F].
  split.
  - apply well_formed_dict.
    + rewrite serialized_keys. exact N.
    + apply forallb_forall. intros [k x] Hin.
      unfold serialized in Hin. apply in_map_iff in Hin.
      destruct Hin as ([k' st] & E & Hin). injection E as <- <-.
      simpl. apply (valid_student_record st). eapply F; exact Hin.
  - simpl. apply forallb_forall. intros [k x] Hin.
    unfold serialized in Hin. apply in_map_iff in Hin.
    destruct Hin as ([k' st] & E & Hin). injection E as <- <-.
    simpl. destruct (F _ _ Hin) as [F1 F2].
    rewrite F1. apply (valid_student_record st F2).
Qed.

Lemma accepted_serialized d :
  (forall k st, In (k, st) d -> valid_student st = true) ->
  accepted (serialized d) = d.
Proof.
  induction d as [|[k st] d IH]; intros H; [reflexivity|].
  cbn [serialized map accepted fst snd].
  rewrite from_dict_to_dict by (eapply H; left; reflexivity).
  fold (serialized d).
  rewrite IH; [reflexivity|]. intros k' st' Hin. eapply H. right. exact Hin.
Qed.

Lemma _save_students_ok w :
  manager_ok (records w) = true ->
  writable (StudentManager.os w) (data_path w) = true ->
  StudentManager._save_students w = (Ret true, saved (records w) w).
Proof.
  intros Ok W. destruct w as [[dm d] o]. unfold records, data_path in *.
  simpl in *.
  pose proof (manager_ok_inv _ Ok) as [N _].
  pose proof (manager_ok_serialized _ Ok) as [Wf E].
  unfold StudentManager._save_students, try_except, bind,
    StudentManager.data_manager, StudentManager.students,
    StudentManager.lift_os.
  cbn [StudentManager.self StudentManager.os StudentManager._data_manager
       StudentManager._students].
  rewrite (@serialize_serialized d N).
  rewrite (@save_data_writes dm (VDict (serialized d)) o eq_refl E W).
  reflexivity.
Qed.

Lemma load_after_save w d :
  manager_ok d = true ->
  DataManager.load_data
    (StudentManager._data_manager (StudentManager.self w))
    (StudentManager.os (saved d w))
  = (Ret (VDict (serialized d)), StudentManager.os (saved d w)).
Proof.
  intros Ok. pose proof (manager_ok_serialized _ Ok) as [Wf E].
  eapply load_data_reads.
  - unfold saved, data_path. simpl. apply files_set_file_same.
  - apply loads_dumps. exact Wf.
  - reflexivity.
Qed.

Lemma load_items_serialized d :
  manager_ok d = true ->
  StudentManager.load_items (serialized d) [] = d.
Proof.
  intros Ok. pose proof (manager_ok_inv _ Ok) as [N F].
  rewrite load_items_accepted.
  - simpl. apply accepted_serialized. intros k st Hin. eapply F; exact Hin.
  - rewrite serialized_keys. exact N.
  - intros k _ [].
Qed.

(** ** Adding and deleting records *)

Lemma word_char_encodable s :
  forallb word_char s = true -> encodable_str s = true.
Proof.
  assert (G : forall c, word_char c = true -> encodable_char c = true)
    by (unfold word_char; range_solve).
  intros H. unfold encodable_str. rewrite forallb_forall in *.
  intros c Hc. apply G, H, Hc.
Qed.

Lemma manager_id_encodable s :
  StudentManager._validate_student_id (VStr s) = true ->
  encodable_str s = true.
Proof.
  intros H. apply manager_id_rule in H.
  destruct H as [[_ H] | (d & -> & _ & H)].
  - apply word_char_encodable. exact H.
  - rewrite encodable_str_app, (word_char_encodable _ H). reflexivity.
Qed.

Lemma manager_ok_add d k st :
  manager_ok d = true -> dict_get k d = None ->
  encodable_str k = true -> valid_student st = true ->
  manager_ok (d ++ [(k, st)]) = true.
Proof.
  intros Ok G E V. apply manager_ok_inv in Ok. destruct Ok as [N F].
  apply manager_ok_intro.
  - rewrite <- (@dict_set_absent Student.t k st d)
      by (apply dict_get_None_notin; exact G).
    apply dict_set_NoDup. exact N.
  - intros k' st' Hin. apply in_app_or in Hin.
    destruct Hin as [Hin | [Hin | []]]; [eapply F; exact Hin|].
    injection Hin as <- <-. auto.
Qed.
Ltac world_simpl :=
  unfold records, data_path, saved in *;
  cbn [StudentManager.self StudentManager._students
       StudentManager._data_manager StudentManager.os] in *.

Lemma init_id i n g a c k st :
  Student.__init__ (VStr i) n g a c k = Ret st -> Student._student_id st = i.
Proof.
  unfold Student.__init__, bind_outcome.
  destruct (Student._validate_student_id (VStr i)) as [i'|] eqn:E1;
    [|discriminate].
  apply _validate_student_id_inv in E1. destruct E1 as [E1 _].
  injection E1 as <-.
  repeat match goal with
         | |- context [match ?m with Ret _ => _ | Raise _ => _ end] =>
             destruct m; [|discriminate]
         end.
  intros H; injection H as <-. reflexivity.
Qed.

Lemma add_student_succeeds sid name gender age class_name contact w a st :
  manager_ok (records w) = true ->
  writable (StudentManager.os w) (data_path w) = true ->
  dict_get sid (records w) = None ->
  py_int age = Ret a ->
  Student.__init__ (VStr sid) name gender (VInt a) class_name contact
  = Ret st ->
  StudentManager.add_student (VStr sid) name gender age class_name contact w
  = (Ret true, saved (records w ++ [(sid, st)]) w).
Proof.
  intros Ok W G A I.
  pose proof (@init_valid _ _ _ _ _ _ _ I) as V.
  pose proof (@valid_student_inv _ V) as (Vid & _).
  rewrite (@init_id _ _ _ _ _ _ _ I) in Vid.
  pose proof (@validator_id_manager_id _ Vid) as Mid.
  pose proof (@manager_ok_add _ _ _ Ok G (@manager_id_encodable _ Mid) V) as Ok'.
  destruct w as [[dm d] o]. world_simpl.
  unfold StudentManager.add_student.
  rewrite Mid. cbn [negb].
  unfold try_except at 1. unfold bind at 1.
  unfold StudentManager.students at 1.
  cbn [StudentManager.self StudentManager._students].
  unfold dict_mem. rewrite G.
  unfold bind at 1. unfold try_except at 1. unfold bind at 1.
  unfold lift_outcome at 1. rewrite A.
  unfold lift_outcome at 1. rewrite I.
  unfold bind at 1. unfold StudentManager.set_students at 1.
  cbn [StudentManager.self StudentManager._data_manager StudentManager.os].
  rewrite (@dict_set_absent Student.t sid st d)
    by (apply dict_get_None_notin; exact G).
  unfold try_except at 1. unfold bind at 1.
  rewrite _save_students_ok; [reflexivity|exact Ok'|exact W].
Qed.
Lemma restart_after_save w d :
  manager_ok d = true ->
  StudentManager.__init__
    (StudentManager._data_manager (StudentManager.self w))
    (StudentManager.os (saved d w))
  = (Ret tt, saved d w).
Proof.
  intros Ok. unfold StudentManager.__init__.
  rewrite (@_load_students_eq _ [] _ (serialized d) (@load_after_save w d Ok)).
  rewrite (@load_items_serialized d Ok). reflexivity.
Qed.

Lemma get_student_found sid st w :
  StudentManager._validate_student_id (VStr sid) = true ->
  dict_get sid (records w) = Some st ->
  StudentManager.get_student_by_id (VStr sid) w = (Ret st, w).
Proof.
  intros V G. unfold StudentManager.get_student_by_id.
  rewrite V. cbn [negb].
  unfold bind, StudentManager.students. fold (records w). rewrite G.
  reflexivity.
Qed.

Lemma _save_students_self w :
  StudentManager.self (snd (StudentManager._save_students w))
  = StudentManager.self w.
Proof.
  destruct w as [[dm d] o].
  unfold StudentManager._save_students, try_except, bind,
    StudentManager.data_manager, StudentManager.students,
    StudentManager.lift_os.
  cbn [StudentManager.self StudentManager.os StudentManager._data_manager
       StudentManager._students].
  destruct (DataManager.save_data dm _ o) as [[b|e] o']; [reflexivity|].
  destruct e; reflexivity.
Qed.

Lemma dict_del_set_absent {V} k (v : V) d :
  dict_get k d = None -> dict_del k (dict_set k v d) = d.
Proof.
  induction d as [|[k' v'] d IH]; simpl.
  - rewrite str_eqb_refl. reflexivity.
  - destruct (str_eqb k k') eqn:E; [discriminate|].
    intros H. simpl. rewrite E, IH by exact H. reflexivity.
Qed.

Lemma without_cons ks k (v : Student.t) d :
  without ks ((k, v) :: d)
  = if Student.str_in k ks then without ks d else (k, v) :: without ks d.
Proof.
  unfold without. simpl. destruct (Student.str_in k ks); reflexivity.
Qed.

Lemma without_absent k (d : dict Student.t) :
  ~ In k (dict_keys d) -> without [k] d = d.
Proof.
  induction d as [|[k' v] d IH]; intros Hn; [reflexivity|].
  rewrite without_cons. unfold Student.str_in. simpl existsb.
  rewrite orb_false_r.
  destruct (str_eqb k' k) eqn:E.
  - apply str_eqb_spec in E. subst. simpl in Hn. tauto.
  - rewrite IH; [reflexivity|]. simpl in Hn. tauto.
Qed.

Lemma dict_del_filter (d : dict Student.t) k :
  NoDup (dict_keys d) -> dict_del k d = without [k] d.
Proof.
  induction d as [|[k' v] d IH]; intros N; [reflexivity|].
  inversion N as [|? ? Hn N']; subst.
  rewrite without_cons. unfold Student.str_in. simpl existsb.
  rewrite orb_false_r. cbn [dict_del].
  rewrite (str_eqb_sym k' k).
  destruct (str_eqb k k') eqn:E.
  - apply str_eqb_spec in E. subst k'.
    symmetry. apply without_absent. exact Hn.
  - rewrite IH by exact N'. reflexivity.
Qed.

Lemma without_in ks (d : dict Student.t) k st :
  In (k, st) (without ks d) <->
  In (k, st) d /\ Student.str_in k ks = false.
Proof.
  unfold without. rewrite filter_In. simpl.
  rewrite negb_true_iff. tauto.
Qed.

Lemma without_keys_NoDup ks (d : dict Student.t) :
  NoDup (dict_keys d) -> NoDup (dict_keys (without ks d)).
Proof.
  unfold without, dict_keys.
  induction d as [|[k v] d IH]; intros N; [constructor|].
  inversion N as [|? ? Hn N']; subst. simpl.
  destruct (negb (Student.str_in k ks)); simpl; [|auto].
  constructor; [|auto].
  intros Hin. apply Hn. apply in_map_iff in Hin.
  destruct Hin as ([k' v'] & E & Hin). simpl in E. subst k'.
  apply filter_In in Hin. destruct Hin as [Hin _].
  apply in_map_iff. exists (k, v'). auto.
Qed.

Lemma manager_ok_without ks d :
  manager_ok d = true -> manager_ok (without ks d) = true.
Proof.
  intros Ok. apply manager_ok_inv in Ok. destruct Ok as [N F].
  apply manager_ok_intro.
  - apply without_keys_NoDup. exact N.
  - intros k st Hin. apply without_in in Hin. eapply F. apply Hin.
Qed.

Lemma without_get ks (d : dict Student.t) k :
  dict_get k (without ks d)
  = if Student.str_in k ks then None else dict_get k d.
Proof.
  unfold without. induction d as [|[k' v] d IH]; simpl.
  - destruct (Student.str_in k ks); reflexivity.
  - destruct (Student.str_in k' ks) eqn:E'; simpl.
    + rewrite IH. destruct (str_eqb k k') eqn:E; [|reflexivity].
      apply str_eqb_spec in E. subst k'. rewrite E'. reflexivity.
    + rewrite IH. destruct (str_eqb k k') eqn:E; [|reflexivity].
      apply str_eqb_spec in E. subst k'. rewrite E'. reflexivity.
Qed.

Lemma delete_student_succeeds sid st w :
  manager_ok (records w) = true ->
  writable (StudentManager.os w) (data_path w) = true ->
  StudentManager._validate_student_id (VStr sid) = true ->
  dict_get sid (records w) = Some st ->
  StudentManager.delete_student (VStr sid) w
  = (Ret true, saved (without [sid] (records w)) w).
Proof.
  intros Ok W V G.
  pose proof (@manager_ok_without [sid] _ Ok) as Ok'.
  pose proof (@manager_ok_inv _ Ok) as [N _].
  destruct w as [[dm d] o]. world_simpl.
  unfold StudentManager.delete_student. rewrite V. cbn [negb].
  unfold try_except at 1. unfold bind at 1.
  unfold StudentManager.students at 1.
  cbn [StudentManager.self StudentManager._students].
  unfold dict_mem. rewrite G. cbn [negb].
  unfold bind at 1. unfold StudentManager.set_students at 1.
  cbn [StudentManager.self StudentManager._data_manager StudentManager.os].
  rewrite (@dict_del_filter d sid N).
  unfold try_except at 1. unfold bind at 1.
  rewrite _save_students_ok; [reflexivity|exact Ok'|exact W].
Qed.
Lemma classify_strs d ids :
  StudentManager.classify d (map VStr ids)
  = (length (deletable d ids), map VStr (not_found d ids),
     map VStr (invalid_ids ids)).
Proof.
  induction ids as [|i ids IH]; [reflexivity|].
  cbn [map StudentManager.classify]. rewrite IH.
  unfold deletable, not_found, invalid_ids. cbn [filter].
  cbn [StudentManager.present].
  destruct (StudentManager._validate_student_id (VStr i)); cbn [negb andb];
    [|reflexivity].
  destruct (dict_mem i d); reflexivity.
Qed.

Lemma join_ok_strs l : StudentManager.join_ok (map VStr l) = Ret tt.
Proof.
  unfold StudentManager.join_ok.
  assert (forallb (fun v => match v with VStr _ => true | _ => false end)
                  (map VStr l) = true) as ->; [|reflexivity].
  induction l; simpl; auto.
Qed.

Lemma filter_map_VStr d ids :
  filter (fun id => StudentManager._validate_student_id id
                    && StudentManager.present d id) (map VStr ids)
  = map VStr (deletable d ids).
Proof.
  unfold deletable. induction ids as [|i ids IH]; [reflexivity|].
  cbn [map filter StudentManager.present].
  destruct (_ && _); [cbn [map]; f_equal|]; exact IH.
Qed.

Lemma without_without ks1 ks2 (d : dict Student.t) :
  without ks2 (without ks1 d) = without (ks1 ++ ks2) d.
Proof.
  induction d as [|[k v] d IH]; [reflexivity|].
  rewrite !without_cons. unfold Student.str_in in *.
  rewrite existsb_app.
  destruct (existsb (str_eqb k) ks1); cbn [orb]; [exact IH|].
  rewrite without_cons. unfold Student.str_in.
  destruct (existsb (str_eqb k) ks2); [exact IH|].
  rewrite IH. reflexivity.
Qed.

Lemma without_nil (d : dict Student.t) : without [] d = d.
Proof.
  induction d as [|[k v] d IH]; [reflexivity|].
  rewrite without_cons. simpl. rewrite IH. reflexivity.
Qed.

Lemma delete_each_ok dm o ks :
  forall m,
    NoDup ks -> NoDup (dict_keys m) ->
    (forall k, In k ks -> dict_mem k m = true) ->
    StudentManager.delete_each (map VStr ks)
      (StudentManager.mk_world (StudentManager.mk dm m) o)
    = (Ret tt, StudentManager.mk_world (StudentManager.mk dm (without ks m)) o).
Proof.
  induction ks as [|k ks IH]; intros m Nk Nm P.
  - cbn [map StudentManager.delete_each]. unfold ret.
    rewrite without_nil. reflexivity.
  - inversion Nk as [|? ? Hn Nk']; subst.
    cbn [map StudentManager.delete_each].
    unfold bind at 1. unfold StudentManager.students at 1.
    cbn [StudentManager.self StudentManager._students
         StudentManager.present].
    rewrite (P k) by (left; reflexivity).
    unfold bind at 1. unfold StudentManager.set_students at 1.
    cbn [StudentManager.self StudentManager._data_manager StudentManager.os].
    rewrite (@dict_del_filter m k Nm).
    rewrite IH.
    + rewrite without_without. reflexivity.
    + exact Nk'.
    + apply without_keys_NoDup. exact Nm.
    + intros k' Hin. unfold dict_mem. rewrite without_get.
      unfold Student.str_in. simpl existsb. rewrite orb_false_r.
      destruct (str_eqb k' k) eqn:E.
      * apply str_eqb_spec in E. subst. contradiction.
      * apply (P k'). right. exact Hin.
Qed.

Lemma NoDup_filter {A} (f : A -> bool) l : NoDup l -> NoDup (filter f l).
Proof.
  induction 1 as [|x l Hn N IH]; simpl; [constructor|].
  destruct (f x); [|exact IH].
  constructor; [|exact IH]. intros Hin. apply Hn.
  apply filter_In in Hin. tauto.
Qed.

Lemma delete_students_by_ids_succeeds ids w :
  NoDup ids ->
  manager_ok (records w) = true ->
  writable (StudentManager.os w) (data_path w) = true ->
  deletable (records w) ids <> [] ->
  StudentManager.delete_students_by_ids (map VStr ids) w
  = (Ret (length (deletable (records w) ids),
          StudentManager.Deleted (length (deletable (records w) ids))
            (map VStr (not_found (records w) ids))
            (map VStr (invalid_ids ids))),
     saved (without (deletable (records w) ids) (records w)) w).
Proof.
  intros Ni Ok W Nd.
  pose proof (@manager_ok_without (deletable (records w) ids) _ Ok) as Ok'.
  pose proof (@manager_ok_inv _ Ok) as [N _].
  destruct w as [[dm d] o]. world_simpl.
  unfold StudentManager.delete_students_by_ids.
  unfold try_except at 1. unfold bind at 1.
  unfold StudentManager.students at 1.
  cbn [StudentManager.self StudentManager._students].
  rewrite classify_strs.
  assert (J : forall l,
             (match map VStr l with
              | [] => ret tt
              | _ :: _ => lift_outcome (StudentManager.join_ok (map VStr l))
              end)
             (StudentManager.mk_world (StudentManager.mk dm d) o)
             = (Ret tt, StudentManager.mk_world (StudentManager.mk dm d) o)).
  { intros l. rewrite join_ok_strs. destruct (map VStr l); reflexivity. }
  unfold bind at 1. rewrite J.
  unfold bind at 1. rewrite J.
  destruct (deletable d ids) as [|k ks] eqn:Ed; [congruence|].
  cbn [length Nat.eqb].
  rewrite filter_map_VStr, Ed.
  unfold bind at 1.
  rewrite delete_each_ok.
  - unfold try_except at 1. unfold bind at 1.
    rewrite _save_students_ok; [reflexivity|exact Ok'|exact W].
  - rewrite <- Ed. apply NoDup_filter. exact Ni.
  - exact N.
  - intros k' Hin. rewrite <- Ed in Hin. unfold deletable in Hin.
    apply filter_In in Hin. destruct Hin as [_ Hin].
    apply andb_true_iff in Hin. apply Hin.
Qed.

(** ** Classes and statistics *)

Lemma str_ltb_irrefl a : str_ltb a a = false.
Proof.
  induction a as [|x a IH]; [reflexivity|].
  simpl. rewrite N.ltb_irrefl. exact IH.
Qed.

Lemma str_ltb_trans a : forall b c,
  str_ltb a b = true -> str_ltb b c = true -> str_ltb a c = true.
Proof.
  induction a as [|x a IH]; intros [|y b] [|z c]; simpl; try discriminate;
    auto.
  destruct (N.ltb_spec x y), (N.ltb_spec y x); try lia;
    destruct (N.ltb_spec y z), (N.ltb_spec z y); try lia;
    destruct (N.ltb_spec x z), (N.ltb_spec z x); try lia;
    try discriminate; auto.
  apply IH.
Qed.

Lemma str_ltb_total a : forall b,
  str_ltb a b = false -> str_eqb a b = false -> str_ltb b a = true.
Proof.
  induction a as [|x a IH]; intros [|y b]; simpl; try discriminate; auto.
  destruct (N.ltb_spec x y), (N.ltb_spec y x); try lia;
    try discriminate; auto.
  assert (x = y) by lia. subst. rewrite N.eqb_refl. simpl. apply IH.
Qed.

Lemma insert_sorted_In x l y :
  In y (insert_sorted x l) <-> y = x \/ In y l.
Proof.
  induction l as [|z l IH]; simpl; [intuition|].
  destruct (str_ltb x z); simpl; [intuition|].
  destruct (str_eqb x z) eqn:E; simpl.
  - apply str_eqb_spec in E. subst. intuition.
  - rewrite IH. intuition.
Qed.

Lemma insert_sorted_increasing x l :
  increasing l = true -> increasing (insert_sorted x l) = true.
Proof.
  induction l as [|z l IH]; intros H; [reflexivity|].
  cbn [insert_sorted].
  destruct (str_ltb x z) eqn:L.
  - cbn [increasing]. rewrite L. exact H.
  - destruct (str_eqb x z) eqn:E; [exact H|].
    pose proof (str_ltb_total _ _ L E) as L'.
    assert (H' : increasing l = true).
    { destruct l as [|u l]; [reflexivity|].
      cbn [increasing] in H. apply andb_true_iff in H. apply H. }
    specialize (IH H').
    destruct l as [|u l].
    + cbn [insert_sorted increasing]. rewrite L'. reflexivity.
    + cbn [increasing] in H. apply andb_true_iff in H. destruct H as [Hzu _].
      cbn [insert_sorted] in *.
      destruct (str_ltb x u).
      * cbn [increasing] in *. rewrite L'. exact IH.
      * destruct (str_eqb x u).
        -- cbn [increasing] in *. rewrite Hzu. exact IH.
        -- cbn [increasing] in *. rewrite Hzu. exact IH.
Qed.

Lemma sorted_set_increasing xs : increasing (sorted_set xs) = true.
Proof.
  induction xs as [|x xs IH]; [reflexivity|].
  apply insert_sorted_increasing. exact IH.
Qed.

Lemma sorted_set_In xs y : In y (sorted_set xs) <-> In y xs.
Proof.
  induction xs as [|x xs IH]; [reflexivity|].
  unfold sorted_set in *. simpl. rewrite insert_sorted_In, IH.
  intuition.
Qed.

Lemma increasing_head x l :
  increasing (x :: l) = true ->
  increasing l = true /\ forall y, In y l -> str_ltb x y = true.
Proof.
  revert x. induction l as [|z l IH]; intros x H.
  - split; [reflexivity|intros y []].
  - cbn [increasing] in H. apply andb_true_iff in H. destruct H as [Hxz H].
    split; [exact H|].
    intros y [<- | Hin]; [exact Hxz|].
    apply (str_ltb_trans _ _ _ Hxz). apply (IH z H). exact Hin.
Qed.

Lemma increasing_NoDup l : increasing l = true -> NoDup l.
Proof.
  induction l as [|x l IH]; intros H; [constructor|].
  apply increasing_head in H. destruct H as [H1 H2].
  constructor; [|auto].
  intros Hin. apply H2 in Hin. rewrite str_ltb_irrefl in Hin. discriminate.
Qed.
Lemma list_sum_map_add {A} (f g : A -> nat) l :
  list_sum (map (fun x => f x + g x) l)
  = list_sum (map f l) + list_sum (map g l).
Proof. induction l as [|x l IH]; simpl; [reflexivity|]. rewrite IH. lia. Qed.

Lemma list_sum_indicator x l :
  NoDup l -> In x l ->
  list_sum (map (fun c => if str_eqb x c then 1 else 0) l) = 1.
Proof.
  induction 1 as [|y l Hn N IH]; intros Hin; [destruct Hin|].
  simpl. destruct (str_eqb x y) eqn:E.
  - apply str_eqb_spec in E. subst y.
    assert (list_sum (map (fun c => if str_eqb x c then 1 else 0) l) = 0)
      as ->; [|reflexivity].
    clear - Hn. induction l as [|z l IH]; [reflexivity|].
    simpl in *. destruct (str_eqb x z) eqn:E.
    + apply str_eqb_spec in E. subst. exfalso. apply Hn. left. reflexivity.
    + apply IH. intros K. apply Hn. right. exact K.
  - apply str_eqb_neq in E. destruct Hin as [-> | Hin]; [congruence|].
    simpl. auto.
Qed.

Lemma sum_counts xs l :
  NoDup l -> (forall x, In x xs -> In x l) ->
  list_sum (map (fun c => length (filter (fun x => str_eqb x c) xs)) l)
  = length xs.
Proof.
  intros N. induction xs as [|x xs IH]; intros H.
  - clear. induction l as [|c l IH]; simpl; [reflexivity|exact IH].
  - assert (E : forall c,
               length (filter (fun y => str_eqb y c) (x :: xs))
               = (if str_eqb x c then 1 else 0)
                 + length (filter (fun y => str_eqb y c) xs)).
    { intros c. simpl. destruct (str_eqb x c); reflexivity. }
    rewrite (map_ext _ _ E), list_sum_map_add.
    rewrite list_sum_indicator by (auto; apply H; left; reflexivity).
    rewrite IH by (intros y Hy; apply H; right; exact Hy).
    reflexivity.
Qed.

Lemma class_count_eq c w :
  c <> [] ->
  StudentManager.get_class_student_count (VStr c) w
  = (Ret (length (filter (fun x => str_eqb x c)
                         (map Student._class_name
                              (StudentManager.values (records w))))), w).
Proof.
  intros Hc. unfold StudentManager.get_class_student_count.
  assert (truthy (VStr c) = true) as -> by (destruct c; [congruence|reflexivity]).
  cbn [negb]. unfold bind, StudentManager.students, ret. fold (records w).
  do 2 f_equal.
  induction (StudentManager.values (records w)) as [|st l IH];
    [reflexivity|].
  cbn [map filter]. unfold eq_str at 1.
  destruct (str_eqb (Student._class_name st) c); cbn [length]; rewrite IH;
    reflexivity.
Qed.

(** ** Deleting a class, updating, backing up *)

Lemma members_keys_NoDup c d :
  NoDup (dict_keys d) -> NoDup (dict_keys (members c d)).
Proof.
  unfold members, dict_keys.
  induction d as [|[k v] d IH]; intros N; [constructor|].
  inversion N as [|? ? Hn N']; subst. simpl.
  destruct (eq_str (Student._class_name v) c); simpl; [|auto].
  constructor; [|auto].
  intros Hin. apply Hn. apply in_map_iff in Hin.
  destruct Hin as ([k' v'] & E & Hin). simpl in E. subst k'.
  apply filter_In in Hin. destruct Hin as [Hin _].
  apply in_map_iff. exists (k, v'). auto.
Qed.

Lemma str_in_In k ks : Student.str_in k ks = true <-> In k ks.
Proof.
  unfold Student.str_in. rewrite existsb_exists. split.
  - intros (x & Hx & E). apply str_eqb_spec in E. subst. exact Hx.
  - intros H. exists k. split; [exact H|apply str_eqb_refl].
Qed.

Lemma without_members c d :
  NoDup (dict_keys d) ->
  without (dict_keys (members c d)) d
  = filter (fun kv => negb (eq_str (Student._class_name (snd kv)) c)) d.
Proof.
  intros N. unfold without. apply filter_ext_in. intros [k v] Hin.
  simpl. f_equal.
  destruct (eq_str (Student._class_name v) c) eqn:E.
  - apply str_in_In. unfold dict_keys, members.
    apply in_map_iff. exists (k, v). split; [reflexivity|].
    apply filter_In. auto.
  - destruct (Student.str_in k (dict_keys (members c d))) eqn:S;
      [|reflexivity].
    apply str_in_In in S. unfold dict_keys, members in S.
    apply in_map_iff in S. destruct S as ([k' v'] & Ek & Hin').
    simpl in Ek. subst k'. apply filter_In in Hin'.
    destruct Hin' as [Hin' E']. simpl in E'.
    pose proof (@dict_in_get _ k v d N Hin) as G1.
    pose proof (@dict_in_get _ k v' d N Hin') as G2.
    rewrite G1 in G2. injection G2 as <-. congruence.
Qed.

Lemma deletable_all d ids :
  forallb (fun i => StudentManager._validate_student_id (VStr i)
                    && dict_mem i d) ids = true ->
  deletable d ids = ids /\ not_found d ids = [] /\ invalid_ids ids = [].
Proof.
  unfold deletable, not_found, invalid_ids.
  induction ids as [|i ids IH]; [auto|].
  cbn [forallb filter]. rewrite andb_true_iff. intros [H1 H2].
  destruct (IH H2) as (E1 & E2 & E3).
  rewrite H1. apply andb_true_iff in H1. destruct H1 as [V M].
  rewrite V, M. cbn [negb andb]. rewrite E1, E2, E3. auto.
Qed.

Lemma delete_by_class_succeeds c w :
  truthy c = true ->
  manager_ok (records w) = true ->
  writable (StudentManager.os w) (data_path w) = true ->
  members c (records w) <> [] ->
  forallb (fun kv => StudentManager._validate_student_id (VStr (fst kv)))
          (members c (records w)) = true ->
  StudentManager.delete_students_by_class c w
  = (Ret (length (members c (records w)),
          StudentManager.Batch
            (StudentManager.Deleted (length (members c (records w))) [] [])),
     saved (filter (fun kv => negb (eq_str (Student._class_name (snd kv)) c))
                   (records w)) w).
Proof.
  intros T Ok W Ne V.
  pose proof (@manager_ok_inv _ Ok) as [N _].
  set (ids := dict_keys (members c (records w))).
  assert (A : forallb (fun i => StudentManager._validate_student_id (VStr i)
                                && dict_mem i (records w)) ids = true).
  { apply forallb_forall. intros k Hk. unfold ids, dict_keys in Hk.
    apply in_map_iff in Hk. destruct Hk as ([k' v] & E & Hin).
    simpl in E. subst k'.
    rewrite forallb_forall in V. pose proof (V _ Hin) as Vk.
    cbn [fst] in Vk. rewrite Vk. cbn [andb].
    unfold members in Hin. apply filter_In in Hin. destruct Hin as [Hin _].
    apply dict_mem_true. unfold dict_keys. apply in_map_iff.
    exists (k, v). auto. }
  destruct (@deletable_all _ _ A) as (E1 & E2 & E3).
  assert (Ni : ids <> []).
  { unfold ids, dict_keys. destruct (members c (records w)); [congruence|].
    discriminate. }
  pose proof (@delete_students_by_ids_succeeds ids w
                (@members_keys_NoDup c _ N) Ok W) as D.
  rewrite E1, E2, E3 in D. specialize (D Ni).
  unfold ids in D at 4. rewrite (@without_members c _ N) in D.
  unfold StudentManager.delete_students_by_class.
  rewrite T. cbn [negb].
  unfold bind at 1. unfold StudentManager.students at 1. fold (records w).
  fold (members c (records w)).
  rewrite <- (map_map fst VStr). fold (dict_keys (members c (records w))).
  fold ids.
  destruct (map VStr ids) eqn:Em.
  { destruct ids; [congruence|discriminate]. }
  unfold try_except, bind. rewrite D.
  unfold ret. cbn [fst snd]. unfold ids, dict_keys. rewrite length_map.
  reflexivity.
Qed.
Lemma update_info_from_unknown kwargs :
  has_unknown_field kwargs = true ->
  forall hc st, exists e,
    fst (Student.update_info_from hc kwargs st) = Raise e.
Proof.
  unfold has_unknown_field.
  induction kwargs as [|[key v] rest IH]; [discriminate|].
  cbn [existsb fst]. intros H hc st. cbn [Student.update_info_from].
  destruct (str_eqb key (lit "student_id")); [eexists; reflexivity|].
  destruct (negb (Student.str_in key Student.allowed_fields)) eqn:E;
    [eexists; reflexivity|].
  cbn [orb] in H.
  destruct (Student.is_None v); [apply IH; exact H|].
  destruct (Student.setattr st key v) as [st'|e];
    [apply IH; exact H|eexists; reflexivity].
Qed.

Lemma manager_backup_effect w r w' :
  StudentManager.backup_data w = (r, w') ->
  StudentManager.self w' = StudentManager.self w /\
  match r with
  | Ret p =>
      DataManager.backup_data
        (StudentManager._data_manager (StudentManager.self w))
        DataManager.default_backup_dir (StudentManager.os w)
      = (Ret p, StudentManager.os w')
  | Raise e =>
      e = OperationFailedError /\
      exists e0,
        DataManager.backup_data
          (StudentManager._data_manager (StudentManager.self w))
          DataManager.default_backup_dir (StudentManager.os w)
        = (Raise e0, StudentManager.os w')
  end.
Proof.
  unfold StudentManager.backup_data, try_except, bind,
    StudentManager.data_manager, StudentManager.lift_os, raise.
  destruct (DataManager.backup_data _ _ _) as [[p|e] o'].
  - intros H; injection H as <- <-. auto.
  - intros H; injection H as <- <-. simpl. eauto.
Qed.

Lemma split_comma_no_comma s piece :
  In piece (split_comma s) -> ~ In 44%N piece.
Proof.
  revert piece. induction s as [|c s IH]; intros piece.
  - simpl. intros [<- | []]. intros [].
  - cbn [split_comma]. destruct (N.eqb_spec c 44).
    + intros [<- | Hin]; [intros []|apply IH; exact Hin].
    + destruct (split_comma s) as [|p ps] eqn:E.
      * intros [<- | []]. intros [H | []]. congruence.
      * intros [<- | Hin].
        -- intros [H | H]; [congruence|].
           apply (IH p); [left; reflexivity|exact H].
        -- apply IH. right. exact Hin.
Qed.


(* ------------------------------------------------------------------ *)
(** ** The manager: ids, queries, statistics *)

(** X15.  The id check of the manager accepts exactly the strings of 3
    to 20 letters, digits and underscores, and such a string followed by
    one newline; a value that is not a string is rejected.  Every id that
    [Validator.validate_student_id] accepts passes it, so the first check
    of [add_student] never refuses an id the constructor would take. *)
Theorem X15_manager_id_check (v : value) :
  (StudentManager._validate_student_id v = true <->
   exists s, v = VStr s /\
     ((3 <= length s <= 20 /\ forallb word_char s = true) \/
      exists d, s = d ++ [10%N] /\ 3 <= length d <= 20
                /\ forallb word_char d = true)) /\
  (Validator.validate_student_id v = true ->
   StudentManager._validate_student_id v = true).
Proof.
  split.
  - split.
    + destruct v as [| | |s| |]; try discriminate.
      intros H. exists s. split; [reflexivity|].
      apply manager_id_rule. exact H.
    + intros (s & -> & H). apply manager_id_rule. exact H.
  - destruct v as [| | |s| |]; try discriminate.
    apply validator_id_manager_id.
Qed.

(** X16.  [get_class_student_count] and [search_students_by_class]
    agree: the count is the length of the list found, for any argument;
    neither changes the manager; a record is found exactly when it is in
    the map and its class is the argument, and nothing is found for an
    argument that is empty or not a string. *)
Theorem X16_count_is_the_length_of_the_search
  (class_name : value) (w : StudentManager.world) :
  exists l,
    StudentManager.search_students_by_class class_name w = (Ret l, w) /\
    StudentManager.get_class_student_count class_name w
    = (Ret (length l), w) /\
    forall st, In st l <->
               In st (StudentManager.values (records w)) /\
               class_name = VStr (Student._class_name st) /\
               Student._class_name st <> [].
Proof.
  rename class_name into c.
  unfold StudentManager.search_students_by_class,
    StudentManager.get_class_student_count.
  destruct (truthy c) eqn:T; cbn [negb].
  - unfold bind, StudentManager.students, ret. fold (records w).
    eexists. split; [reflexivity|]. split; [reflexivity|].
    intros st. rewrite filter_In. unfold eq_str.
    destruct c as [| | |s| |]; try (split; [intros [_ H]; discriminate
                                           |intros (_ & H & _); discriminate]).
    rewrite str_eqb_spec. split.
    + intros [H1 <-]. repeat split; auto.
      destruct (Student._class_name st); [discriminate|discriminate].
    + intros (H1 & H2 & _). injection H2 as ->. auto.
  - exists []. split; [reflexivity|]. split; [reflexivity|].
    intros st. split; [intros []|].
    intros (_ & -> & H). simpl in T.
    destruct (Student._class_name st); [congruence|discriminate].
Qed.

(** X17.  [get_class_list] returns the classes of the records in
    increasing order, each once: a string is in the list exactly when it
    is the class of a record of the map. *)
Theorem X17_class_list_is_sorted_and_complete (w : StudentManager.world) :
  exists l,
    StudentManager.get_class_list w = (Ret l, w) /\
    increasing l = true /\ NoDup l /\
    forall c, In c l <->
              exists st, In st (StudentManager.values (records w)) /\
                         Student._class_name st = c.
Proof.
  eexists. split; [reflexivity|].
  split; [apply sorted_set_increasing|].
  split; [apply increasing_NoDup, sorted_set_increasing|].
  intros c. rewrite sorted_set_In, in_map_iff. split.
  - intros (st & E & H). exists st. auto.
  - intros (st & H & E). exists st. auto.
Qed.

(** X18.  The statistics add up: when no record has an empty class, as
    is the case of every record the constructor returned, the counts
    that [get_class_student_count] gives for the classes of
    [get_class_list] sum to [get_student_count]. *)
Theorem X18_class_counts_sum_to_the_total (w : StudentManager.world) :
  (forall st, In st (StudentManager.values (records w)) ->
              Student._class_name st <> []) ->
  exists classes counts,
    StudentManager.get_class_list w = (Ret classes, w) /\
    Forall2 (fun c n =>
               StudentManager.get_class_student_count (VStr c) w = (Ret n, w))
            classes counts /\
    StudentManager.get_student_count w = (Ret (list_sum counts), w).
Proof.
  intros H.
  set (xs := map Student._class_name (StudentManager.values (records w))).
  exists (sorted_set xs),
    (map (fun c => length (filter (fun x => str_eqb x c) xs))
         (sorted_set xs)).
  split; [reflexivity|]. split.
  - assert (G : forall c, In c (sorted_set xs) -> c <> []).
    { intros c Hc. apply (proj1 (@sorted_set_In xs c)) in Hc. unfold xs in Hc.
      apply in_map_iff in Hc. destruct Hc as (st & <- & Hst). auto. }
    induction (sorted_set xs) as [|c l IH]; [constructor|].
    simpl. constructor.
    + apply class_count_eq. apply G. left. reflexivity.
    + apply IH. intros c' Hc'. apply G. right. exact Hc'.
  - rewrite sum_counts.
    + unfold StudentManager.get_student_count, bind,
        StudentManager.students, ret. fold (records w).
      unfold xs, StudentManager.values. rewrite !length_map. reflexivity.
    + apply increasing_NoDup, sorted_set_increasing.
    + intros x Hx. apply sorted_set_In. exact Hx.
Qed.

Lemma X18_class_counts_sum_to_the_total_witness :
  exists classes counts,
    StudentManager.get_class_list Scenario.w2 = (Ret classes, Scenario.w2) /\
    Forall2 (fun c n =>
               StudentManager.get_class_student_count (VStr c) Scenario.w2
               = (Ret n, Scenario.w2))
            classes counts /\
    StudentManager.get_student_count Scenario.w2
    = (Ret (list_sum counts), Scenario.w2).
Proof.
  apply (@X18_class_counts_sum_to_the_total Scenario.w2).
  intros st H. vm_compute in H.
  destruct H as [<- | [<- | []]]; discriminate.
Defined.

(* ------------------------------------------------------------------ *)
(** ** The manager: deleting *)

(** X19.  [delete_students_by_class] raises only two exceptions:
    [DataValidationError] for a class name that is empty or otherwise
    false, before anything is done, and [OperationFailedError] for
    every failure of the deletion, an error of the data file
    included. *)
Theorem X19_delete_by_class_errors
  (class_name : value) (w w' : StudentManager.world) (e : exn) :
  StudentManager.delete_students_by_class class_name w = (Raise e, w') ->
  (truthy class_name = false /\ e = DataValidationError None /\ w' = w) \/
  (truthy class_name = true /\ e = OperationFailedError).
Proof.
  rename class_name into c.
  unfold StudentManager.delete_students_by_class.
  destruct (truthy c); cbn [negb].
  - unfold bind at 1. unfold StudentManager.students at 1.
    destruct (map _ _) as [|i ids]; [unfold ret; discriminate|].
    unfold try_except, bind, raise, ret.
    destruct (StudentManager.delete_students_by_ids (i :: ids) w)
      as [[r|x] w1].
    + discriminate.
    + intros H; injection H as <- _. right. auto.
  - unfold raise. intros H; injection H as <- <-. left. auto.
Qed.

Lemma X19_delete_by_class_errors_witness :
  (truthy (VStr []) = false /\
   DataValidationError None = DataValidationError None /\
   Scenario.w2 = Scenario.w2) \/
  (truthy (VStr []) = true /\ DataValidationError None = OperationFailedError).
Proof.
  apply (@X19_delete_by_class_errors (VStr []) Scenario.w2 Scenario.w2
           (DataValidationError None)).
  reflexivity.
Defined.

(** X20.  Batch deletion of a list of ids without repetition: when the
    map can be saved and some id of the list is a key of the map that
    passes the id check, [delete_students_by_ids] returns the number of
    such ids; the message lists the ids not found and the invalid ones;
    the map has lost exactly those keys, and the data file holds the
    map. *)
Theorem X20_batch_delete_without_repetition
  (ids : list pystr) (w : StudentManager.world) :
  NoDup ids ->
  manager_ok (records w) = true ->
  writable (StudentManager.os w) (data_path w) = true ->
  deletable (records w) ids <> [] ->
  exists w',
    StudentManager.delete_students_by_ids (map VStr ids) w
    = (Ret (length (deletable (records w) ids),
            StudentManager.Deleted (length (deletable (records w) ids))
              (map VStr (not_found (records w) ids))
              (map VStr (invalid_ids ids))), w') /\
    (forall k, dict_get k (records w')
               = if Student.str_in k (deletable (records w) ids) then None
                 else dict_get k (records w)) /\
    DataManager.load_data
      (StudentManager._data_manager (StudentManager.self w'))
      (StudentManager.os w')
    = (Ret (VDict (serialized (records w'))), StudentManager.os w').
Proof.
  intros Ni Ok W Nd.
  exists (saved (without (deletable (records w) ids) (records w)) w).
  split; [apply delete_students_by_ids_succeeds; assumption|].
  split.
  - intros k. apply without_get.
  - apply (@load_after_save w). apply manager_ok_without. exact Ok.
Qed.

Lemma X20_batch_delete_without_repetition_witness :
  exists w',
    StudentManager.delete_students_by_ids
      (map VStr [Scenario.id1; lit "x"; Scenario.id3]) Scenario.w2
    = (Ret (length (deletable (records Scenario.w2)
                      [Scenario.id1; lit "x"; Scenario.id3]),
            StudentManager.Deleted
              (length (deletable (records Scenario.w2)
                         [Scenario.id1; lit "x"; Scenario.id3]))
              (map VStr (not_found (records Scenario.w2)
                           [Scenario.id1; lit "x"; Scenario.id3]))
              (map VStr (invalid_ids [Scenario.id1; lit "x"; Scenario.id3]))),
       w') /\
    (forall k, dict_get k (records w')
               = if Student.str_in k
                      (deletable (records Scenario.w2)
                         [Scenario.id1; lit "x"; Scenario.id3])
                 then None
                 else dict_get k (records Scenario.w2)) /\
    DataManager.load_data
      (StudentManager._data_manager (StudentManager.self w'))
      (StudentManager.os w')
    = (Ret (VDict (serialized (records w'))), StudentManager.os w').
Proof.
  apply (@X20_batch_delete_without_repetition
           [Scenario.id1; lit "x"; Scenario.id3] Scenario.w2).
  - repeat constructor; simpl; intros H;
      repeat (destruct H as [H | H]; [discriminate H|]); exact H.
  - vm_compute. reflexivity.
  - vm_compute. reflexivity.
  - vm_compute. discriminate.
Defined.

Lemma no_member_left c (d : dict Student.t) :
  length
    (filter (fun st => eq_str (Student._class_name st) c)
       (map snd
          (filter (fun kv => negb (eq_str (Student._class_name (snd kv)) c))
                  d))) = 0.
Proof.
  induction d as [|[k st] d IH]; [reflexivity|].
  cbn [filter snd].
  destruct (eq_str (Student._class_name st) c) eqn:E;
    cbn [negb map filter snd]; [exact IH|].
  rewrite E. exact IH.
Qed.

(** X21.  Deleting a class: when the map can be saved, the class has
    records and their keys pass the id check, [delete_students_by_class]
    returns the number of records of the class; the map keeps exactly the
    records of the other classes, in their order, and the data file holds
    that map. *)
Theorem X21_delete_by_class_removes_the_class
  (class_name : value) (w : StudentManager.world) :
  truthy class_name = true ->
  manager_ok (records w) = true ->
  writable (StudentManager.os w) (data_path w) = true ->
  members class_name (records w) <> [] ->
  forallb (fun kv => StudentManager._validate_student_id (VStr (fst kv)))
          (members class_name (records w)) = true ->
  exists w',
    StudentManager.delete_students_by_class class_name w
    = (Ret (length (members class_name (records w)),
            StudentManager.Batch
              (StudentManager.Deleted
                 (length (members class_name (records w))) [] [])), w') /\
    records w'
    = filter (fun kv => negb (eq_str (Student._class_name (snd kv))
                                     class_name)) (records w) /\
    StudentManager.get_class_student_count class_name w' = (Ret 0, w') /\
    DataManager.load_data
      (StudentManager._data_manager (StudentManager.self w'))
      (StudentManager.os w')
    = (Ret (VDict (serialized (records w'))), StudentManager.os w').
Proof.
  intros T Ok W Ne V.
  pose proof (@manager_ok_inv _ Ok) as [N _].
  eexists. split; [apply delete_by_class_succeeds; assumption|].
  split; [reflexivity|]. split.
  - unfold StudentManager.get_class_student_count. rewrite T. cbn [negb].
    unfold bind, StudentManager.students, ret, saved.
    cbn [StudentManager.self StudentManager._students].
    do 2 f_equal. apply no_member_left.
  - apply (@load_after_save w).
    rewrite <- (@without_members class_name _ N).
    apply manager_ok_without. exact Ok.
Qed.

Lemma X21_delete_by_class_removes_the_class_witness :
  exists w',
    StudentManager.delete_students_by_class (VStr (lit "CS-1")) Scenario.w2
    = (Ret (length (members (VStr (lit "CS-1")) (records Scenario.w2)),
            StudentManager.Batch
              (StudentManager.Deleted
                 (length (members (VStr (lit "CS-1")) (records Scenario.w2)))
                 [] [])), w') /\
    records w'
    = filter (fun kv => negb (eq_str (Student._class_name (snd kv))
                                     (VStr (lit "CS-1"))))
             (records Scenario.w2) /\
    StudentManager.get_class_student_count (VStr (lit "CS-1")) w'
    = (Ret 0, w') /\
    DataManager.load_data
      (StudentManager._data_manager (StudentManager.self w'))
      (StudentManager.os w')
    = (Ret (VDict (serialized (records w'))), StudentManager.os w').
Proof.
  apply (@X21_delete_by_class_removes_the_class (VStr (lit "CS-1"))
           Scenario.w2).
  - reflexivity.
  - vm_compute. reflexivity.
  - vm_compute. reflexivity.
  - vm_compute. discriminate.
  - vm_compute. reflexivity.
Defined.

(* ------------------------------------------------------------------ *)
(** ** The manager: adding, saving, restarting *)

(** X22.  [add_student] is all or nothing for the map: whenever it
    raises, whatever the arguments and whatever failed, the map is as it
    was before the call. *)
Theorem X22_failed_add_leaves_the_map
  (student_id name gender age class_name contact : value)
  (w w' : StudentManager.world) (e : exn) :
  StudentManager.add_student student_id name gender age class_name contact w
  = (Raise e, w') ->
  records w' = records w.
Proof.
  destruct w as [[dm d] o]. unfold records.
  unfold StudentManager.add_student.
  unfold try_except at 1.
  destruct (negb (StudentManager._validate_student_id student_id)).
  { unfold raise. intros H; injection H as _ <-. reflexivity. }
  destruct student_id as [| | |sid| |];
    try (unfold raise; intros H; injection H as _ <-; reflexivity).
  unfold bind at 1. unfold StudentManager.students at 1.
  cbn [StudentManager.self StudentManager._students].
  destruct (dict_mem sid d) eqn:M.
  { unfold raise. intros H; injection H as _ <-. reflexivity. }
  unfold bind at 1. unfold try_except at 1. unfold bind at 1.
  unfold lift_outcome at 1.
  destruct (py_int age) as [a|ea].
  - unfold lift_outcome at 1.
    destruct (Student.__init__ (VStr sid) name gender (VInt a) class_name
                               contact) as [st|ei].
    + unfold bind at 1. unfold StudentManager.set_students at 1.
      cbn [StudentManager.self StudentManager._data_manager
           StudentManager.os].
      unfold try_except at 1. unfold bind at 1.
      pose proof (_save_students_self
                    (StudentManager.mk_world
                       (StudentManager.mk dm (dict_set sid st d)) o)) as Sf.
      destruct (StudentManager._save_students _) as [[b|es] [sf o']].
      * unfold ret. discriminate.
      * simpl in Sf. subst sf.
        unfold bind at 1. unfold StudentManager.students at 1.
        cbn [StudentManager.self StudentManager._students].
        assert (dict_mem sid (dict_set sid st d) = true) as ->.
        { unfold dict_mem. rewrite dict_get_set_same. reflexivity. }
        unfold bind, StudentManager.set_students, raise.
        cbn [StudentManager.self StudentManager._students
             StudentManager._data_manager StudentManager.os].
        rewrite dict_del_set_absent by (apply dict_mem_false; exact M).
        destruct es; intros H; injection H as _ <-; reflexivity.
    + destruct (is_ValueError ei); unfold raise;
        [|destruct ei]; intros H; injection H as _ <-; reflexivity.
  - destruct (is_ValueError ea); unfold raise;
      [|destruct ea]; intros H; injection H as _ <-; reflexivity.
Qed.

Lemma X22_failed_add_leaves_the_map_witness :
  records
    (snd (StudentManager.add_student
            (VStr Scenario.id3) (VStr Scenario.wang_wu) (VStr Validator.male)
            (VInt 10) (VStr (lit "CS-2")) (VStr (lit "13800138003"))
            Scenario.w2))
  = records Scenario.w2.
Proof.
  apply (@X22_failed_add_leaves_the_map
           (VStr Scenario.id3) (VStr Scenario.wang_wu) (VStr Validator.male)
           (VInt 10) (VStr (lit "CS-2")) (VStr (lit "13800138003"))
           Scenario.w2 _ (DataValidationError (Some (lit "age")))).
  vm_compute. reflexivity.
Defined.

Lemma dict_get_snoc {V} k (v : V) d :
  dict_get k d = None -> dict_get k (d ++ [(k, v)]) = Some v.
Proof.
  intros H.
  rewrite <- (@dict_set_absent V k v d) by (apply dict_get_None_notin; exact H).
  apply dict_get_set_same.
Qed.

(** X23.  Adding then reading: when the map can be saved, the id is
    new, and the constructor accepts the arguments with the age
    converted by [int], [add_student] returns [True]; the record is the
    last of the map, [get_student_by_id] returns it, the count is one
    more, and a manager constructed anew on the data file holds the same
    map. *)
Theorem X23_add_then_get
  (sid : pystr) (name gender age class_name contact : value)
  (w : StudentManager.world) (a : Z) (st : Student.t) :
  manager_ok (records w) = true ->
  writable (StudentManager.os w) (data_path w) = true ->
  dict_get sid (records w) = None ->
  py_int age = Ret a ->
  Student.__init__ (VStr sid) name gender (VInt a) class_name contact
  = Ret st ->
  exists w',
    StudentManager.add_student (VStr sid) name gender age class_name
                               contact w = (Ret true, w') /\
    records w' = records w ++ [(sid, st)] /\
    StudentManager.get_student_by_id (VStr sid) w' = (Ret st, w') /\
    StudentManager.get_student_count w'
    = (Ret (S (length (records w))), w') /\
    StudentManager.__init__
      (StudentManager._data_manager (StudentManager.self w))
      (StudentManager.os w') = (Ret tt, w').
Proof.
  intros Ok W G A I.
  pose proof (@init_valid _ _ _ _ _ _ _ I) as V.
  pose proof (@valid_student_inv _ V) as (Vid & _).
  rewrite (@init_id _ _ _ _ _ _ _ I) in Vid.
  pose proof (@validator_id_manager_id _ Vid) as Mid.
  pose proof (@manager_ok_add _ _ _ Ok G (@manager_id_encodable _ Mid) V)
    as Ok'.
  exists (saved (records w ++ [(sid, st)]) w).
  split; [eapply add_student_succeeds; eassumption|].
  split; [reflexivity|]. split; [|split].
  - apply get_student_found; [exact Mid|].
    apply dict_get_snoc. exact G.
  - unfold StudentManager.get_student_count, bind, StudentManager.students,
      ret, saved.
    cbn [StudentManager.self StudentManager._students].
    rewrite length_app, Nat.add_comm. reflexivity.
  - apply restart_after_save. exact Ok'.
Qed.

Lemma X23_add_then_get_witness :
  exists w',
    StudentManager.add_student
      (VStr Scenario.id3) (VStr Scenario.wang_wu) (VStr Validator.male)
      (VStr (lit "22")) (VStr (lit "CS-2")) (VStr (lit "13800138003"))
      Scenario.w2 = (Ret true, w') /\
    records w' = records Scenario.w2 ++ [(Scenario.id3, Scenario.student3)] /\
    StudentManager.get_student_by_id (VStr Scenario.id3) w'
    = (Ret Scenario.student3, w') /\
    StudentManager.get_student_count w'
    = (Ret (S (length (records Scenario.w2))), w') /\
    StudentManager.__init__
      (StudentManager._data_manager (StudentManager.self Scenario.w2))
      (StudentManager.os w') = (Ret tt, w').
Proof.
  apply (@X23_add_then_get Scenario.id3
           (VStr Scenario.wang_wu) (VStr Validator.male)
           (VStr (lit "22")) (VStr (lit "CS-2")) (VStr (lit "13800138003"))
           Scenario.w2 22%Z Scenario.student3).
  - vm_compute. reflexivity.
  - vm_compute. reflexivity.
  - vm_compute. reflexivity.
  - vm_compute. reflexivity.
  - vm_compute. reflexivity.
Defined.

(** X24.  Deleting then reading: when the map can be saved and the id
    passes the id check and is a key of the map, [delete_student] returns
    [True]; the map has lost that key and no other,
    [get_student_by_id] then raises [StudentNotFoundError], and a manager
    constructed anew on the data file holds the same map. *)
Theorem X24_delete_then_get
  (sid : pystr) (st : Student.t) (w : StudentManager.world) :
  manager_ok (records w) = true ->
  writable (StudentManager.os w) (data_path w) = true ->
  StudentManager._validate_student_id (VStr sid) = true ->
  dict_get sid (records w) = Some st ->
  exists w',
    StudentManager.delete_student (VStr sid) w = (Ret true, w') /\
    (forall k, dict_get k (records w')
               = if str_eqb k sid then None else dict_get k (records w)) /\
    StudentManager.get_student_by_id (VStr sid) w'
    = (Raise (StudentNotFoundError (VStr sid)), w') /\
    StudentManager.__init__
      (StudentManager._data_manager (StudentManager.self w))
      (StudentManager.os w') = (Ret tt, w').
Proof.
  intros Ok W V G.
  exists (saved (without [sid] (records w)) w).
  split; [eapply delete_student_succeeds; eassumption|].
  assert (Gk : forall k, dict_get k (without [sid] (records w))
                         = if str_eqb k sid then None
                           else dict_get k (records w)).
  { intros k. rewrite without_get. unfold Student.str_in. simpl existsb.
    rewrite orb_false_r. reflexivity. }
  split; [exact Gk|]. split.
  - apply get_rejects. unfold saved.
    cbn [StudentManager.self StudentManager._students].
    rewrite Gk, str_eqb_refl. reflexivity.
  - apply restart_after_save. apply manager_ok_without. exact Ok.
Qed.

Lemma X24_delete_then_get_witness :
  exists w',
    StudentManager.delete_student (VStr Scenario.id1) Scenario.w2
    = (Ret true, w') /\
    (forall k, dict_get k (records w')
               = if str_eqb k Scenario.id1 then None
                 else dict_get k (records Scenario.w2)) /\
    StudentManager.get_student_by_id (VStr Scenario.id1) w'
    = (Raise (StudentNotFoundError (VStr Scenario.id1)), w') /\
    StudentManager.__init__
      (StudentManager._data_manager (StudentManager.self Scenario.w2))
      (StudentManager.os w') = (Ret tt, w').
Proof.
  apply (@X24_delete_then_get Scenario.id1 Scenario.student1 Scenario.w2).
  - vm_compute. reflexivity.
  - vm_compute. reflexivity.
  - vm_compute. reflexivity.
  - vm_compute. reflexivity.
Defined.

(** X25.  Saving then restarting: when the map has encodable keys and
    valid records and the data file can be written, [_save_students]
    returns [True] and leaves the map as it is, and a manager constructed
    anew on the data file holds the same records under the same keys in
    the same order. *)
Theorem X25_save_then_restart (w : StudentManager.world) :
  manager_ok (records w) = true ->
  writable (StudentManager.os w) (data_path w) = true ->
  exists w',
    StudentManager._save_students w = (Ret true, w') /\
    StudentManager.self w' = StudentManager.self w /\
    StudentManager.__init__
      (StudentManager._data_manager (StudentManager.self w))
      (StudentManager.os w') = (Ret tt, w').
Proof.
  intros Ok W. exists (saved (records w) w).
  split; [apply _save_students_ok; assumption|].
  split; [destruct w as [[dm d] o]; reflexivity|].
  apply restart_after_save. exact Ok.
Qed.

Lemma X25_save_then_restart_witness :
  exists w',
    StudentManager._save_students Scenario.w2 = (Ret true, w') /\
    StudentManager.self w' = StudentManager.self Scenario.w2 /\
    StudentManager.__init__
      (StudentManager._data_manager (StudentManager.self Scenario.w2))
      (StudentManager.os w') = (Ret tt, w').
Proof.
  apply (@X25_save_then_restart Scenario.w2).
  - vm_compute. reflexivity.
  - vm_compute. reflexivity.
Defined.

(* ------------------------------------------------------------------ *)
(** ** The manager: updating, backing up, keys that are not ids *)

(** X26.  A keyword argument that is not one of the five fields is not
    ignored: with such an argument [update_student] never returns, for
    any id and any manager; it raises. *)
Theorem X26_unknown_field_fails_the_update
  (student_id : value) (kwargs : dict value) (w : StudentManager.world) :
  has_unknown_field kwargs = true ->
  exists e w',
    StudentManager.update_student student_id kwargs w = (Raise e, w').
Proof.
  intros U. unfold StudentManager.update_student.
  destruct (negb (Student.binds [lit "self"; lit "student_id"] kwargs)) eqn:B;
    [eexists; eexists; reflexivity|].
  destruct (negb (StudentManager._validate_student_id student_id));
    [eexists; eexists; reflexivity|].
  unfold bind at 1.
  destruct (StudentManager.get_student_by_id student_id w) as [[st|e] w1];
    [|eexists; eexists; reflexivity].
  destruct student_id as [| | |sid| |]; try (eexists; eexists; reflexivity).
  unfold try_except at 1.
  unfold bind at 1. unfold lift_outcome at 1.
  assert (R : forall e (w0 : StudentManager.world), exists e' w',
             (if is_DataValidationError e then raise e
              else if is_ValueError e
                   then raise (DataValidationError None)
                   else raise OperationFailedError) w0
             = (Raise e' (A:=bool), w')).
  { intros e w0. destruct (is_DataValidationError e);
      [|destruct (is_ValueError e)]; eexists; eexists; reflexivity. }
  destruct (StudentManager.check_fields kwargs) as [[]|e]; [|apply R].
  unfold bind at 1. unfold StudentManager.students at 1.
  destruct (@update_info_from_unknown kwargs U false st) as [e He].
  unfold Student.update_info.
  destruct (Student.binds [lit "self"] kwargs).
  - destruct (Student.update_info_from false kwargs st) as [up st'].
    simpl in He. subst up.
    unfold bind at 1. unfold StudentManager.set_students at 1.
    unfold bind at 1. unfold lift_outcome at 1.
    apply R.
  - unfold bind at 1. unfold StudentManager.set_students at 1.
    unfold bind at 1. unfold lift_outcome at 1.
    apply R.
Qed.

Lemma X26_unknown_field_fails_the_update_witness :
  exists e w',
    StudentManager.update_student (VStr Scenario.id1)
      [(lit "nickname", VStr (lit "San"))] Scenario.w2 = (Raise e, w').
Proof.
  apply (@X26_unknown_field_fails_the_update (VStr Scenario.id1)
           [(lit "nickname", VStr (lit "San"))] Scenario.w2).
  vm_compute. reflexivity.
Defined.

(** X27.  [StudentManager.backup_data] leaves the manager as it is.
    When it returns a path, that path holds the text of the data file,
    which is not empty, and no other file has changed.  When it raises,
    the exception is [OperationFailedError], whatever the store raised,
    and no file has changed. *)
Theorem X27_manager_backup
  (w w' : StudentManager.world) (r : outcome path) :
  StudentManager.backup_data w = (r, w') ->
  StudentManager.self w' = StudentManager.self w /\
  match r with
  | Ret p =>
      p = backup_path DataManager.default_backup_dir (StudentManager.os w) /\
      (exists t, files (StudentManager.os w) (data_path w) = Some t /\
                 t <> [] /\ files (StudentManager.os w') p = Some t) /\
      forall q, q <> p ->
                files (StudentManager.os w') q = files (StudentManager.os w) q
  | Raise e =>
      e = OperationFailedError /\
      forall q, files (StudentManager.os w') q = files (StudentManager.os w) q
  end.
Proof.
  intros H. apply manager_backup_effect in H. destruct H as [S H].
  split; [exact S|].
  destruct r as [p|e].
  - apply backup_data_effect in H. destruct H as (_ & K & -> & _ & T).
    repeat split; [exact T|exact K].
  - destruct H as (-> & e0 & H).
    apply backup_data_effect in H. destruct H as (_ & _ & _ & K).
    split; [reflexivity|exact K].
Qed.

Lemma X27_manager_backup_witness :
  StudentManager.self (snd (StudentManager.backup_data Scenario.w2))
  = StudentManager.self Scenario.w2.
Proof.
  assert (H : StudentManager.backup_data Scenario.w2
              = (fst (StudentManager.backup_data Scenario.w2),
                 snd (StudentManager.backup_data Scenario.w2)))
    by apply surjective_pairing.
  exact (proj1 (@X27_manager_backup Scenario.w2 _ _ H)).
Defined.

(** X28.  A record that the data file holds under a key that fails the
    id check of the manager is loaded and listed, but cannot be reached
    by its key: [get_student_by_id] raises [StudentNotFoundError],
    [update_student] and [delete_student] raise [DataValidationError],
    and [delete_students_by_ids] deletes nothing; all leave the manager
    as it is. *)
Theorem X28_record_under_a_key_that_is_no_id
  (sid : pystr) (st : Student.t) (w : StudentManager.world) :
  dict_get sid (records w) = Some st ->
  StudentManager._validate_student_id (VStr sid) = false ->
  StudentManager.get_student_by_id (VStr sid) w
  = (Raise (StudentNotFoundError (VStr sid)), w) /\
  (forall kwargs,
     Student.binds [lit "self"; lit "student_id"] kwargs = true ->
     StudentManager.update_student (VStr sid) kwargs w
     = (Raise (DataValidationError None), w)) /\
  StudentManager.delete_student (VStr sid) w
  = (Raise (DataValidationError None), w) /\
  StudentManager.delete_students_by_ids [VStr sid] w
  = (Ret (0, StudentManager.NothingToDelete), w) /\
  exists l, StudentManager.get_all_students w = (Ret l, w) /\ In st l.
Proof.
  intros G V. repeat split.
  - unfold StudentManager.get_student_by_id. rewrite V. reflexivity.
  - intros kwargs B. unfold StudentManager.update_student.
    rewrite B, V. reflexivity.
  - unfold StudentManager.delete_student. rewrite V. reflexivity.
  - unfold StudentManager.delete_students_by_ids.
    unfold try_except, bind, StudentManager.students.
    cbn [StudentManager.classify]. rewrite V. reflexivity.
  - eexists. split; [reflexivity|].
    unfold StudentManager.values. apply in_map_iff.
    exists (sid, st). split; [reflexivity|].
    apply dict_get_Some_in. exact G.
Qed.

Lemma X28_record_under_a_key_that_is_no_id_witness :
  StudentManager.__init__ Scenario.dm Example.os_short_key
  = (Ret tt, Example.w_short_key) /\
  StudentManager.get_student_by_id (VStr (lit "ab")) Example.w_short_key
  = (Raise (StudentNotFoundError (VStr (lit "ab"))), Example.w_short_key) /\
  StudentManager.delete_student (VStr (lit "ab")) Example.w_short_key
  = (Raise (DataValidationError None), Example.w_short_key).
Proof.
  destruct (@X28_record_under_a_key_that_is_no_id (lit "ab")
              Scenario.student1 Example.w_short_key)
    as (H1 & _ & H3 & _).
  - vm_compute. reflexivity.
  - vm_compute. reflexivity.
  - split; [vm_compute; reflexivity|]. split; assumption.
Defined.

(* ------------------------------------------------------------------ *)
(** ** The user interface: the ids of a batch deletion *)

(** X29.  The ids that the batch deletion menu makes of the text typed:
    each is a piece between two commas, stripped; none is empty, none
    has white space at either end, none contains a comma. *)
Theorem X29_menu_ids (student_ids_str i : pystr) :
  In i (UserInterface.student_ids student_ids_str) ->
  i <> [] /\ strip i = i /\ ~ In 44%N i /\
  exists piece, In piece (split_comma student_ids_str) /\ i = strip piece.
Proof.
  rename student_ids_str into s.
  unfold UserInterface.student_ids. intros H.
  apply in_map_iff in H. destruct H as (piece & <- & H).
  apply filter_In in H. destruct H as [Hin Hne].
  repeat split.
  - intros E. rewrite E in Hne. discriminate.
  - apply strip_idem.
  - intros Hc. apply (split_comma_no_comma _ _ Hin).
    destruct (strip_split piece) as (w1 & w2 & E & _).
    rewrite E. apply in_or_app. right. apply in_or_app. left. exact Hc.
  - exists piece. auto.
Qed.

Lemma X29_menu_ids_witness :
  UserInterface.student_ids (lit " 2023001, ,2023001 ,x")
  = [Scenario.id1; Scenario.id1; lit "x"] /\
  strip Scenario.id1 = Scenario.id1.
Proof.
  split; [vm_compute; reflexivity|].
  apply (@X29_menu_ids (lit " 2023001, ,2023001 ,x") Scenario.id1).
  vm_compute. left. reflexivity.
Defined.
